(** * acp-node: webhook verification and the HTTP retry pipeline

    A shallow embedding of [src/Webhooks.ts], [src/Error.ts] and
    [src/net/FetchHttpClient.ts] of the acp-node SDK, and the properties
    of the specification that concern them.

    Conventions of the embedding.
    - A JavaScript string is modelled by the sequence of its UTF-8 bytes
      (Rocq [string]); [","], ["="], digits and the sign characters are
      single bytes in UTF-8 and never occur inside a multi-byte character,
      so splitting and integer parsing act on bytes as they act on
      UTF-16 code units.
    - An integral JavaScript number is a [Z] (exact below 2^53); [NaN] is
      explicit.  The jitter arithmetic of the backoff is done over [Q].
    - Exceptions are values: a computation returns [Ok v] or [Throw e].
    - Calls into the [crypto] module, the clock, the random source and
      [fetch] cross the boundary of the repository; the hash is a
      parameter and the other three are read from an explicit
      environment. *)

From Stdlib Require Import ZArith QArith Qminmax Lia Lqa.
From Stdlib Require Import Ascii String DecimalString DecimalZ DecimalPos.
From stdpp Require Import base gmap strings list.

Set Warnings "-register-all".
Close Scope Q_scope.
Open Scope string_scope.
Open Scope Z_scope.

(* ===================================================================== *)
(** * The JavaScript fragment the code relies on *)
(* ===================================================================== *)

Module JS.

(** Values as [JSON.parse], property access and [undefined] produce them. *)
Inductive value :=
| VUndefined
| VNull
| VBool (b : bool)
| VNum (q : Q)
| VStr (s : string)
| VArr (items : list value)
| VObj (fields : list (string * value)).

(** [ToBoolean]. *)
Definition truthy (v : value) : bool :=
  match v with
  | VUndefined | VNull => false
  | VBool b => b
  | VNum q => negb (Qnum q =? 0)
  | VStr s => negb (String.eqb s "")
  | VArr _ | VObj _ => true
  end.

(** [a || b]. *)
Definition or_else (a b : value) : value := if truthy a then a else b.

Fixpoint assoc_last (k : string) (fs : list (string * value)) : value :=
  match fs with
  | [] => VUndefined
  | (k', v) :: rest =>
      match assoc_last k rest with
      | VUndefined => if String.eqb k k' then v else VUndefined
      | found => found
      end
  end.

(** [v.k] on a value that is neither [null] nor [undefined]; the only
    own properties read by the code are data fields of parsed objects. *)
Definition get (v : value) (k : string) : value :=
  match v with
  | VObj fs => assoc_last k fs
  | _ => VUndefined
  end.

(** [v?.k]. *)
Definition opt_get (v : value) (k : string) : value :=
  match v with
  | VUndefined | VNull => VUndefined
  | _ => get v k
  end.

(** Numbers that may be [NaN]. *)
Inductive number := Num (z : Z) | NaN.

(** Thrown values: instances of the SDK's [ACPError] hierarchy are kept
    apart from every other exception ([TypeError], [SyntaxError],
    [AbortError], ...), of which only [name] and [message] are read. *)
Inductive thrown (E : Type) :=
| OfSdk (e : E)
| Native (name message : string).
Arguments OfSdk {E} e.
Arguments Native {E} name message.

Inductive result (E A : Type) :=
| Ok (a : A)
| Throw (e : thrown E).
Arguments Ok {E A} a.
Arguments Throw {E A} e.

(** ** Strings *)

(** [Number.MAX_SAFE_INTEGER] and [Number.isSafeInteger]: the integers
    that the source's numbers, which are doubles, hold exactly.  On
    these the source and this model agree: the template literal prints
    the full decimal numeral and [parseInt] reads it back exactly.
    Larger numbers are rounded by the source, and printed with an exponent
    from [1e21] on; a statement that prints a number and reads it back
    asks for a safe integer. *)
Definition MAX_SAFE_INTEGER : Z := 9007199254740991.

Definition isSafeInteger (z : Z) : bool := Z.abs z <=? MAX_SAFE_INTEGER.

(** [`${n}`] for an integral number: its decimal numeral, which is what
    the source prints for a safe integer. *)
Definition string_of_Z (z : Z) : string := NilZero.string_of_int (Z.to_int z).

(** [s.split(sep)] for a one-character separator. *)
Fixpoint split (sep : ascii) (s : string) : list string :=
  match s with
  | EmptyString => [EmptyString]
  | String c rest =>
      if Ascii.eqb c sep then EmptyString :: split sep rest
      else match split sep rest with
           | piece :: pieces => String c piece :: pieces
           | [] => [String c EmptyString]
           end
  end.

Definition byte_is (c : ascii) (n : N) : bool := N.eqb (N_of_ascii c) n.

(** White space and line terminators that are one byte long:
    TAB, LF, VT, FF, CR, SP. *)
Definition ws1 (c : ascii) : bool :=
  byte_is c 9 || byte_is c 10 || byte_is c 11 || byte_is c 12
  || byte_is c 13 || byte_is c 32.

(** U+00A0, the only two-byte one. *)
Definition ws2 (c1 c2 : ascii) : bool := byte_is c1 194 && byte_is c2 160.

(** U+1680, U+2000..U+200A, U+2028, U+2029, U+202F, U+205F, U+3000, U+FEFF. *)
Definition ws3 (c1 c2 c3 : ascii) : bool :=
  let b := N_of_ascii c3 in
  (byte_is c1 225 && byte_is c2 154 && byte_is c3 128)
  || (byte_is c1 226 && byte_is c2 128
      && ((N.leb 128 b && N.leb b 138) || byte_is c3 168 || byte_is c3 169
          || byte_is c3 175))
  || (byte_is c1 226 && byte_is c2 129 && byte_is c3 159)
  || (byte_is c1 227 && byte_is c2 128 && byte_is c3 128)
  || (byte_is c1 239 && byte_is c2 187 && byte_is c3 191).

(** Leading white space removed, as [parseInt] does first. *)
Fixpoint trim_start (s : string) : string :=
  match s with
  | EmptyString => s
  | String c1 s1 =>
      if ws1 c1 then trim_start s1
      else match s1 with
           | EmptyString => s
           | String c2 s2 =>
               if ws2 c1 c2 then trim_start s2
               else match s2 with
                    | EmptyString => s
                    | String c3 s3 =>
                        if ws3 c1 c2 c3 then trim_start s3 else s
                    end
           end
  end.

Definition digit_of (c : ascii) : option Z :=
  let n := Z.of_N (N_of_ascii c) in
  if (48 <=? n) && (n <=? 57) then Some (n - 48) else None.

(** Value of the longest prefix of decimal digits, most significant first. *)
Fixpoint digits_acc (s : string) (acc : Z) : Z :=
  match s with
  | EmptyString => acc
  | String c rest =>
      match digit_of c with
      | Some d => digits_acc rest (10 * acc + d)
      | None => acc
      end
  end.

(** [ToString] of the argument of [parseInt]: a string or [undefined]. *)
Definition ToString (v : option string) : string :=
  match v with
  | Some s => s
  | None => "undefined"
  end.

(** [parseInt(v, 10)], the integer read kept exact; the source's result
    is the nearest double, the same number when it is a safe integer. *)
Definition parseInt (v : option string) : number :=
  let s := trim_start (ToString v) in
  let '(sign, body) :=
    match s with
    | String "-" rest => (-1, rest)
    | String "+" rest => (1, rest)
    | _ => (1, s)
    end in
  match body with
  | EmptyString => NaN
  | String c _ =>
      match digit_of c with
      | Some _ => Num (sign * digits_acc body 0)
      | None => NaN
      end
  end.

(** [s.substring(i, j)] for [0 <= i <= j]. *)
Definition substring (i j : nat) (s : string) : string :=
  String.substring i (j - i) s.

(** ASCII lower case, as the [Headers] class normalises field names. *)
Definition lower_ascii (c : ascii) : ascii :=
  let n := N_of_ascii c in
  if N.leb 65 n && N.leb n 90 then ascii_of_N (n + 32) else c.

Fixpoint to_lower (s : string) : string :=
  match s with
  | EmptyString => EmptyString
  | String c rest => String (lower_ascii c) (to_lower rest)
  end.

Fixpoint join_with (sep : string) (l : list string) : string :=
  match l with
  | [] => ""
  | [x] => x
  | x :: rest => x ++ sep ++ join_with sep rest
  end.

(** [`${v}`] for an arbitrary value.  [Number_toString] is the
    runtime's rendering of a number. *)
Fixpoint ToString_value (Number_toString : Q -> string) (v : value)
  : string :=
  match v with
  | VUndefined => "undefined"
  | VNull => "null"
  | VBool b => if b then "true" else "false"
  | VNum q => Number_toString q
  | VStr s => s
  | VArr items =>
      join_with ","
        (List.map
           (fun item =>
              match item with
              | VUndefined | VNull => ""
              | _ => ToString_value Number_toString item
              end)
           items)
  | VObj _ => "[object Object]"
  end.

(** ** Bytes in hexadecimal, as [digest('hex')] prints them *)

Definition hex_digit (n : N) : ascii :=
  ascii_of_N (if N.ltb n 10 then 48 + n else 87 + n).

Fixpoint hex_of_bytes (bs : string) : string :=
  match bs with
  | EmptyString => EmptyString
  | String b rest =>
      let n := N_of_ascii b in
      String (hex_digit (N.div n 16))
        (String (hex_digit (N.modulo n 16)) (hex_of_bytes rest))
  end.

End JS.

(* ===================================================================== *)
(** * [src/Error.ts] *)
(* ===================================================================== *)

Module Error.
Import JS.

(** The fields every error of the hierarchy carries.  [name] tells the
    classes apart; [message] is the argument handed to [Error] by
    [super(message)], of which the source's [error.message] is the
    conversion to a string ([message_text] below): the two are the same
    when the argument is a string. *)
Record ACPError := mkACPError {
  name : string;
  message : value;
  type : string;
  code : value;
  statusCode : Z;
  param : value;
  requestId : value
}.

(** A parameter with a default value: the default is taken when the
    argument is [undefined]. *)
Definition default (d v : value) : value :=
  match v with
  | VUndefined => d
  | _ => v
  end.

Definition rename (n : string) (e : ACPError) : ACPError :=
  mkACPError n (message e) (type e) (code e) (statusCode e) (param e)
    (requestId e).

Definition ACPError_new (message : value) (type : string) (code : value)
    (statusCode : Z) (param requestId : value) : ACPError :=
  mkACPError "ACPError" message type code statusCode param requestId.

Definition ACPAuthenticationError (message requestId : value) : ACPError :=
  rename "ACPAuthenticationError"
    (ACPError_new (default (VStr "Authentication failed") message)
       "authentication_error" (VStr "authentication_required") 401
       VUndefined requestId).

Definition ACPPermissionError (message requestId : value) : ACPError :=
  rename "ACPPermissionError"
    (ACPError_new (default (VStr "Permission denied") message)
       "permission_error" (VStr "permission_denied") 403 VUndefined requestId).

Definition ACPNotFoundError (message requestId : value) : ACPError :=
  rename "ACPNotFoundError"
    (ACPError_new (default (VStr "Resource not found") message)
       "not_found_error" (VStr "resource_not_found") 404 VUndefined requestId).

Definition ACPInvalidRequestError (message code : value)
    (statusCode : option Z) (param requestId : value) : ACPError :=
  rename "ACPInvalidRequestError"
    (ACPError_new (default (VStr "Invalid request") message)
       "invalid_request_error" (default (VStr "invalid_request") code)
       (match statusCode with Some c => c | None => 400 end) param requestId).

Definition ACPAPIError (message : value) (statusCode : option Z)
    (requestId : value) : ACPError :=
  rename "ACPAPIError"
    (ACPError_new (default (VStr "API error") message)
       "api_error" (VStr "internal_error")
       (match statusCode with Some c => c | None => 500 end)
       VUndefined requestId).

Definition ACPConnectionError (message : value) : ACPError :=
  rename "ACPConnectionError"
    (ACPError_new (default (VStr "Network connection failed") message)
       "connection_error" (VStr "network_error") 0 VUndefined VUndefined).

Definition ACPRateLimitError (message requestId : value) : ACPError :=
  rename "ACPRateLimitError"
    (ACPError_new (default (VStr "Rate limit exceeded") message)
       "rate_limit_error" (VStr "rate_limit_exceeded") 429 VUndefined
       requestId).

Definition ACPSignatureVerificationError (message : value) : ACPError :=
  rename "ACPSignatureVerificationError"
    (ACPError_new
       (default (VStr "Webhook signature verification failed") message)
       "signature_verification_error" (VStr "invalid_signature") 400
       VUndefined VUndefined).

Definition ACPIdempotencyError (message requestId : value) : ACPError :=
  rename "ACPIdempotencyError"
    (ACPError_new (default (VStr "Idempotency key conflict") message)
       "idempotency_error" (VStr "idempotency_key_in_use") 409 VUndefined
       requestId).

(** [ACPError.generate(statusCode, body, requestId)]. *)
Definition generate (statusCode : Z) (body requestId : value) : ACPError :=
  let error := or_else (or_else (opt_get body "error") body) (VObj []) in
  let message :=
    or_else (get error "message")
      (VStr ("Request failed with status " ++ string_of_Z statusCode)) in
  let code := or_else (get error "code") (VStr "unknown_error") in
  let param := get error "param" in
  if statusCode =? 400 then
    ACPInvalidRequestError message code (Some statusCode) param requestId
  else if statusCode =? 401 then ACPAuthenticationError message requestId
  else if statusCode =? 403 then ACPPermissionError message requestId
  else if statusCode =? 404 then ACPNotFoundError message requestId
  else if statusCode =? 429 then ACPRateLimitError message requestId
  else if (400 <=? statusCode) && (statusCode <? 500) then
    ACPInvalidRequestError message code (Some statusCode) param requestId
  else ACPAPIError message (Some statusCode) requestId.

End Error.

(* ===================================================================== *)
(** * [src/Webhooks.ts] *)
(* ===================================================================== *)

Module Webhooks.
Import JS.
Export Error.

(** Calls into Node's [crypto] module, in the order they are made. *)
Inductive crypto_call :=
| CreateHmac (key data : string)
| TimingSafeEqual (a b : string).

(** A computation: the crypto calls it made, and how it ended. *)
Definition M (A : Type) : Type := list crypto_call * result ACPError A.

Definition ret {A} (a : A) : M A := ([], Ok a).
Definition throw {A} (e : thrown ACPError) : M A := ([], Throw e).
Definition call (c : crypto_call) : M unit := ([c], Ok tt).

Definition bind {A B} (m : M A) (k : A -> M B) : M B :=
  match m with
  | (log, Ok a) => let '(log', r) := k a in ((log ++ log')%list, r)
  | (log, Throw e) => (log, Throw e)
  end.

(** [try { m } catch (e) { handler e }]. *)
Definition try_catch {A} (m : M A) (handler : thrown ACPError -> M A) : M A :=
  match m with
  | (log, Ok a) => (log, Ok a)
  | (log, Throw e) => let '(log', r) := handler e in ((log ++ log')%list, r)
  end.

Notation "'do' x <- m ; k" := (bind m (fun x => k))
  (at level 10, x name, m at level 100, k at level 200).

Definition calls {A} (m : M A) : list crypto_call := fst m.
Definition outcome {A} (m : M A) : result ACPError A := snd m.

(** [array.some(f)]: stops at the first element [f] accepts. *)
Fixpoint some {A} (f : A -> M bool) (l : list A) : M bool :=
  match l with
  | [] => ret false
  | x :: rest => do b <- f x ; if b : bool then ret true else some f rest
  end.

Record WebhookHeader := mkWebhookHeader {
  timestamp : Z;
  signatures : list (option string)
}.

Definition DEFAULT_TOLERANCE : Z := 300.

(** A [tolerance] parameter left out takes the default. *)
Definition tolerance_or_default (tolerance : option Z) : Z :=
  match tolerance with
  | Some t => t
  | None => DEFAULT_TOLERANCE
  end.

Definition sig_error {A} (msg : string) : result ACPError A :=
  Throw (OfSdk (ACPSignatureVerificationError (VStr msg))).

(** One turn of the loop of [parseHeader] over the comma-separated parts.
    A part without ["="] leaves [value] undefined. *)
Definition parseHeader_step (st : number * list (option string))
    (part : string) : number * list (option string) :=
  let '(timestamp, signatures) := st in
  let fields := split "=" part in
  let key := fields !! 0%nat in
  let value := fields !! 1%nat in
  if decide (key = Some "t") then (parseInt value, signatures)
  else if decide (key = Some "v1") then (timestamp, (signatures ++ [value])%list)
  else (timestamp, signatures).

(** [parseHeader(header)].  [!timestamp] holds of [NaN] and of zero, so
    the timestamp returned is a non-zero integer. *)
Definition parseHeader (header : string) : result ACPError WebhookHeader :=
  if String.eqb header "" then
    sig_error "No webhook signature header provided."
  else
    let parts := split "," header in
    let '(timestamp, signatures) :=
      fold_left parseHeader_step parts (Num 0, []) in
    match timestamp with
    | NaN => sig_error "Unable to extract timestamp from webhook header."
    | Num t =>
        if t =? 0 then
          sig_error "Unable to extract timestamp from webhook header."
        else if (length signatures =? 0)%nat then
          sig_error "Unable to extract signature from webhook header."
        else Ok (mkWebhookHeader t signatures)
    end.

Definition lift {A} (r : result ACPError A) : M A := ([], r).

(** [Math.floor(Date.now() / 1000) - header.timestamp]. *)
Definition timestampAge (Date_now : Z) (header : WebhookHeader) : Z :=
  Date_now / 1000 - timestamp header.

Definition too_old_message (age tolerance : Z) : string :=
  "Webhook timestamp too old. Event is " ++ string_of_Z age
  ++ " seconds old, tolerance is " ++ string_of_Z tolerance ++ " seconds.".

(** [Buffer.from(v)]: a [TypeError] on [undefined]. *)
Definition Buffer_from (v : option string) : M string :=
  match v with
  | Some s => ret s
  | None =>
      throw (Native "TypeError"
               "The first argument must be of type string or an instance of Buffer")
  end.

(** [crypto.timingSafeEqual(a, b)]: a [RangeError] when the byte lengths
    differ, else whether the buffers hold the same bytes. *)
Definition timingSafeEqual (a b : string) : M bool :=
  do _ <- call (TimingSafeEqual a b) ;
  if (String.length a =? String.length b)%nat then ret (String.eqb a b)
  else throw (Native "RangeError" "Input buffers must have the same byte length").

Definition secureCompare (a : option string) (b : string) : M bool :=
  try_catch
    (do x <- Buffer_from a ;
     do y <- Buffer_from (Some b) ;
     timingSafeEqual x y)
    (fun _ => ret false).

(** The raw request body: a string, or a [Buffer] of bytes. *)
Inductive raw_payload :=
| Text (s : string)
| Buffer (bytes : string).

Section Runtime.

(** [crypto.createHmac('sha256', key).update(data).digest()]: the raw
    digest.  Printing it in hexadecimal is [hex_of_bytes]. *)
Variable hmac_sha256 : string -> string -> string.

(** [JSON.parse]; [None] stands for the [SyntaxError] it throws. *)
Variable JSON_parse : string -> option value.

(** [buffer.toString('utf8')]. *)
Variable Buffer_toString : string -> string.

(** [typeof payload === 'string' ? payload : payload.toString('utf8')]. *)
Definition payloadString_of (payload : raw_payload) : string :=
  match payload with
  | Text s => s
  | Buffer bytes => Buffer_toString bytes
  end.

Definition computeSignature (timestamp : Z) (payload secret : string)
  : M string :=
  let signedPayload := string_of_Z timestamp ++ "." ++ payload in
  do _ <- call (CreateHmac secret signedPayload) ;
  ret (hex_of_bytes (hmac_sha256 secret signedPayload)).

Definition constructEvent (Date_now : Z) (payload : raw_payload)
    (signature secret : string) (tolerance : option Z) : M value :=
  let tolerance := tolerance_or_default tolerance in
  let payloadString := payloadString_of payload in
  do header <- lift (parseHeader signature) ;
  let timestampAge := timestampAge Date_now header in
  if timestampAge >? tolerance then
    lift (sig_error (too_old_message timestampAge tolerance))
  else
    do expectedSignature <-
      computeSignature (timestamp header) payloadString secret ;
    do signatureMatches <-
      some (fun sig => secureCompare sig expectedSignature)
        (signatures header) ;
    if negb signatureMatches then
      lift (sig_error
              "Webhook signature verification failed. No matching signature found.")
    else
      match JSON_parse payloadString with
      | Some event => ret event
      | None => lift (sig_error "Failed to parse webhook payload as JSON.")
      end.

Definition verifySignature (Date_now : Z) (payload : raw_payload)
    (signature secret : string) (tolerance : option Z) : M bool :=
  let tolerance := tolerance_or_default tolerance in
  try_catch
    (let payloadString := payloadString_of payload in
     do header <- lift (parseHeader signature) ;
     let timestampAge := timestampAge Date_now header in
     if timestampAge >? tolerance then ret false
     else
       do expectedSignature <-
         computeSignature (timestamp header) payloadString secret ;
       some (fun sig => secureCompare sig expectedSignature)
         (signatures header))
    (fun _ => ret false).

(** [opts.timestamp ?? Math.floor(Date.now() / 1000)], then the header,
    for a timestamp that is an integer. *)
Definition generateTestHeaderString (Date_now : Z) (payload secret : string)
    (timestamp : option Z) : M string :=
  let timestamp :=
    match timestamp with Some t => t | None => Date_now / 1000 end in
  do signature <- computeSignature timestamp payload secret ;
  ret ("t=" ++ string_of_Z timestamp ++ ",v1=" ++ signature).

End Runtime.

End Webhooks.

(* ===================================================================== *)
(** * [src/net/HttpClient.ts] and [src/net/FetchHttpClient.ts] *)
(* ===================================================================== *)

Module FetchHttpClient.
Import JS.
Export Error.

Record HttpClientConfig := mkHttpClientConfig {
  apiKey : string;
  apiVersion : string;
  timeout : Z;
  maxNetworkRetries : Z;
  host : string
}.

Record RequestOptions := mkRequestOptions {
  idempotencyKey : option string;
  timeout_opt : option Z;
  maxNetworkRetries_opt : option Z
}.

(** What [fetch] resolves to.  [resp_headers] is keyed by lower-case
    field names; [json] is how [response.json()] ends. *)
Inductive json_outcome :=
| JsonOk (data : value)
| JsonFails (name message : string).

Record Response := mkResponse {
  status : Z;
  resp_headers : gmap string string;
  json : json_outcome
}.

Definition ok (r : Response) : bool := (200 <=? status r) && (status r <=? 299).

(** [response.headers.get(name)]; [None] is [null]. *)
Definition headers_get (r : Response) (name : string) : option string :=
  resp_headers r !! to_lower name.

(** [h || d] on a header value: [null] and the empty string are falsy. *)
Definition header_or (h : option string) (d : string) : string :=
  match h with
  | Some v => if String.eqb v "" then d else v
  | None => d
  end.

Inductive fetch_outcome :=
| Responded (r : Response)
| Rejected (name message : string).

(** What one turn of the retry loop reads from outside: the clock and the
    random source for the request identifier, the fate of the request
    (a timeout is a rejection named ["AbortError"]), and the random
    number of the backoff. *)
Record attempt_env := mkAttemptEnv {
  Date_now : Z;
  random_base36 : string;
  fetched : fetch_outcome;
  Math_random : Q
}.

Definition world := nat -> attempt_env.

(** The argument of [sleep]. *)
Inductive ms := Millis (q : Q) | MillisNaN.

(** The request handed to [fetch]; [body] is the value serialised by
    [JSON.stringify]. *)
Record Request := mkRequest {
  url : string;
  method : string;
  headers : gmap string string;
  body : option value
}.

(** One physical attempt: the request sent, and the delay slept before
    the next turn, if any. *)
Record attempt_record := mkAttempt {
  request : Request;
  slept : option ms
}.

Definition userAgent : string := "acp-node/0.1.0".

Definition Math_pow2 (n : nat) : Q := inject_Z (2 ^ Z.of_nat n).

(** [getBackoffMs(attempt)], the draw of [Math.random()] made explicit. *)
Definition jitter_of (random : Q) : Q := (random * (1 # 2) + (3 # 4))%Q.

Definition getBackoffMs (attempt : nat) (random : Q) : Q :=
  let baseDelay := (Math_pow2 attempt * 500)%Q in
  let jitter := jitter_of random in
  Qmin (baseDelay * jitter)%Q 30000%Q.

(** [generateRequestId()]:
    [`req_${Date.now()}_${Math.random().toString(36).substring(2, 11)}`]. *)
Definition generateRequestId (env : attempt_env) : string :=
  "req_" ++ string_of_Z (Date_now env) ++ "_"
  ++ substring 2 11 (random_base36 env).

(** [parseInt(response.headers.get('Retry-After') || '1', 10) * 1000]. *)
Definition retry_after_ms (r : Response) : ms :=
  match parseInt (Some (header_or (headers_get r "Retry-After") "1")) with
  | Num retryAfter => Millis (inject_Z (retryAfter * 1000))
  | NaN => MillisNaN
  end.

(** How one turn of the loop ends. *)
Inductive completion :=
| Return (data : value)
| Raise (e : thrown ACPError)
| Continue (delay : ms)
| FallThrough.

Section Loop.

Variable Number_toString : Q -> string.
Variable w : world.
Variable timeout : Z.
Variable maxRetries : Z.

(** The [try] block of one turn, after the request was issued. *)
Definition try_block (attempt : nat) (requestId : string) : completion :=
  match fetched (w attempt) with
  | Rejected name message => Raise (Native name message)
  | Responded response =>
      let responseRequestId :=
        header_or (headers_get response "x-request-id") requestId in
      if negb (ok response) then
        let errorBody :=
          match json response with
          | JsonOk v => v
          | JsonFails _ _ => VObj []
          end in
        if (400 <=? status response) && (status response <? 500)
           && negb (status response =? 429) then
          Raise (OfSdk (generate (status response) errorBody
                          (VStr responseRequestId)))
        else if status response =? 429 then
          if Z.of_nat attempt <? maxRetries then
            Continue (retry_after_ms response)
          else
            let errorMessage :=
              opt_get (opt_get errorBody "error") "message" in
            Raise (OfSdk (ACPRateLimitError errorMessage
                            (VStr responseRequestId)))
        else if Z.of_nat attempt <? maxRetries then
          Continue (Millis (getBackoffMs attempt (Math_random (w attempt))))
        else
          Raise (OfSdk (generate (status response) errorBody
                          (VStr responseRequestId)))
      else
        match json response with
        | JsonOk data => Return data
        | JsonFails name message => Raise (Native name message)
        end
  end.

(** The [catch] block, entered with whatever the [try] block threw. *)
Definition catch_block (attempt : nat) (error : thrown ACPError)
  : completion :=
  match error with
  | OfSdk _ => Raise error
  | Native name _ =>
      if String.eqb name "AbortError" then
        if Z.of_nat attempt <? maxRetries then
          Continue (Millis (getBackoffMs attempt (Math_random (w attempt))))
        else
          Raise (OfSdk (ACPConnectionError
                          (VStr ("Request timeout after "
                                 ++ string_of_Z timeout ++ "ms"))))
      else if Z.of_nat attempt <? maxRetries then
        Continue (Millis (getBackoffMs attempt (Math_random (w attempt))))
      else FallThrough
  end.

(** One turn: the completion, and [lastError] after it. *)
Definition turn (attempt : nat) (requestId : string)
    (lastError : option (thrown ACPError))
  : completion * option (thrown ACPError) :=
  match try_block attempt requestId with
  | Raise error => (catch_block attempt error, Some error)
  | done => (done, lastError)
  end.

(** [error.message]: the string the [Error] constructor made of its
    argument, empty when the argument was [undefined]. *)
Definition message_text (e : thrown ACPError) : string :=
  match e with
  | OfSdk err =>
      match message err with
      | VUndefined => ""
      | v => ToString_value Number_toString v
      end
  | Native _ m => m
  end.

(** The statement after the loop; [lastError?.message || 'Unknown error']
    falls back on the empty string as on [null]. *)
Definition exhausted (lastError : option (thrown ACPError)) : ACPError :=
  let last :=
    match lastError with
    | Some e =>
        if String.eqb (message_text e) "" then "Unknown error"
        else message_text e
    | None => "Unknown error"
    end in
  ACPConnectionError
    (VStr ("Request failed after " ++ string_of_Z (maxRetries + 1)
           ++ " attempts: " ++ last)).

Variable url_ : string.
Variable method_ : string.
Variable params : option value.

(** [for (let attempt = 0; attempt <= maxRetries; attempt++)].  The body
    changes neither [attempt] nor [maxRetries], so the loop makes the
    turns [attempt], [attempt + 1], ... that are left up to
    [maxRetries]; [turns] counts them, and none left is the exit of the
    loop. *)
Fixpoint attempts (turns : nat) (attempt : nat)
    (headers : gmap string string) (lastError : option (thrown ACPError))
  : list attempt_record * result ACPError value :=
  match turns with
  | O => ([], Throw (OfSdk (exhausted lastError)))
  | S turns' =>
      let requestId := generateRequestId (w attempt) in
      let headers := <["X-Request-Id" := requestId]> headers in
      let sent := mkRequest url_ method_ headers params in
      match turn attempt requestId lastError with
      | (Return data, _) => ([mkAttempt sent None], Ok data)
      | (Raise e, _) => ([mkAttempt sent None], Throw e)
      | (Continue delay, lastError) =>
          let '(log, r) := attempts turns' (S attempt) headers lastError in
          (mkAttempt sent (Some delay) :: log, r)
      | (FallThrough, lastError) =>
          let '(log, r) := attempts turns' (S attempt) headers lastError in
          (mkAttempt sent None :: log, r)
      end
  end.

End Loop.

Definition effective_timeout (config : HttpClientConfig)
    (options : option RequestOptions) : Z :=
  match options with
  | Some o => match timeout_opt o with Some t => t | None => timeout config end
  | None => timeout config
  end.

Definition effective_maxRetries (config : HttpClientConfig)
    (options : option RequestOptions) : Z :=
  match options with
  | Some o =>
      match maxNetworkRetries_opt o with
      | Some n => n
      | None => maxNetworkRetries config
      end
  | None => maxNetworkRetries config
  end.

(** [options?.idempotencyKey] when it is truthy. *)
Definition truthy_key (options : option RequestOptions) : option string :=
  match options with
  | Some o =>
      match idempotencyKey o with
      | Some k => if String.eqb k "" then None else Some k
      | None => None
      end
  | None => None
  end.

Definition initial_headers (config : HttpClientConfig)
    (options : option RequestOptions) : gmap string string :=
  let headers : gmap string string :=
    <["User-Agent" := userAgent]>
      (<["ACP-Version" := apiVersion config]>
         (<["Authorization" := "Bearer " ++ apiKey config]>
            (<["Content-Type" := "application/json"]> ∅))) in
  match truthy_key options with
  | Some k => <["Idempotency-Key" := k]> headers
  | None => headers
  end.

Definition makeRequest (Number_toString : Q -> string) (w : world)
    (config : HttpClientConfig) (method path : string)
    (params : option value) (options : option RequestOptions)
  : list attempt_record * result ACPError value :=
  let url := "https://" ++ host config ++ "/v1" ++ path in
  let timeout := effective_timeout config options in
  let maxRetries := effective_maxRetries config options in
  let headers := initial_headers config options in
  attempts Number_toString w timeout maxRetries url method params
    (Z.to_nat (maxRetries + 1)) 0%nat headers None.

End FetchHttpClient.

(* ===================================================================== *)
(** * [src/acp.ts], [src/ACPResource.ts] and the resources *)
(* ===================================================================== *)

Module Client.
Import JS.
Export FetchHttpClient.

Definition VERSION : string := "0.1.0".
Definition DEFAULT_API_VERSION : string := "2026-01-16".
Definition DEFAULT_TIMEOUT : Z := 80000.
Definition DEFAULT_MAX_RETRIES : Z := 2.
Definition DEFAULT_HOST : string := "api.agentic-commerce.com".

(** [ACPConfig]: every field may be left out. *)
Record ACPConfig := mkACPConfig {
  config_apiKey : option string;
  config_apiVersion : option string;
  config_timeout : option Z;
  config_maxNetworkRetries : option Z;
  config_host : option string
}.

(** [{}]. *)
Definition no_config : ACPConfig := mkACPConfig None None None None None.

(** The first argument of the constructor: [string | ACPConfig]. *)
Inductive key_or_config :=
| Key (apiKey : string)
| Config (config : ACPConfig).

(** [a || b] on strings that may be [undefined]: the second operand is
    the result, whatever it is, when the first is missing or empty. *)
Definition string_or (a b : option string) : option string :=
  match a with
  | Some v => if String.eqb v "" then b else a
  | None => b
  end.

(** [a || d] with a default that is a string. *)
Definition string_or_default (a : option string) (d : string) : string :=
  match a with
  | Some v => if String.eqb v "" then d else v
  | None => d
  end.

(** The client: its resources only point back to it, so the
    configuration is all it holds. *)
Record ACP := mkACP {
  _config : HttpClientConfig
}.

(** [new ACP(apiKeyOrConfig, config)]; [env_ACP_API_KEY] is
    [process.env.ACP_API_KEY]. *)
Definition constructor (env_ACP_API_KEY : option string)
    (apiKeyOrConfig : key_or_config) (config : option ACPConfig)
  : result ACPError ACP :=
  let apiKey :=
    match apiKeyOrConfig with
    | Key k => Some k
    | Config c => string_or (config_apiKey c) env_ACP_API_KEY
    end in
  let finalConfig :=
    match apiKeyOrConfig with
    | Config c => c
    | Key _ => match config with Some c => c | None => no_config end
    end in
  match apiKey with
  | None | Some "" =>
      Throw (OfSdk (ACPAuthenticationError
                      (VStr "No API key provided. Set the ACP_API_KEY environment variable or pass it to the ACP constructor.")
                      VUndefined))
  | Some apiKey =>
      Ok (mkACP
            (mkHttpClientConfig
               apiKey
               (string_or_default (config_apiVersion finalConfig)
                  DEFAULT_API_VERSION)
               (match config_timeout finalConfig with
                | Some t => if t =? 0 then DEFAULT_TIMEOUT else t
                | None => DEFAULT_TIMEOUT
                end)
               (match config_maxNetworkRetries finalConfig with
                | Some n => n
                | None => DEFAULT_MAX_RETRIES
                end)
               (string_or_default (config_host finalConfig) DEFAULT_HOST)))
  end.

Definition getApiVersion (acp : ACP) : string := apiVersion (_config acp).

Section Transport.

Variable Number_toString : Q -> string.
Variable w : world.

(** [acp._makeRequest(method, path, params, options)]. *)
Definition _makeRequest (acp : ACP) (method path : string)
    (params : option value) (options : option RequestOptions)
  : list attempt_record * result ACPError value :=
  makeRequest Number_toString w (_config acp) method path params options.

(** [ACPResource._request]: the resource's base path comes first. *)
Definition _request (acp : ACP) (_basePath : string) (method path : string)
    (params : option value) (options : option RequestOptions)
  : list attempt_record * result ACPError value :=
  let fullPath := _basePath ++ path in
  _makeRequest acp method fullPath params options.

(** A parameter object of a resource method: its fields. *)
Definition params_object := list (string * value).

(** [CheckoutSessions]. *)
Definition checkoutSessions_basePath : string := "/checkout_sessions".

Definition checkoutSessions_create (acp : ACP) (params : params_object)
    (options : option RequestOptions) :=
  _request acp checkoutSessions_basePath "POST" "" (Some (VObj params)) options.

Definition checkoutSessions_retrieve (acp : ACP) (id : string)
    (options : option RequestOptions) :=
  _request acp checkoutSessions_basePath "GET" ("/" ++ id) None options.

Definition checkoutSessions_update (acp : ACP) (id : string)
    (params : params_object) (options : option RequestOptions) :=
  _request acp checkoutSessions_basePath "POST" ("/" ++ id)
    (Some (VObj params)) options.

Definition checkoutSessions_complete (acp : ACP) (id : string)
    (params : params_object) (options : option RequestOptions) :=
  _request acp checkoutSessions_basePath "POST" ("/" ++ id ++ "/complete")
    (Some (VObj params)) options.

Definition checkoutSessions_cancel (acp : ACP) (id : string)
    (options : option RequestOptions) :=
  _request acp checkoutSessions_basePath "POST" ("/" ++ id ++ "/cancel")
    None options.

(** [DelegatePayment]. *)
Definition delegatePayment_basePath : string := "/delegate_payment".

Definition delegatePayment_create (acp : ACP) (params : params_object)
    (options : option RequestOptions) :=
  _request acp delegatePayment_basePath "POST" "" (Some (VObj params)) options.

End Transport.

End Client.

(* ===================================================================== *)
(** * The class hierarchy of [src/Error.ts] and [instanceof] *)
(* ===================================================================== *)

Module Classes.
Import JS.

Inductive class :=
| Error_
| ACPError_
| ACPAuthenticationError_
| ACPPermissionError_
| ACPNotFoundError_
| ACPInvalidRequestError_
| ACPAPIError_
| ACPConnectionError_
| ACPRateLimitError_
| ACPSignatureVerificationError_
| ACPIdempotencyError_.

Definition class_eqb (a b : class) : bool :=
  match a, b with
  | Error_, Error_ | ACPError_, ACPError_
  | ACPAuthenticationError_, ACPAuthenticationError_
  | ACPPermissionError_, ACPPermissionError_
  | ACPNotFoundError_, ACPNotFoundError_
  | ACPInvalidRequestError_, ACPInvalidRequestError_
  | ACPAPIError_, ACPAPIError_
  | ACPConnectionError_, ACPConnectionError_
  | ACPRateLimitError_, ACPRateLimitError_
  | ACPSignatureVerificationError_, ACPSignatureVerificationError_
  | ACPIdempotencyError_, ACPIdempotencyError_ => true
  | _, _ => false
  end.

(** [class C extends P]. *)
Definition extends (c : class) : option class :=
  match c with
  | Error_ => None
  | ACPError_ => Some Error_
  | _ => Some ACPError_
  end.

(** The longest path of [extends] links, from a subclass to [Error]. *)
Definition depth : nat := 2.

(** The prototype of the object once the constructor of [c] has run on
    it.  A constructor first runs its parent's with [super(...)] and then
    its own body; the body of [ACPError]'s ends with
    [Object.setPrototypeOf(this, ACPError.prototype)], and the bodies of
    its subclasses only assign [this.name]. *)
Fixpoint run_constructor (fuel : nat) (c : class) (prototype : class)
  : class :=
  let after_super :=
    match fuel, extends c with
    | S fuel', Some parent => run_constructor fuel' parent prototype
    | _, _ => prototype
    end in
  match c with
  | ACPError_ => ACPError_
  | _ => after_super
  end.

(** [new C(...)]: the object starts with the prototype of [C] and is
    handed to the constructors. *)
Definition prototype_of_new (c : class) : class := run_constructor depth c c.

(** The prototype chain that starts at the prototype of a class. *)
Fixpoint chain_from (fuel : nat) (c : class) : list class :=
  c :: match fuel, extends c with
       | S fuel', Some parent => chain_from fuel' parent
       | _, _ => []
       end.

Definition prototype_chain (c : class) : list class := chain_from depth c.

(** [(new C(...)) instanceof D]. *)
Definition new_instanceof (c d : class) : bool :=
  existsb (class_eqb d) (prototype_chain (prototype_of_new c)).

(** The class that built an error of the hierarchy, read off its [name]. *)
Definition class_named (name : string) : class :=
  if String.eqb name "ACPAuthenticationError" then ACPAuthenticationError_
  else if String.eqb name "ACPPermissionError" then ACPPermissionError_
  else if String.eqb name "ACPNotFoundError" then ACPNotFoundError_
  else if String.eqb name "ACPInvalidRequestError" then ACPInvalidRequestError_
  else if String.eqb name "ACPAPIError" then ACPAPIError_
  else if String.eqb name "ACPConnectionError" then ACPConnectionError_
  else if String.eqb name "ACPRateLimitError" then ACPRateLimitError_
  else if String.eqb name "ACPSignatureVerificationError"
  then ACPSignatureVerificationError_
  else if String.eqb name "ACPIdempotencyError" then ACPIdempotencyError_
  else ACPError_.

(** [err instanceof D] for a thrown value.  The native exceptions met
    here ([TypeError], [SyntaxError], [RangeError], [AbortError]) are
    instances of [Error] and of no class of the SDK. *)
Definition instanceof (err : thrown Error.ACPError) (d : class) : bool :=
  match err with
  | OfSdk e => new_instanceof (class_named (Error.name e)) d
  | Native _ _ => class_eqb d Error_
  end.

End Classes.

(* ===================================================================== *)
(** * [examples/webhook-handler.ts] *)
(* ===================================================================== *)

Module WebhookHandler.
Import JS.
Export Webhooks.

Definition WEBHOOK_SECRET : string := "whsec_your_webhook_secret_here".

Record MockRequest := mkMockRequest {
  body : string;
  headers : gmap string string
}.

(** What the handler answers: [res.status(code).send(message)], or
    [res.json(data)]. *)
Inductive response :=
| Sent (code : Z) (message : string)
| Json (data : value).

Section Handler.

Variable hmac_sha256 : string -> string -> string.
Variable JSON_parse : string -> option value.
Variable Buffer_toString : string -> string.
Variable Date_now : Z.

(** Between the verification and the answer the handler logs the event
    and runs the function of its type, which logs in turn.  Nothing of
    that reaches the answer unless it throws ([event.type] read on
    [null], [toISOString()] on an invalid date, [data.id] on missing
    data, a value that has no conversion to a string); [logged] tells,
    for an event, the name and the message of that exception, if any. *)
Variable logged : value -> option (string * string).

Definition handleWebhook (req : MockRequest) : response :=
  let signature := headers req !! "acp-signature" in
  match signature with
  | None | Some "" => Sent 400 "Missing ACP-Signature header"
  | Some signature =>
      let attempt : result ACPError response :=
        match outcome (constructEvent hmac_sha256 JSON_parse Buffer_toString
                         Date_now (Buffer (body req)) signature
                         WEBHOOK_SECRET None) with
        | Ok event =>
            match logged event with
            | None => Ok (Json (VObj [("received", VBool true)]))
            | Some (name, message) => Throw (Native name message)
            end
        | Throw err => Throw err
        end in
      match attempt with
      | Ok answered => answered
      | Throw err =>
          if Classes.instanceof err Classes.ACPSignatureVerificationError_
          then Sent 400 "Invalid signature"
          else Sent 500 "Webhook handler error"
      end
  end.

End Handler.

End WebhookHandler.

(* ===================================================================== *)
(** * HMAC-SHA256 (FIPS 180-4, RFC 2104)

    The theorems below hold for whatever function stands for
    [crypto.createHmac]; this implementation instantiates it when the
    model is run on concrete webhooks. *)
(* ===================================================================== *)

Module Sha256.
Local Open Scope list_scope.

Definition wrap (x : Z) : Z := x mod 2 ^ 32.
Definition rotr (n x : Z) : Z := Z.lor (Z.shiftr x n) (wrap (Z.shiftl x (32 - n))).
Definition complement (x : Z) : Z := Z.lxor x (2 ^ 32 - 1).
Definition Ch (x y z : Z) : Z := Z.lxor (Z.land x y) (Z.land (complement x) z).
Definition Maj (x y z : Z) : Z :=
  Z.lxor (Z.lxor (Z.land x y) (Z.land x z)) (Z.land y z).
Definition Sigma0 (x : Z) : Z := Z.lxor (Z.lxor (rotr 2 x) (rotr 13 x)) (rotr 22 x).
Definition Sigma1 (x : Z) : Z := Z.lxor (Z.lxor (rotr 6 x) (rotr 11 x)) (rotr 25 x).
Definition sigma0 (x : Z) : Z := Z.lxor (Z.lxor (rotr 7 x) (rotr 18 x)) (Z.shiftr x 3).
Definition sigma1 (x : Z) : Z := Z.lxor (Z.lxor (rotr 17 x) (rotr 19 x)) (Z.shiftr x 10).

(** The integer part of the [k]-th root of [n], found bit by bit from
    [bits] down. *)
Fixpoint root_bits (k : Z) (bits : nat) (n x : Z) : Z :=
  match bits with
  | O => x
  | S b =>
      let y := x + 2 ^ Z.of_nat b in
      root_bits k b n (if y ^ k <=? n then y else x)
  end.

Definition is_prime (n : Z) : bool :=
  forallb (fun d => negb (n mod Z.of_nat d =? 0)) (seq 2 (Z.to_nat n - 2)).

Definition primes (count : nat) : list Z :=
  firstn count (filter is_prime (List.map Z.of_nat (seq 2 310))).

(** The first 32 bits of the fractional part of the [k]-th root of [p]. *)
Definition root_fraction (k p : Z) : Z :=
  wrap (root_bits k 36 (p * 2 ^ (32 * k)) 0).

(** Round constants: cube roots of the first 64 primes. *)
Definition K : list Z :=
  Eval vm_compute in List.map (root_fraction 3) (primes 64).

(** Initial hash value: square roots of the first 8 primes. *)
Definition H0 : list Z :=
  Eval vm_compute in List.map (root_fraction 2) (primes 8).

Definition bytes_of_string (s : string) : list Z :=
  List.map (fun c => Z.of_N (N_of_ascii c)) (list_ascii_of_string s).

Definition string_of_bytes (bs : list Z) : string :=
  string_of_list_ascii (List.map (fun b => ascii_of_N (Z.to_N b)) bs).

(** Big-endian bytes of [x], [n] of them. *)
Fixpoint big_endian (n : nat) (x : Z) : list Z :=
  match n with
  | O => []
  | S n' => (Z.shiftr x (8 * Z.of_nat n')) mod 256 :: big_endian n' x
  end.

Definition pad (bs : list Z) : list Z :=
  let len := Z.of_nat (length bs) in
  bs ++ [128] ++ repeat 0 (Z.to_nat ((55 - len) mod 64))
     ++ big_endian 8 (8 * len).

Fixpoint words (bs : list Z) : list Z :=
  match bs with
  | a :: b :: c :: d :: rest =>
      (a * 2 ^ 24 + b * 2 ^ 16 + c * 2 ^ 8 + d) :: words rest
  | _ => []
  end.

(** The message schedule, newest word first. *)
Fixpoint extend (n : nat) (rev_w : list Z) : list Z :=
  match n with
  | O => rev_w
  | S n' =>
      let at_ i := nth i rev_w 0 in
      extend n'
        (wrap (sigma1 (at_ 1%nat) + at_ 6%nat + sigma0 (at_ 14%nat)
               + at_ 15%nat) :: rev_w)
  end.

Definition schedule (block : list Z) : list Z := rev (extend 48 (rev block)).

Definition round (st : list Z) (kw : Z * Z) : list Z :=
  match st with
  | [a; b; c; d; e; f; g; h] =>
      let t1 := h + Sigma1 e + Ch e f g + fst kw + snd kw in
      let t2 := Sigma0 a + Maj a b c in
      [wrap (t1 + t2); a; b; c; wrap (d + t1); e; f; g]
  | _ => st
  end.

Definition compress (h : list Z) (block : list Z) : list Z :=
  let st := fold_left round (combine K (schedule block)) h in
  List.map (fun p => wrap (fst p + snd p)) (combine h st).

Fixpoint blocks (fuel : nat) (ws : list Z) (h : list Z) : list Z :=
  match fuel, ws with
  | S fuel', _ :: _ => blocks fuel' (skipn 16 ws) (compress h (firstn 16 ws))
  | _, _ => h
  end.

Definition sha256_bytes (bs : list Z) : list Z :=
  let ws := words (pad bs) in
  flat_map (big_endian 4) (blocks (length ws) ws H0).

Definition hmac_bytes (key data : list Z) : list Z :=
  let key := if (64 <? Z.of_nat (length key)) then sha256_bytes key else key in
  let key := key ++ repeat 0 (64 - length key)%nat in
  let inner := sha256_bytes (List.map (Z.lxor 0x36) key ++ data) in
  sha256_bytes (List.map (Z.lxor 0x5c) key ++ inner).

Definition hmac_sha256 (key data : string) : string :=
  string_of_bytes (hmac_bytes (bytes_of_string key) (bytes_of_string data)).

End Sha256.

(* ===================================================================== *)
(** * Concrete inputs *)
(* ===================================================================== *)

Module Scenario.
Import JS Webhooks.

Definition dq : string := String (ascii_of_N 34) "".
Definition quoted (s : string) : string := dq ++ s ++ dq.

(** The event of the specification's scenarios, and its serialisation. *)
Definition event : value :=
  VObj [("id", VStr "evt_1");
        ("type", VStr "checkout_session.completed");
        ("data", VObj [("id", VStr "cs_1")]);
        ("created", VNum 1700000000%Q);
        ("livemode", VBool false)].

Definition payload : string :=
  "{" ++ quoted "id" ++ ":" ++ quoted "evt_1" ++ ","
  ++ quoted "type" ++ ":" ++ quoted "checkout_session.completed" ++ ","
  ++ quoted "data" ++ ":{" ++ quoted "id" ++ ":" ++ quoted "cs_1" ++ "},"
  ++ quoted "created" ++ ":1700000000," ++ quoted "livemode" ++ ":false}".

(** A parser that knows this one document. *)
Definition JSON_parse (s : string) : option value :=
  if String.eqb s payload then Some event else None.

Definition secret : string := "whsec_test".

(** Bytes that are well-formed UTF-8 decode to the string they encode,
    which is the case of every buffer used below. *)
Definition Buffer_toString (bytes : string) : string := bytes.

(** The header [generateTestHeaderString] makes for the scenario at
    [t = 1700000000]. *)
Definition header : string :=
  "t=1700000000,v1=c2de84c49094c03c930b7dc6355bf3e78a03b6927b7f419424f9b2ad07dc0973".

Definition parsed_header : WebhookHeader :=
  mkWebhookHeader 1700000000
    [Some "c2de84c49094c03c930b7dc6355bf3e78a03b6927b7f419424f9b2ad07dc0973"].

(** The same event signed at [t = 0]. *)
Definition header_zero : string :=
  "t=0,v1=a9246885d01f8f501626526f0a33bcc9b7ed421b5cded8b728e488bc17572c05".

(** One hundred seconds after the signing time, in milliseconds. *)
Definition now : Z := 1700000100000.

Import FetchHttpClient.

Definition config : HttpClientConfig :=
  mkHttpClientConfig "sk_test_demo_key" "2026-01-16" 80000 2
    "api.agentic-commerce.com".

(** Numbers printed by their integral part: enough for the messages of
    these runs, none of which prints a number. *)
Definition Number_toString (q : Q) : string :=
  string_of_Z (Qnum q / Z.pos (Qden q)).

Definition clock (n : nat) : Z := 1700000000000 + 700 * Z.of_nat n.

Definition base36 (n : nat) : string :=
  match n with
  | O => "0.4fzyo82mvyr"
  | S O => "0.k9x2m1q7zr8"
  | _ => "0.1b3d5f7h9jl"
  end.

(** A world in which every request meets the same fate. *)
Definition always (f : fetch_outcome) : world :=
  fun n => mkAttemptEnv (clock n) (base36 n) f (1 # 2).

Definition error_envelope (type code message : string) : value :=
  VObj [("error", VObj [("type", VStr type); ("code", VStr code);
                        ("message", VStr message)])].

Definition unavailable : Response :=
  mkResponse 503 ∅
    (JsonOk (error_envelope "api_error" "internal_error"
               "Service unavailable")).

Definition not_found : Response :=
  mkResponse 404 {["x-request-id" := "req_srv_1"]}
    (JsonOk (error_envelope "not_found_error" "resource_not_found"
               "No such checkout session")).

Definition rate_limited : Response :=
  mkResponse 429 {["retry-after" := "2"]}
    (JsonOk (error_envelope "rate_limit_error" "rate_limit_exceeded"
               "Slow down")).

Definition with_key : option RequestOptions :=
  Some (mkRequestOptions (Some "unique_request_123") None None).

End Scenario.

(* ===================================================================== *)
(** * Further cases, for the properties beyond the specification *)
(* ===================================================================== *)

Module Cases.
Import JS FetchHttpClient.

(** A checkout session as the API returns it. *)
Definition session : value :=
  VObj [("id", VStr "cs_1"); ("status", VStr "open")].

Definition created : Response := mkResponse 200 ∅ (JsonOk session).


(** A 429 whose [Retry-After] is an HTTP date. *)
Definition retry_at_date : Response :=
  mkResponse 429 {["retry-after" := "Wed, 21 Oct 2026 07:28:00 GMT"]}
    (JsonOk (VObj [])).

(** A 429 whose [Retry-After] has a fraction. *)
Definition retry_fraction : Response :=
  mkResponse 429 {["retry-after" := "1.5"]} (JsonOk (VObj [])).

(** The first request is answered 503, the second gets no answer, the
    others succeed. *)
Definition flaky : world :=
  fun n =>
    mkAttemptEnv (Scenario.clock n) (Scenario.base36 n)
      (match n with
       | O => Responded Scenario.unavailable
       | S O => Rejected "TypeError" "fetch failed"
       | _ => Responded created
       end)
      (1 # 2).

(** Every request is answered 503, and every draw of [Math.random] is
    the same. *)
Definition down (draw : Q) : world :=
  fun n =>
    mkAttemptEnv (Scenario.clock n) (Scenario.base36 n)
      (Responded Scenario.unavailable) draw.

(** Per-request options: no attempt at all, one attempt only. *)
Definition none_allowed : option RequestOptions :=
  Some (mkRequestOptions None None (Some (-1))).

Definition once : option RequestOptions :=
  Some (mkRequestOptions None None (Some 0)).

(** The configuration object of a client that neither retries nor, as it
    asks, waits. *)
Definition impatient : Client.ACPConfig :=
  Client.mkACPConfig (Some "sk_test_demo_key") None (Some 0) (Some 0) None.

Definition demo_client : Client.ACP := Client.mkACP Scenario.config.

(** The scenario event signed with the secret of the example handler. *)
Definition handler_signature : string :=
  Eval vm_compute in
    match Webhooks.outcome
            (Webhooks.generateTestHeaderString Sha256.hmac_sha256
               Scenario.now Scenario.payload WebhookHandler.WEBHOOK_SECRET
               (Some 1700000000)) with
    | Ok header => header
    | Throw _ => ""
    end.

Definition delivery : WebhookHandler.MockRequest :=
  WebhookHandler.mkMockRequest Scenario.payload
    {["acp-signature" := handler_signature;
      "content-type" := "application/json"]}.

(** The same body under a signature made with another secret. *)
Definition forged : WebhookHandler.MockRequest :=
  WebhookHandler.mkMockRequest Scenario.payload
    {["acp-signature" := Scenario.header;
      "content-type" := "application/json"]}.

Definition unsigned : WebhookHandler.MockRequest :=
  WebhookHandler.mkMockRequest Scenario.payload
    {["content-type" := "application/json"]}.

(** Logging that never throws. *)
Definition quiet (event : value) : option (string * string) := None.

End Cases.

(* ===================================================================== *)
(** * Predicates used to state the properties *)
(* ===================================================================== *)

Fixpoint occurs (c : ascii) (s : string) : bool :=
  match s with
  | EmptyString => false
  | String x rest => Ascii.eqb x c || occurs c rest
  end.

(** Value of a decimal numeral read from the left, starting from [acc]. *)
Fixpoint uint_acc (u : Decimal.uint) (acc : Z) : Z :=
  match u with
  | Decimal.Nil => acc
  | Decimal.D0 u => uint_acc u (10 * acc + 0)
  | Decimal.D1 u => uint_acc u (10 * acc + 1)
  | Decimal.D2 u => uint_acc u (10 * acc + 2)
  | Decimal.D3 u => uint_acc u (10 * acc + 3)
  | Decimal.D4 u => uint_acc u (10 * acc + 4)
  | Decimal.D5 u => uint_acc u (10 * acc + 5)
  | Decimal.D6 u => uint_acc u (10 * acc + 6)
  | Decimal.D7 u => uint_acc u (10 * acc + 7)
  | Decimal.D8 u => uint_acc u (10 * acc + 8)
  | Decimal.D9 u => uint_acc u (10 * acc + 9)
  end.

Import JS.

(** An error is classified as a staleness error by its message, the only
    field in which the failures of webhook verification differ. *)
Definition is_stale_error (e : Error.ACPError) : bool :=
  match Error.message e with
  | VStr m =>
      String.eqb (Error.name e) "ACPSignatureVerificationError"
      && String.prefix "Webhook timestamp too old." m
  | _ => false
  end.

(** Whether one of the header's signatures is the expected digest. *)
Definition sig_matches (expected : string) (sigs : list (option string))
  : bool :=
  existsb
    (fun sig =>
       match sig with
       | Some s => String.eqb s expected
       | None => false
       end)
    sigs.

(** The digest [computeSignature] returns, for a given hash. *)
Definition digest_with (hmac_sha256 : string -> string -> string)
    (timestamp : Z) (payload secret : string) : string :=
  hex_of_bytes (hmac_sha256 secret (string_of_Z timestamp ++ "." ++ payload)).

(** The last stage of [constructEvent], decoding the payload, alone. *)
Definition decode_with (JSON_parse : string -> option value) (payload : string)
  : result Error.ACPError value :=
  match JSON_parse payload with
  | Some event => Ok event
  | None => Webhooks.sig_error "Failed to parse webhook payload as JSON."
  end.

(** ** The retry loop *)

Section RetryPredicates.
Import FetchHttpClient.

(** How the turn numbered [attempt] ends, whatever [lastError] holds. *)
Definition completion_at (w : world) (timeout maxRetries : Z)
    (attempt : nat) : completion :=
  fst (turn w timeout maxRetries attempt (generateRequestId (w attempt)) None).

(** [await response.json().catch(() => ({}))]. *)
Definition errorBody_of (r : Response) : value :=
  match json r with
  | JsonOk v => v
  | JsonFails _ _ => VObj []
  end.

(** [response.headers.get('x-request-id') || requestId]. *)
Definition responseRequestId_of (r : Response) (requestId : string) : value :=
  VStr (header_or (headers_get r "x-request-id") requestId).

(** The error kinds of the specification's table for the 4xx statuses
    that are not 429, by the name of the class. *)
Definition client_error_kind (status : Z) : string :=
  if status =? 401 then "ACPAuthenticationError"
  else if status =? 403 then "ACPPermissionError"
  else if status =? 404 then "ACPNotFoundError"
  else "ACPInvalidRequestError".

End RetryPredicates.

(** ** The parts of a signature header *)

(** The key and the value of one comma-separated part: the text before
    the first ["="], and the text between the first and the second. *)
Definition part_key (part : string) : option string :=
  split "=" part !! 0%nat.

Definition part_value (part : string) : option string :=
  split "=" part !! 1%nat.

Definition is_t (part : string) : bool :=
  bool_decide (part_key part = Some "t").

Definition is_v1 (part : string) : bool :=
  bool_decide (part_key part = Some "v1").

(** The values of the [v1] parts, in the order of the header. *)
Definition v1_values (parts : list string) : list (option string) :=
  List.map part_value (List.filter is_v1 parts).

(** What the last [t] part holds, read by [parseInt]; zero without one. *)
Definition last_timestamp (parts : list string) : number :=
  match last (List.filter is_t parts) with
  | Some part => parseInt (part_value part)
  | None => Num 0
  end.

(** Whether a string begins with a decimal digit. *)
Definition starts_with_digit (s : string) : bool :=
  match s with
  | String c _ => match digit_of c with Some _ => true | None => false end
  | EmptyString => false
  end.

(** ** Errors by status *)

(** The class and the [type] of the error [ACPError.generate] makes, by
    status: the table of its [switch]. *)
Definition status_kind (status : Z) : string * string :=
  if status =? 401 then ("ACPAuthenticationError", "authentication_error")
  else if status =? 403 then ("ACPPermissionError", "permission_error")
  else if status =? 404 then ("ACPNotFoundError", "not_found_error")
  else if status =? 429 then ("ACPRateLimitError", "rate_limit_error")
  else if (400 <=? status) && (status <? 500)
  then ("ACPInvalidRequestError", "invalid_request_error")
  else ("ACPAPIError", "api_error").

(** What the [try] block of a turn threw, if it threw. *)
Definition raised_at (w : FetchHttpClient.world) (maxRetries : Z)
    (attempt : nat) : option (thrown Error.ACPError) :=
  match FetchHttpClient.try_block w maxRetries attempt
          (FetchHttpClient.generateRequestId (w attempt)) with
  | FetchHttpClient.Raise e => Some e
  | _ => None
  end.

(** ASCII letters. *)
Definition is_letter (c : ascii) : bool :=
  let n := N_of_ascii c in
  (N.leb 65 n && N.leb n 90) || (N.leb 97 n && N.leb n 122).


(* ===================================================================== *)
(** * Strings: splitting, numerals, hexadecimal *)
(* ===================================================================== *)

Section StringFacts.

Lemma append_cons x a b : String x a ++ b = String x (a ++ b).
Proof. reflexivity. Qed.

Lemma append_nil b : "" ++ b = b.
Proof. reflexivity. Qed.

Lemma occurs_app c a b : occurs c (a ++ b) = occurs c a || occurs c b.
Proof.
  induction a as [|x a IH]; [reflexivity|].
  rewrite append_cons. cbn [occurs]. rewrite IH. apply orb_assoc.
Qed.

Lemma split_absent c s : occurs c s = false -> split c s = [s].
Proof.
  induction s as [|x s IH]; cbn [occurs split]; [reflexivity|].
  intros H. apply orb_false_iff in H as [Hx Hs].
  rewrite Hx, (IH Hs). reflexivity.
Qed.

Lemma split_app c a b :
  occurs c a = false -> split c (a ++ String c b) = a :: split c b.
Proof.
  induction a as [|x a IH].
  - intros _. rewrite append_nil. cbn [split].
    rewrite Ascii.eqb_refl. reflexivity.
  - cbn [occurs]. intros H. apply orb_false_iff in H as [Hx Ha].
    rewrite append_cons. cbn [split]. rewrite Hx, (IH Ha). reflexivity.
Qed.

Lemma digit_of_differs c d :
  digit_of c = None -> digit_of d <> None -> Ascii.eqb d c = false.
Proof.
  intros Hc Hd. destruct (Ascii.eqb_spec d c) as [->|]; congruence.
Qed.

Lemma occurs_uint c u :
  digit_of c = None -> occurs c (NilEmpty.string_of_uint u) = false.
Proof.
  intros Hc.
  induction u; cbn [NilEmpty.string_of_uint occurs]; trivial;
    rewrite IHu, orb_false_r; apply digit_of_differs; trivial; discriminate.
Qed.

Lemma to_uint_nonnil p : Pos.to_uint p <> Decimal.Nil.
Proof.
  intros H. pose proof (DecimalPos.Unsigned.of_to p) as E.
  rewrite H in E. discriminate.
Qed.

Lemma nilzero_uint u :
  u <> Decimal.Nil -> NilZero.string_of_uint u = NilEmpty.string_of_uint u.
Proof. destruct u; simpl; congruence. Qed.

Lemma string_of_Z_pos p :
  string_of_Z (Z.pos p) = NilEmpty.string_of_uint (Pos.to_uint p).
Proof. unfold string_of_Z. simpl. apply nilzero_uint, to_uint_nonnil. Qed.

Lemma string_of_Z_neg p :
  string_of_Z (Z.neg p)
  = String "-" (NilEmpty.string_of_uint (Pos.to_uint p)).
Proof.
  unfold string_of_Z. simpl. f_equal. apply nilzero_uint, to_uint_nonnil.
Qed.

Lemma occurs_string_of_Z c z :
  digit_of c = None -> c <> "-"%char -> occurs c (string_of_Z z) = false.
Proof.
  intros Hc Hm. destruct z as [|p|p].
  - change (string_of_Z 0) with "0". cbn [occurs].
    rewrite orb_false_r. apply digit_of_differs; trivial; discriminate.
  - rewrite string_of_Z_pos. apply occurs_uint, Hc.
  - rewrite string_of_Z_neg. cbn [occurs]. rewrite occurs_uint by trivial.
    rewrite orb_false_r. destruct (Ascii.eqb_spec "-"%char c); congruence.
Qed.

(** ** [parseInt] reads back what the template literal printed *)

Lemma digits_acc_uint u acc :
  digits_acc (NilEmpty.string_of_uint u) acc = uint_acc u acc.
Proof.
  revert acc. induction u; intros acc;
    cbn [NilEmpty.string_of_uint digits_acc uint_acc]; trivial;
    match goal with
    | |- context [digit_of ?c] =>
        let v := eval vm_compute in (digit_of c) in
        change (digit_of c) with v
    end; apply IHu.
Qed.

Lemma of_uint_acc_val u p :
  Z.pos (Pos.of_uint_acc u p) = uint_acc u (Z.pos p).
Proof.
  revert p. induction u; intros p;
    cbn [Pos.of_uint_acc uint_acc]; trivial; rewrite IHu; f_equal; lia.
Qed.

Lemma of_uint_val u : Z.of_N (Pos.of_uint u) = uint_acc u 0.
Proof.
  induction u; cbn [Pos.of_uint uint_acc Z.of_N]; trivial;
    rewrite of_uint_acc_val; reflexivity.
Qed.

Lemma uint_acc_to_uint p : uint_acc (Pos.to_uint p) 0 = Z.pos p.
Proof.
  rewrite <- of_uint_val, DecimalPos.Unsigned.of_to. reflexivity.
Qed.

Lemma uint_head u :
  u <> Decimal.Nil ->
  exists c rest d,
    NilEmpty.string_of_uint u = String c rest /\ digit_of c = Some d.
Proof.
  destruct u; [congruence | ..]; intros _;
    cbn [NilEmpty.string_of_uint]; do 3 eexists; split; reflexivity.
Qed.

Ltac each_byte c := destruct c as [[] [] [] [] [] [] [] []].

Lemma parseInt_digit_head c rest d :
  digit_of c = Some d ->
  parseInt (Some (String c rest)) = Num (digits_acc (String c rest) 0).
Proof.
  intros Hd. each_byte c; try discriminate Hd;
    destruct rest as [|c2 [|c3 rest]];
    unfold parseInt, ToString; cbn -[digits_acc Z.mul];
    f_equal; apply Z.mul_1_l.
Qed.

Lemma parseInt_minus_digit_head c rest d :
  digit_of c = Some d ->
  parseInt (Some (String "-" (String c rest)))
  = Num (- digits_acc (String c rest) 0).
Proof.
  intros Hd. each_byte c; try discriminate Hd;
    destruct rest as [|c3 rest];
    unfold parseInt, ToString; cbn -[digits_acc Z.mul];
    f_equal; lia.
Qed.

Theorem parseInt_string_of_Z z : parseInt (Some (string_of_Z z)) = Num z.
Proof.
  destruct z as [|p|p].
  - reflexivity.
  - rewrite string_of_Z_pos.
    destruct (uint_head (Pos.to_uint p) (to_uint_nonnil p))
      as (c & rest & d & E & Hd).
    rewrite E, (parseInt_digit_head _ _ _ Hd), <- E.
    rewrite digits_acc_uint, uint_acc_to_uint. reflexivity.
  - rewrite string_of_Z_neg.
    destruct (uint_head (Pos.to_uint p) (to_uint_nonnil p))
      as (c & rest & d & E & Hd).
    rewrite E, (parseInt_minus_digit_head _ _ _ Hd), <- E.
    rewrite digits_acc_uint, uint_acc_to_uint. reflexivity.
Qed.

(** ** Hexadecimal digests contain no separator *)

Lemma hex_digit_high b c :
  digit_of c = None -> (N_of_ascii c < 97 \/ 102 < N_of_ascii c)%N ->
  Ascii.eqb (hex_digit (N_of_ascii b / 16)) c = false.
Proof.
  intros Hc Hr. destruct (Ascii.eqb_spec (hex_digit (N_of_ascii b / 16)) c)
    as [<-|]; trivial.
  exfalso. each_byte b; vm_compute in Hc; try discriminate Hc;
    vm_compute in Hr; destruct Hr as [Hr|Hr]; discriminate Hr.
Qed.

Lemma hex_digit_low b c :
  digit_of c = None -> (N_of_ascii c < 97 \/ 102 < N_of_ascii c)%N ->
  Ascii.eqb (hex_digit (N_of_ascii b mod 16)) c = false.
Proof.
  intros Hc Hr. destruct (Ascii.eqb_spec (hex_digit (N_of_ascii b mod 16)) c)
    as [<-|]; trivial.
  exfalso. each_byte b; vm_compute in Hc; try discriminate Hc;
    vm_compute in Hr; destruct Hr as [Hr|Hr]; discriminate Hr.
Qed.

Lemma occurs_hex c bs :
  digit_of c = None -> (N_of_ascii c < 97 \/ 102 < N_of_ascii c)%N ->
  occurs c (hex_of_bytes bs) = false.
Proof.
  intros Hc Hr. induction bs as [|b bs IH]; [reflexivity|].
  cbn [hex_of_bytes occurs].
  rewrite (hex_digit_high b c Hc Hr), (hex_digit_low b c Hc Hr), IH.
  reflexivity.
Qed.

End StringFacts.

(* ===================================================================== *)
(** * Webhook verification *)
(* ===================================================================== *)

Section WebhookFacts.
Import Webhooks.

Variable hmac_sha256 : string -> string -> string.
Variable JSON_parse : string -> option value.
Variable Buffer_toString : string -> string.

Abbreviation constructEvent :=
  (Webhooks.constructEvent hmac_sha256 JSON_parse Buffer_toString).
Abbreviation verifySignature :=
  (Webhooks.verifySignature hmac_sha256 Buffer_toString).
Abbreviation text_of := (Webhooks.payloadString_of Buffer_toString).
Abbreviation computeSignature := (Webhooks.computeSignature hmac_sha256).
Abbreviation generateTestHeaderString :=
  (Webhooks.generateTestHeaderString hmac_sha256).

Abbreviation expected_digest := (digest_with hmac_sha256).
Abbreviation decode := (decode_with JSON_parse).

Lemma eqb_length a b : String.eqb a b = true -> String.length a = String.length b.
Proof. intros H. apply String.eqb_eq in H. congruence. Qed.

Lemma secureCompare_outcome a b :
  outcome (secureCompare a b)
  = Ok (match a with Some s => String.eqb s b | None => false end).
Proof.
  destruct a as [s|]; [|reflexivity].
  unfold secureCompare, timingSafeEqual, Buffer_from; cbn.
  destruct (Nat.eqb_spec (String.length s) (String.length b)) as [E|N]; cbn.
  - reflexivity.
  - destruct (String.eqb s b) eqn:Eq; trivial.
    apply eqb_length in Eq. contradiction.
Qed.

Lemma outcome_bind_ok {A B} (m : M A) (k : A -> M B) a :
  outcome m = Ok a -> outcome (bind m k) = outcome (k a).
Proof.
  destruct m as [log r]; cbn. intros ->. destruct (k a). reflexivity.
Qed.

Lemma some_secureCompare_outcome expected sigs :
  outcome (some (fun sig => secureCompare sig expected) sigs)
  = Ok (sig_matches expected sigs).
Proof.
  induction sigs as [|sig sigs IH]; [reflexivity|].
  cbn [some sig_matches existsb].
  rewrite (outcome_bind_ok _ _ _ (secureCompare_outcome sig expected)).
  destruct sig as [s|]; cbn [orb]; [destruct (String.eqb s expected)|];
    trivial.
Qed.

Lemma computeSignature_run timestamp payload secret :
  computeSignature timestamp payload secret
  = ([CreateHmac secret (string_of_Z timestamp ++ "." ++ payload)],
     Ok (expected_digest timestamp payload secret)).
Proof. reflexivity. Qed.

(** Both entry points, unfolded along the three stages. *)
Lemma verifySignature_stages now payload signature secret tolerance :
  verifySignature now payload signature secret tolerance
  = match parseHeader signature with
    | Throw _ => ([], Ok false)
    | Ok header =>
        if timestampAge now header >? tolerance_or_default tolerance
        then ([], Ok false)
        else
          let expected := expected_digest (timestamp header) (text_of payload) secret in
          let matching :=
            some (fun sig => secureCompare sig expected) (signatures header) in
          ((CreateHmac secret (string_of_Z (timestamp header) ++ "." ++ text_of payload)
            :: calls matching)%list,
           Ok (sig_matches expected (signatures header)))
    end.
Proof.
  unfold Webhooks.verifySignature.
  destruct (parseHeader signature) as [header|e]; [|reflexivity].
  cbn [lift bind try_catch app].
  destruct (timestampAge now header >? tolerance_or_default tolerance);
    [reflexivity|].
  rewrite computeSignature_run. cbn [bind].
  pose proof (some_secureCompare_outcome
                (expected_digest (timestamp header) (text_of payload) secret)
                (signatures header)) as E.
  destruct (some _ (signatures header)) as [log r]. cbn in E. subst r.
  reflexivity.
Qed.

Lemma constructEvent_stages now payload signature secret tolerance :
  constructEvent now payload signature secret tolerance
  = match parseHeader signature with
    | Throw e => ([], Throw e)
    | Ok header =>
        let age := timestampAge now header in
        let tol := tolerance_or_default tolerance in
        if age >? tol then ([], sig_error (too_old_message age tol))
        else
          let expected := expected_digest (timestamp header) (text_of payload) secret in
          let matching :=
            some (fun sig => secureCompare sig expected) (signatures header) in
          ((CreateHmac secret (string_of_Z (timestamp header) ++ "." ++ text_of payload)
            :: calls matching)%list,
           if sig_matches expected (signatures header) then decode (text_of payload)
           else sig_error
                  "Webhook signature verification failed. No matching signature found.")
    end.
Proof.
  unfold Webhooks.constructEvent.
  destruct (parseHeader signature) as [header|e]; [|reflexivity].
  cbn [lift bind app].
  destruct (timestampAge now header >? tolerance_or_default tolerance);
    [reflexivity|].
  rewrite computeSignature_run. cbn [bind].
  pose proof (some_secureCompare_outcome
                (expected_digest (timestamp header) (text_of payload) secret)
                (signatures header)) as E.
  destruct (some _ (signatures header)) as [log r]. cbn in E. subst r.
  cbn [bind calls fst app].
  destruct (sig_matches _ (signatures header)); cbn [negb lift].
  - unfold decode_with. destruct (JSON_parse (text_of payload)); cbn; rewrite ?app_nil_r;
      reflexivity.
  - rewrite app_nil_r. reflexivity.
Qed.

(** C2: a header that parses and whose timestamp is older than
    [now - tolerance] makes [constructEvent] throw the staleness error and
    [verifySignature] return [false], with no call into [crypto] made:
    neither the digest is computed nor a signature compared, whatever the
    header's signatures are. *)
Theorem stale_event_rejected now payload signature secret tolerance header :
  parseHeader signature = Ok header ->
  timestamp header < now / 1000 - tolerance_or_default tolerance ->
  let age := timestampAge now header in
  constructEvent now payload signature secret tolerance
  = ([], sig_error (too_old_message age (tolerance_or_default tolerance)))
  /\ (exists e, outcome (constructEvent now payload signature secret tolerance)
                = Throw (OfSdk e)
                /\ is_stale_error e = true)
  /\ verifySignature now payload signature secret tolerance = ([], Ok false).
Proof.
  intros Hparse Hold age.
  assert (Hgt : (age >? tolerance_or_default tolerance) = true).
  { apply Z.gtb_lt. unfold age, timestampAge. lia. }
  rewrite constructEvent_stages, verifySignature_stages, Hparse.
  cbn zeta. fold age. rewrite Hgt. repeat split.
  eexists. split; reflexivity.
Qed.

(** C9: [verifySignature] always returns a boolean, and returns [true]
    exactly when [constructEvent] gets past parsing, freshness and
    signature match, so that only the decoding of the payload is left to
    decide how [constructEvent] ends; the two make the same [crypto]
    calls. *)
Theorem verifySignature_agrees_with_constructEvent
    now payload signature secret tolerance :
  let v := verifySignature now payload signature secret tolerance in
  let c := constructEvent now payload signature secret tolerance in
  (exists b, outcome v = Ok b)
  /\ (outcome v = Ok true <-> outcome c = decode (text_of payload))
  /\ (outcome v = Ok true <->
      exists header,
        parseHeader signature = Ok header
        /\ timestampAge now header <= tolerance_or_default tolerance
        /\ sig_matches (expected_digest (timestamp header) (text_of payload) secret)
             (signatures header) = true)
  /\ calls v = calls c.
Proof.
  cbn zeta. rewrite constructEvent_stages, verifySignature_stages.
  destruct (parseHeader signature) as [header|e] eqn:Hparse.
  - cbn zeta.
    destruct (Z.gtb_spec (timestampAge now header)
                (tolerance_or_default tolerance)) as [Hgt|Hle].
    + cbn [outcome calls fst snd]. split; [eauto|]. split; [|split]; trivial.
      * split; [discriminate|]. unfold decode_with, sig_error.
        destruct (JSON_parse (text_of payload)); intros [= H].
      * split; [discriminate|]. intros (h & [= <-] & Hfresh & _). lia.
    + cbn [outcome calls fst snd]. split; [eauto|]. split; [|split]; trivial.
      * destruct (sig_matches _ (signatures header)).
        -- split; trivial.
        -- split; [discriminate|]. unfold decode_with, sig_error.
           destruct (JSON_parse (text_of payload)); intros [= H].
      * split.
        -- intros [= Hm]. exists header. auto.
        -- intros (h & [= <-] & _ & Hm). rewrite Hm. reflexivity.
  - cbn [outcome calls fst snd]. split; [eauto|]. split; [|split]; trivial.
    + split; [discriminate|]. intros H. exfalso.
      unfold Webhooks.parseHeader in Hparse.
      destruct (String.eqb signature "");
        [|destruct (fold_left _ _ _) as [[t|] sigs];
          [destruct (t =? 0); [|destruct (length sigs =? 0)%nat]|]];
        try discriminate Hparse;
        injection Hparse as <-; unfold decode_with, sig_error in H;
        destruct (JSON_parse (text_of payload)); discriminate H.
    + split; [discriminate|]. intros (h & [=] & _).
Qed.

(** C10: a header whose timestamp is not before the current time passes
    the freshness check under every non-negative tolerance, however far
    ahead the timestamp lies: [constructEvent] does not end in a staleness
    error and [verifySignature] is decided by the signature match alone. *)
Theorem future_timestamp_is_fresh now payload signature secret tolerance
    header :
  parseHeader signature = Ok header ->
  now / 1000 <= timestamp header ->
  0 <= tolerance_or_default tolerance ->
  (timestampAge now header >? tolerance_or_default tolerance) = false
  /\ (forall e, outcome (constructEvent now payload signature secret tolerance)
               = Throw (OfSdk e) ->
               is_stale_error e = false)
  /\ outcome (verifySignature now payload signature secret tolerance)
     = Ok (sig_matches (expected_digest (timestamp header) (text_of payload) secret)
             (signatures header)).
Proof.
  intros Hparse Hfuture Htol.
  assert (Hfresh : (timestampAge now header
                    >? tolerance_or_default tolerance) = false).
  { destruct (Z.gtb_spec (timestampAge now header)
                (tolerance_or_default tolerance)); trivial.
    unfold timestampAge in *. lia. }
  rewrite constructEvent_stages, verifySignature_stages, Hparse.
  cbn zeta. rewrite Hfresh. cbn [outcome snd]. repeat split.
  intros e. destruct (sig_matches _ (signatures header)).
  - unfold decode_with, sig_error. destruct (JSON_parse (text_of payload));
      intros [= <-]; reflexivity.
  - intros [= <-]. reflexivity.
Qed.

(** ** The header made by [generateTestHeaderString] *)

Lemma append_assoc a b c : (a ++ b) ++ c = a ++ (b ++ c).
Proof.
  induction a as [|x a IH]; [reflexivity|].
  rewrite !append_cons, IH. reflexivity.
Qed.

Lemma parseHeader_generated t digest :
  t <> 0 -> occurs "," digest = false -> occurs "=" digest = false ->
  parseHeader ("t=" ++ string_of_Z t ++ ",v1=" ++ digest)
  = Ok (mkWebhookHeader t [Some digest]).
Proof.
  intros Ht Hc He.
  assert (Hdc : occurs "," (string_of_Z t) = false)
    by (apply occurs_string_of_Z; [reflexivity | discriminate]).
  assert (Hde : occurs "=" (string_of_Z t) = false)
    by (apply occurs_string_of_Z; [reflexivity | discriminate]).
  unfold Webhooks.parseHeader.
  change (String.eqb ("t=" ++ string_of_Z t ++ ",v1=" ++ digest) "")
    with false. cbn iota.
  change ("t=" ++ string_of_Z t ++ ",v1=" ++ digest)
    with ("t=" ++ (string_of_Z t ++ String "," ("v1=" ++ digest))).
  rewrite <- append_assoc, split_app
    by (rewrite occurs_app, Hdc; reflexivity).
  rewrite split_absent by (rewrite occurs_app, Hc; reflexivity).
  cbn [fold_left]. unfold parseHeader_step at 2.
  change ("t=" ++ string_of_Z t) with ("t" ++ String "=" (string_of_Z t)).
  rewrite split_app, split_absent by trivial.
  cbn [lookup list_lookup]. rewrite decide_True by reflexivity.
  rewrite parseInt_string_of_Z. unfold parseHeader_step.
  change ("v1=" ++ digest) with ("v1" ++ String "=" digest).
  rewrite split_app, split_absent by trivial.
  cbn [lookup list_lookup].
  rewrite decide_False by discriminate.
  rewrite decide_True by reflexivity.
  destruct (Z.eqb_spec t 0); [contradiction|]. reflexivity.
Qed.

Lemma digest_no_separator t payload secret :
  occurs "," (expected_digest t payload secret) = false
  /\ occurs "=" (expected_digest t payload secret) = false.
Proof.
  split; apply occurs_hex; try reflexivity; left; reflexivity.
Qed.

(** C1, as the code has it: for every payload, secret and timestamp that
    is a non-zero safe integer and whose age is at most the tolerance, the
    header made by [generateTestHeaderString] is accepted by
    [verifySignature] under the same secret and tolerance. *)
Theorem generated_header_verifies now payload secret
    (timestamp : option Z) tolerance :
  let t := match timestamp with Some t => t | None => now / 1000 end in
  t <> 0 ->
  isSafeInteger t = true ->
  now / 1000 - t <= tolerance_or_default tolerance ->
  exists header,
    outcome (generateTestHeaderString now payload secret timestamp)
    = Ok header
    /\ outcome (verifySignature now (Text payload) header secret tolerance)
       = Ok true.
Proof.
  intros t Ht _ Hage.
  exists ("t=" ++ string_of_Z t ++ ",v1=" ++ expected_digest t payload secret).
  split; [reflexivity|].
  destruct (digest_no_separator t payload secret) as [Hc He].
  rewrite verifySignature_stages, (parseHeader_generated _ _ Ht Hc He).
  cbn [Webhooks.timestamp signatures]. unfold timestampAge.
  cbn [Webhooks.timestamp].
  destruct (Z.gtb_spec (now / 1000 - t) (tolerance_or_default tolerance));
    [lia|].
  cbn [outcome snd sig_matches existsb]. rewrite String.eqb_refl.
  reflexivity.
Qed.

End WebhookFacts.

(** C7: [secureCompare] returns a boolean on every pair of arguments, a
    first argument left [undefined] included; on strings of different
    lengths [crypto.timingSafeEqual] throws, and [secureCompare] returns
    [false]. *)
Theorem secureCompare_never_throws (a : option string) (b : string) :
  (exists r, Webhooks.outcome (Webhooks.secureCompare a b) = Ok r)
  /\ (forall s,
        a = Some s -> String.length s <> String.length b ->
        (exists message,
            Webhooks.outcome (Webhooks.timingSafeEqual s b)
            = Throw (Native "RangeError" message))
        /\ Webhooks.outcome (Webhooks.secureCompare a b) = Ok false).
Proof.
  split.
  - rewrite secureCompare_outcome. eauto.
  - intros s -> Hlen. split.
    + unfold Webhooks.timingSafeEqual. cbn.
      destruct (Nat.eqb_spec (String.length s) (String.length b));
        [contradiction|]. cbn. eauto.
    + rewrite secureCompare_outcome.
      destruct (String.eqb s b) eqn:E; trivial.
      apply eqb_length in E. contradiction.
Qed.

(* ===================================================================== *)
(** * The retry loop of [makeRequest] *)
(* ===================================================================== *)

Section RetryFacts.
Import FetchHttpClient.

Variable Number_toString : Q -> string.
Variable w : world.
Variables timeout maxRetries : Z.
Variables url method : string.
Variable params : option value.

Abbreviation attempts :=
  (FetchHttpClient.attempts Number_toString w timeout maxRetries url method
     params).
Abbreviation completion_of := (completion_at w timeout maxRetries).
Abbreviation requestId_at := (fun n : nat => generateRequestId (w n)).

Lemma turn_completion attempt lastError :
  fst (turn w timeout maxRetries attempt (requestId_at attempt) lastError)
  = completion_of attempt.
Proof.
  unfold completion_at, turn.
  destruct (try_block _ _ _ _); reflexivity.
Qed.

Ltac step_attempts :=
  cbn [FetchHttpClient.attempts];
  match goal with
  | |- context [turn w timeout maxRetries ?a ?rid ?le] =>
      let c := fresh "c" in
      let le' := fresh "lastError" in
      let E := fresh "E" in
      pose proof (turn_completion a le) as E;
      destruct (turn w timeout maxRetries a rid le) as [c le'];
      cbn [fst] in E; subst c
  end.

Ltac split_tail :=
  match goal with
  | |- context [FetchHttpClient.attempts _ _ _ _ _ _ _ ?n ?a ?h ?le] =>
      let log := fresh "log" in
      let r := fresh "r" in
      destruct (FetchHttpClient.attempts Number_toString w timeout maxRetries
                  url method params n a h le) as [log r] eqn:?
  end.

(** A loop with turns left performs at least one attempt. *)
Lemma attempts_first turns attempt headers lastError :
  (0 < turns)%nat ->
  is_Some (fst (attempts turns attempt headers lastError) !! 0%nat).
Proof.
  destruct turns as [|turns]; [lia|]. intros _. step_attempts.
  destruct (completion_of attempt); try split_tail; cbn; eauto.
Qed.

(** No more attempts than turns. *)
Lemma attempts_length turns attempt headers lastError :
  (length (fst (attempts turns attempt headers lastError)) <= turns)%nat.
Proof.
  revert attempt headers lastError.
  induction turns as [|turns IH]; intros attempt headers lastError;
    [cbn; lia|].
  step_attempts.
  destruct (completion_of attempt); cbn; try lia;
    match goal with
    | |- context [FetchHttpClient.attempts _ _ _ _ _ _ _ ?n ?a ?h ?le] =>
        specialize (IH a h le);
        destruct (FetchHttpClient.attempts Number_toString w timeout
                    maxRetries url method params n a h le)
    end; cbn in *; lia.
Qed.

(** The request of the attempt at position [k]: the headers the loop was
    entered with, under the identifier generated in that very turn. *)
Lemma attempts_request turns attempt headers lastError k rec :
  fst (attempts turns attempt headers lastError) !! k = Some rec ->
  request rec
  = mkRequest url method
      (<["X-Request-Id" := requestId_at (attempt + k)%nat]> headers) params.
Proof.
  revert attempt headers lastError k.
  induction turns as [|turns IH]; intros attempt headers lastError k;
    [discriminate|].
  step_attempts.
  destruct (completion_of attempt); try split_tail; cbn [fst];
    destruct k as [|k]; cbn [lookup list_lookup]; rewrite ?lookup_nil;
    try discriminate;
    try (intros [= <-]; rewrite Nat.add_0_r; reflexivity).
  all: intros Hk;
    match goal with
    | H : FetchHttpClient.attempts _ _ _ _ _ _ _ _ ?a ?h ?le = _ |- _ =>
        pose proof (IH a h le k) as IHk; rewrite H in IHk;
        specialize (IHk Hk)
    end;
    rewrite IHk, insert_insert_eq;
    replace (S attempt + k)%nat with (attempt + S k)%nat by lia;
    reflexivity.
Qed.

(** What the completion of a turn means for the attempt it made. *)
Lemma attempts_at turns attempt headers lastError k rec :
  let run := attempts turns attempt headers lastError in
  fst run !! k = Some rec ->
  match completion_of (attempt + k)%nat with
  | Return data =>
      length (fst run) = S k /\ slept rec = None /\ snd run = Ok data
  | Raise e =>
      length (fst run) = S k /\ slept rec = None /\ snd run = Throw e
  | Continue delay =>
      slept rec = Some delay
      /\ ((S k < turns)%nat -> is_Some (fst run !! S k))
  | FallThrough => slept rec = None
  end.
Proof.
  cbn zeta. revert attempt headers lastError k.
  induction turns as [|turns IH]; intros attempt headers lastError k;
    [discriminate|].
  step_attempts.
  destruct k as [|k].
  - rewrite Nat.add_0_r.
    destruct (completion_of attempt) eqn:Hc; try split_tail;
      cbn [fst snd lookup list_lookup length]; intros [= <-]; cbn [slept];
      auto.
    split; trivial. intros Hlt.
    match goal with
    | H : FetchHttpClient.attempts _ _ _ _ _ _ _ _ ?a ?h ?le = _ |- _ =>
        pose proof (attempts_first turns a h le ltac:(lia)) as Hs;
        rewrite H in Hs
    end.
    exact Hs.
  - replace (attempt + S k)%nat with (S attempt + k)%nat by lia.
    destruct (completion_of attempt) eqn:Hc; try split_tail;
      cbn [fst snd lookup list_lookup length]; rewrite ?lookup_nil;
      try discriminate.
    all: intros Hk;
      match goal with
      | H : FetchHttpClient.attempts _ _ _ _ _ _ _ _ ?a ?h ?le = _ |- _ =>
          pose proof (IH a h le k) as IHk; rewrite H in IHk;
          specialize (IHk Hk)
      end;
      cbn [fst snd] in IHk;
      destruct (completion_of (S attempt + k));
        intuition (try lia; auto with lia).
Qed.

Ltac tests :=
  repeat match goal with
    | |- context [Z.leb ?a ?b] => destruct (Z.leb_spec a b); try lia
    | |- context [Z.ltb ?a ?b] => destruct (Z.ltb_spec a b); try lia
    | |- context [Z.eqb ?a ?b] => destruct (Z.eqb_spec a b); try lia
    end;
  cbn [andb orb negb].

(** ** One turn, by the class of the failure *)

Lemma completion_client_error k r :
  fetched (w k) = Responded r ->
  400 <= status r < 500 -> status r <> 429 ->
  completion_of k
  = Raise (OfSdk (generate (status r) (errorBody_of r)
                    (responseRequestId_of r (requestId_at k)))).
Proof.
  intros Hf Hr Hn. unfold completion_at, turn, try_block. rewrite Hf.
  unfold ok. tests; reflexivity.
Qed.

Lemma completion_rate_limited k r :
  fetched (w k) = Responded r ->
  status r = 429 ->
  completion_of k
  = if Z.of_nat k <? maxRetries then Continue (retry_after_ms r)
    else Raise (OfSdk (ACPRateLimitError
                         (opt_get (opt_get (errorBody_of r) "error") "message")
                         (responseRequestId_of r (requestId_at k)))).
Proof.
  intros Hf Hs. unfold completion_at, turn, try_block. rewrite Hf.
  unfold ok. rewrite Hs. cbn [Z.leb Z.ltb Z.eqb Z.compare Pos.compare
    Pos.compare_cont andb negb Pos.eqb].
  destruct (Z.of_nat k <? maxRetries); reflexivity.
Qed.

Lemma completion_other_status k r :
  fetched (w k) = Responded r ->
  ok r = false -> ~ 400 <= status r < 500 ->
  completion_of k
  = if Z.of_nat k <? maxRetries
    then Continue (Millis (getBackoffMs k (Math_random (w k))))
    else Raise (OfSdk (generate (status r) (errorBody_of r)
                         (responseRequestId_of r (requestId_at k)))).
Proof.
  intros Hf Hok Hr. unfold completion_at, turn, try_block.
  rewrite Hf, Hok. cbn [negb].
  assert (E : (400 <=? status r) && (status r <? 500)
              && negb (status r =? 429) = false) by (tests; reflexivity).
  rewrite E.
  assert (E' : (status r =? 429) = false) by (tests; reflexivity).
  rewrite E'.
  destruct (Z.of_nat k <? maxRetries); reflexivity.
Qed.

Lemma completion_rejected k name message :
  fetched (w k) = Rejected name message ->
  completion_of k
  = if Z.of_nat k <? maxRetries
    then Continue (Millis (getBackoffMs k (Math_random (w k))))
    else if String.eqb name "AbortError"
         then Raise (OfSdk (ACPConnectionError
                              (VStr ("Request timeout after "
                                     ++ string_of_Z timeout ++ "ms"))))
         else FallThrough.
Proof.
  intros Hf. unfold completion_at, turn, try_block. rewrite Hf.
  cbn [fst catch_block].
  destruct (String.eqb name "AbortError"), (Z.of_nat k <? maxRetries);
    reflexivity.
Qed.

End RetryFacts.

(** ** [ACPError.generate], by the class of the status *)

Lemma generate_client_error status body requestId :
  400 <= status < 500 -> status <> 429 ->
  let e := Error.generate status body requestId in
  Error.name e = client_error_kind status
  /\ Error.statusCode e = status
  /\ Error.requestId e = requestId.
Proof.
  intros Hr Hn. unfold Error.generate, client_error_kind.
  destruct (Z.eqb_spec status 400) as [E|];
    [rewrite E; repeat split; reflexivity|].
  destruct (Z.eqb_spec status 401); [repeat split; auto|].
  destruct (Z.eqb_spec status 403); [repeat split; auto|].
  destruct (Z.eqb_spec status 404); [repeat split; auto|].
  destruct (Z.eqb_spec status 429); [contradiction|].
  destruct (Z.leb_spec 400 status), (Z.ltb_spec status 500); try lia.
  repeat split; reflexivity.
Qed.

Lemma generate_server_error status body requestId :
  ~ 400 <= status < 500 ->
  let e := Error.generate status body requestId in
  Error.name e = "ACPAPIError"
  /\ Error.type e = "api_error"
  /\ Error.statusCode e = status
  /\ Error.requestId e = requestId.
Proof.
  intros Hr. unfold Error.generate.
  destruct (Z.eqb_spec status 400); [lia|].
  destruct (Z.eqb_spec status 401); [lia|].
  destruct (Z.eqb_spec status 403); [lia|].
  destruct (Z.eqb_spec status 404); [lia|].
  destruct (Z.eqb_spec status 429); [lia|].
  destruct (Z.leb_spec 400 status), (Z.ltb_spec status 500); try lia;
    repeat split; reflexivity.
Qed.

(** ** Request identifiers *)

Lemma append_inv_head a b c : a ++ b = a ++ c -> b = c.
Proof.
  induction a as [|x a IH]; [trivial|].
  rewrite !append_cons. intros [= H]. auto.
Qed.

Lemma string_of_Z_inj a b : string_of_Z a = string_of_Z b -> a = b.
Proof.
  intros E. pose proof (parseInt_string_of_Z a) as Ha.
  rewrite E, parseInt_string_of_Z in Ha. congruence.
Qed.

(** Two identifiers are equal only if they were made in the same
    millisecond from the same nine random characters. *)
Lemma generateRequestId_inj e1 e2 :
  FetchHttpClient.generateRequestId e1 = FetchHttpClient.generateRequestId e2
  -> FetchHttpClient.Date_now e1 = FetchHttpClient.Date_now e2
     /\ substring 2 11 (FetchHttpClient.random_base36 e1)
        = substring 2 11 (FetchHttpClient.random_base36 e2).
Proof.
  unfold FetchHttpClient.generateRequestId. intros E.
  apply (append_inv_head "req_") in E.
  change (?a ++ "_" ++ ?b) with (a ++ String "_" b) in E.
  assert (Hn : forall z, occurs "_" (string_of_Z z) = false)
    by (intros z; apply occurs_string_of_Z; [reflexivity | discriminate]).
  pose proof (f_equal (split "_") E) as S.
  rewrite !split_app in S by apply Hn. injection S as Hd _.
  split; [apply string_of_Z_inj, Hd|].
  rewrite Hd in E. apply append_inv_head in E. congruence.
Qed.

(* ===================================================================== *)
(** * [makeRequest] *)
(* ===================================================================== *)

Section MakeRequestFacts.
Import FetchHttpClient.

Variable Number_toString : Q -> string.
Variable w : world.
Variable config : HttpClientConfig.
Variables method path : string.
Variable params : option value.
Variable options : option RequestOptions.

Abbreviation run :=
  (makeRequest Number_toString w config method path params options).
Abbreviation maxRetries := (effective_maxRetries config options).
Abbreviation completion_of :=
  (completion_at w (effective_timeout config options) maxRetries).

Lemma makeRequest_at k rec :
  fst run !! k = Some rec ->
  match completion_of k with
  | Return data =>
      length (fst run) = S k /\ slept rec = None /\ snd run = Ok data
  | Raise e =>
      length (fst run) = S k /\ slept rec = None /\ snd run = Throw e
  | Continue delay =>
      slept rec = Some delay
      /\ (Z.of_nat k < maxRetries -> is_Some (fst run !! S k))
  | FallThrough => slept rec = None
  end.
Proof.
  intros Hk. unfold makeRequest in *.
  pose proof (attempts_at _ _ _ _ _ _ _ _ _ _ _ _ _ Hk) as H.
  cbn [Nat.add] in H.
  destruct (completion_of k); trivial.
  destruct H as [Hs Hn]. split; trivial. intros Hlt. apply Hn. lia.
Qed.

Lemma makeRequest_headers k rec :
  fst run !! k = Some rec ->
  headers (request rec)
  = <["X-Request-Id" := generateRequestId (w k)]>
      (initial_headers config options).
Proof.
  intros Hk. unfold makeRequest in *.
  rewrite (attempts_request _ _ _ _ _ _ _ _ _ _ _ _ _ Hk). reflexivity.
Qed.

Lemma makeRequest_length :
  Z.of_nat (length (fst run)) <= Z.max 0 (maxRetries + 1).
Proof.
  unfold makeRequest.
  match goal with
  | |- context [FetchHttpClient.attempts ?N ?w ?t ?m ?u ?me ?p ?n ?a ?h ?le] =>
      pose proof (attempts_length N w t m u me p n a h le)
  end.
  lia.
Qed.

Lemma initial_headers_key :
  initial_headers config options !! "Idempotency-Key" = truthy_key options.
Proof.
  unfold initial_headers. destruct (truthy_key options) as [key|].
  - apply lookup_insert_eq.
  - reflexivity.
Qed.

(** C4: a response with a status in 400..499 other than 429 ends the
    call on the attempt that received it: that attempt is the last of the
    log, nothing is slept after it, and the error [ACPError.generate]
    makes for the status is thrown, whatever [maxRetries] is. *)
Theorem client_error_is_terminal k rec r :
  fst run !! k = Some rec ->
  fetched (w k) = Responded r ->
  400 <= status r < 500 ->
  status r <> 429 ->
  length (fst run) = S k
  /\ slept rec = None
  /\ exists e,
      snd run = Throw (OfSdk e)
      /\ e = generate (status r) (errorBody_of r)
               (responseRequestId_of r (generateRequestId (w k)))
      /\ name e = client_error_kind (status r)
      /\ statusCode e = status r.
Proof.
  intros Hk Hf Hr Hn. pose proof (makeRequest_at k rec Hk) as H.
  rewrite (completion_client_error _ _ _ _ _ Hf Hr Hn) in H.
  destruct H as (Hlen & Hs & Hthrow). repeat split; trivial.
  eexists. split; [exact Hthrow|]. split; [reflexivity|].
  destruct (generate_client_error (status r) (errorBody_of r)
              (responseRequestId_of r (generateRequestId (w k))) Hr Hn)
    as (Hname & Hcode & _).
  split; assumption.
Qed.

(** C3, as the code has it: when every attempt is answered 503 and the
    effective [maxNetworkRetries] is 2, exactly three attempts are made,
    the first two followed by their backoff delays, and the call ends in
    the API error made from the last response (class [ACPAPIError], type
    [api_error], status 503). *)
Theorem server_errors_exhaust_retries :
  maxRetries = 2 ->
  (forall n, exists r, fetched (w n) = Responded r /\ status r = 503) ->
  length (fst run) = 3%nat
  /\ List.map slept (fst run)
     = [Some (Millis (getBackoffMs 0 (Math_random (w 0%nat))));
        Some (Millis (getBackoffMs 1 (Math_random (w 1%nat))));
        None]
  /\ exists e r,
      snd run = Throw (OfSdk e)
      /\ fetched (w 2%nat) = Responded r
      /\ e = generate 503 (errorBody_of r)
               (responseRequestId_of r (generateRequestId (w 2%nat)))
      /\ name e = "ACPAPIError"
      /\ type e = "api_error"
      /\ statusCode e = 503.
Proof.
  intros Hmax Hall.
  assert (Hc : forall k,
             exists r, fetched (w k) = Responded r /\ status r = 503
             /\ completion_of k
                = if Z.of_nat k <? 2
                  then Continue (Millis (getBackoffMs k (Math_random (w k))))
                  else Raise (OfSdk (generate 503 (errorBody_of r)
                                       (responseRequestId_of r
                                          (generateRequestId (w k)))))).
  { intros k. destruct (Hall k) as (r & Hf & Hs). exists r.
    split; [|split]; trivial.
    rewrite (completion_other_status _ _ _ _ _ Hf), Hmax, Hs;
      [reflexivity | unfold ok; rewrite Hs; reflexivity | rewrite Hs; lia]. }
  assert (H0 : is_Some (fst run !! 0%nat)).
  { unfold makeRequest. apply attempts_first. rewrite Hmax. cbn. lia. }
  destruct H0 as [a0 H0].
  pose proof (makeRequest_at 0 a0 H0) as A0.
  destruct (Hc 0%nat) as (r0 & _ & _ & E0). rewrite E0 in A0. cbn in A0.
  destruct A0 as [S0 N0]. destruct N0 as [a1 H1]; [rewrite Hmax; lia|].
  pose proof (makeRequest_at 1 a1 H1) as A1.
  destruct (Hc 1%nat) as (r1 & _ & _ & E1). rewrite E1 in A1. cbn in A1.
  destruct A1 as [S1 N1]. destruct N1 as [a2 H2]; [rewrite Hmax; lia|].
  pose proof (makeRequest_at 2 a2 H2) as A2.
  destruct (Hc 2%nat) as (r2 & Hf2 & Hs2 & E2). rewrite E2 in A2. cbn in A2.
  destruct A2 as (Hlen & S2 & Hthrow).
  split; [exact Hlen|]. split.
  - destruct (fst run) as [|x0 [|x1 [|x2 [|x3 rest]]]]; try discriminate Hlen.
    cbn in H0, H1, H2. injection H0 as ->. injection H1 as ->.
    injection H2 as ->. cbn. rewrite S0, S1, S2. reflexivity.
  - eexists. exists r2. split; [exact Hthrow|]. split; [exact Hf2|].
    split; [reflexivity|].
    destruct (generate_server_error 503 (errorBody_of r2)
                (responseRequestId_of r2 (generateRequestId (w 2%nat))))
      as (Hn & Ht & Hsc & _); [lia|].
    auto.
Qed.

(** C6: for every attempt index [k] and every draw of [Math.random] in
    [[0, 1)], the jitter [j = random / 2 + 3 / 4] lies in [[0.75, 1.25]]
    and [getBackoffMs] is [min (500 * 2^k * j, 30000)] milliseconds; that
    is the delay slept after a 5xx response and after a failed or
    timed-out request on an attempt [k < maxRetries].  Every [j] of
    [[0.75, 1.25)] is the jitter of a draw. *)
Theorem backoff_delay_formula k :
  (0 <= Math_random (w k) < 1)%Q ->
  let j := (Math_random (w k) * (1 # 2) + (3 # 4))%Q in
  let delay := getBackoffMs k (Math_random (w k)) in
  (3 # 4 <= j <= 5 # 4)%Q
  /\ (delay == Qmin (500 * inject_Z (2 ^ Z.of_nat k) * j) 30000)%Q
  /\ (forall j',
        (3 # 4 <= j' < 5 # 4)%Q ->
        exists random,
          (0 <= random < 1)%Q
          /\ (getBackoffMs k random
              == Qmin (500 * inject_Z (2 ^ Z.of_nat k) * j') 30000)%Q)
  /\ (forall rec,
        fst run !! k = Some rec ->
        Z.of_nat k < maxRetries ->
        (exists r, fetched (w k) = Responded r /\ 500 <= status r <= 599)
        \/ (exists name message, fetched (w k) = Rejected name message) ->
        slept rec = Some (Millis delay)).
Proof.
  intros Hrange j delay. split; [|split; [|split]].
  - unfold j. lra.
  - unfold delay, getBackoffMs, Math_pow2, jitter_of. cbn zeta. fold j.
    apply Q.min_compat; [ring | reflexivity].
  - intros j' Hj. exists ((j' - (3 # 4)) * 2)%Q. split; [lra|].
    unfold getBackoffMs, Math_pow2, jitter_of. cbn zeta.
    apply Q.min_compat; [ring | reflexivity].
  - intros rec Hk Hlt Hfail.
    pose proof (makeRequest_at k rec Hk) as H.
    assert (Hc : completion_of k = Continue (Millis delay)).
    { destruct Hfail as [(r & Hf & Hs) | (name & message & Hf)].
      - rewrite (completion_other_status _ _ _ _ _ Hf);
          [| unfold ok;
             destruct (Z.leb_spec (status r) 299); [lia|];
             apply andb_false_r
           | lia].
        destruct (Z.ltb_spec (Z.of_nat k) maxRetries); [reflexivity | lia].
      - rewrite (completion_rejected _ _ _ _ _ _ Hf).
        destruct (Z.ltb_spec (Z.of_nat k) maxRetries); [reflexivity | lia]. }
    rewrite Hc in H. exact (proj1 H).
Qed.

(** C8: on every physical attempt the [Idempotency-Key] header is the
    same, namely the caller's key when one is given, and the
    [X-Request-Id] header is the identifier generated in that attempt's own
    turn from its own clock reading and random draw; identifiers of two
    attempts differ as soon as their clock readings or draws do. *)
Theorem headers_across_attempts :
  (forall k rec,
      fst run !! k = Some rec ->
      headers (request rec) !! "Idempotency-Key" = truthy_key options
      /\ headers (request rec) !! "X-Request-Id"
         = Some (generateRequestId (w k)))
  /\ (forall o key k rec,
        options = Some o -> idempotencyKey o = Some key -> key <> "" ->
        fst run !! k = Some rec ->
        headers (request rec) !! "Idempotency-Key" = Some key)
  /\ (forall i j a b,
        fst run !! i = Some a -> fst run !! j = Some b ->
        Date_now (w i) <> Date_now (w j)
        \/ substring 2 11 (random_base36 (w i))
           <> substring 2 11 (random_base36 (w j)) ->
        headers (request a) !! "X-Request-Id"
        <> headers (request b) !! "X-Request-Id").
Proof.
  assert (Hall : forall k rec,
             fst run !! k = Some rec ->
             headers (request rec) !! "Idempotency-Key" = truthy_key options
             /\ headers (request rec) !! "X-Request-Id"
                = Some (generateRequestId (w k))).
  { intros k rec Hk. rewrite (makeRequest_headers k rec Hk). split.
    - rewrite lookup_insert_ne by discriminate. apply initial_headers_key.
    - apply lookup_insert_eq. }
  split; [exact Hall|]. split.
  - intros o key k rec -> Hkey Hne Hk.
    destruct (Hall k rec Hk) as [-> _]. cbn. rewrite Hkey.
    destruct (String.eqb_spec key ""); [contradiction | reflexivity].
  - intros i j a b Hi Hj Hdiff.
    destruct (Hall i a Hi) as [_ ->]. destruct (Hall j b Hj) as [_ ->].
    intros E.
    pose proof (f_equal (fun o => match o with Some x => x | None => "" end) E)
      as E'.
    cbn beta iota in E'. apply generateRequestId_inj in E'. tauto.
Qed.

End MakeRequestFacts.

(* ===================================================================== *)
(** * The scenarios of the specification, run *)
(* ===================================================================== *)

Section Runs.
Import Webhooks.

Abbreviation hmac := Sha256.hmac_sha256.
Abbreviation parse := Scenario.JSON_parse.
Abbreviation utf8 := Scenario.Buffer_toString.

(** RFC 4231, test case 2. *)
Example hmac_sha256_rfc4231 :
  hex_of_bytes (hmac "Jefe" "what do ya want for nothing?")
  = "5bdcc146bf60754e6a042426089575c75a003f089d2739839dec58b964ec3843".
Proof. vm_compute. reflexivity. Qed.

Example scenario_header :
  outcome (generateTestHeaderString hmac Scenario.now Scenario.payload
             Scenario.secret (Some 1700000000))
  = Ok Scenario.header.
Proof. vm_compute. reflexivity. Qed.

Example scenario_construct :
  exists event,
    outcome (constructEvent hmac parse utf8 Scenario.now
               (Text Scenario.payload) Scenario.header Scenario.secret None)
    = Ok event
    /\ get event "id" = VStr "evt_1".
Proof. eexists. split; vm_compute; reflexivity. Qed.

(** The same body received as a [Buffer]. *)
Example scenario_buffer :
  outcome (verifySignature hmac utf8 Scenario.now
             (Buffer Scenario.payload) Scenario.header Scenario.secret None)
  = Ok true.
Proof. vm_compute. reflexivity. Qed.

(** Signed 400 seconds ago: refused under the default tolerance, accepted
    under a tolerance of 500 seconds. *)
Example scenario_stale :
  (exists e,
      outcome (constructEvent hmac parse utf8 1700000400000
                 (Text Scenario.payload) Scenario.header Scenario.secret None)
      = Throw (OfSdk e)
      /\ is_stale_error e = true)
  /\ outcome (constructEvent hmac parse utf8 1700000400000
                (Text Scenario.payload) Scenario.header Scenario.secret
                (Some 500))
     = Ok Scenario.event.
Proof. split; [eexists; split|]; vm_compute; reflexivity. Qed.

(** One byte added to the payload after signing. *)
Example scenario_tampered :
  outcome (verifySignature hmac utf8 Scenario.now
             (Text (Scenario.payload ++ " ")) Scenario.header
             Scenario.secret None)
  = Ok false.
Proof. vm_compute. reflexivity. Qed.

End Runs.

(** C1, a counterexample to the claim as stated: the header generated for
    the timestamp 0 is refused although its age is within the tolerance,
    because [parseHeader] takes a zero timestamp for a missing one. *)
Lemma zero_timestamp_header_rejected :
  Scenario.now / 1000 - 0 <= Webhooks.tolerance_or_default (Some 2000000000)
  /\ Webhooks.outcome
       (Webhooks.generateTestHeaderString Sha256.hmac_sha256 Scenario.now
          Scenario.payload Scenario.secret (Some 0))
     = Ok Scenario.header_zero
  /\ Webhooks.outcome
       (Webhooks.verifySignature Sha256.hmac_sha256 Scenario.Buffer_toString
          Scenario.now (Webhooks.Text Scenario.payload) Scenario.header_zero
          Scenario.secret (Some 2000000000))
     = Ok false.
Proof.
  split; [vm_compute; discriminate|]. split; vm_compute; reflexivity.
Qed.

(** The scenario header, generated and verified a hundred seconds later. *)
Lemma generated_header_verifies_witness :
  exists header,
    Webhooks.outcome
      (Webhooks.generateTestHeaderString Sha256.hmac_sha256 Scenario.now
         Scenario.payload Scenario.secret (Some 1700000000))
    = Ok header
    /\ Webhooks.outcome
         (Webhooks.verifySignature Sha256.hmac_sha256
            Scenario.Buffer_toString Scenario.now
            (Webhooks.Text Scenario.payload) header Scenario.secret None)
       = Ok true.
Proof.
  apply (generated_header_verifies Sha256.hmac_sha256
           Scenario.Buffer_toString Scenario.now Scenario.payload
           Scenario.secret (Some 1700000000) None).
  - discriminate.
  - reflexivity.
  - vm_compute. discriminate.
Defined.

(** The scenario header, correctly signed, presented 400 seconds later. *)
Lemma stale_event_rejected_witness :
  Webhooks.parseHeader Scenario.header = Ok Scenario.parsed_header
  /\ Webhooks.constructEvent Sha256.hmac_sha256 Scenario.JSON_parse
       Scenario.Buffer_toString 1700000400000
       (Webhooks.Text Scenario.payload) Scenario.header Scenario.secret None
     = ([], Webhooks.sig_error (Webhooks.too_old_message 400 300))
  /\ Webhooks.verifySignature Sha256.hmac_sha256 Scenario.Buffer_toString
       1700000400000 (Webhooks.Text Scenario.payload) Scenario.header
       Scenario.secret None
     = ([], Ok false).
Proof.
  assert (Hp : Webhooks.parseHeader Scenario.header
               = Ok Scenario.parsed_header)
    by (vm_compute; reflexivity).
  assert (Hold : Webhooks.timestamp Scenario.parsed_header
                 < 1700000400000 / 1000 - Webhooks.tolerance_or_default None)
    by (vm_compute; reflexivity).
  split; [exact Hp|].
  destruct (stale_event_rejected Sha256.hmac_sha256 Scenario.JSON_parse
              Scenario.Buffer_toString 1700000400000
              (Webhooks.Text Scenario.payload) Scenario.header
              Scenario.secret None _ Hp Hold) as (Hc & _ & Hv).
  split; [exact Hc | exact Hv].
Defined.

(** The scenario header seen by a clock a hundred million seconds behind,
    under a tolerance of zero. *)
Lemma future_timestamp_is_fresh_witness :
  1600000000000 / 1000 <= Webhooks.timestamp Scenario.parsed_header
  /\ Webhooks.outcome
       (Webhooks.verifySignature Sha256.hmac_sha256 Scenario.Buffer_toString
          1600000000000 (Webhooks.Text Scenario.payload) Scenario.header
          Scenario.secret (Some 0))
     = Ok true.
Proof.
  assert (Hp : Webhooks.parseHeader Scenario.header
               = Ok Scenario.parsed_header)
    by (vm_compute; reflexivity).
  assert (Hfut : 1600000000000 / 1000
                 <= Webhooks.timestamp Scenario.parsed_header)
    by (vm_compute; discriminate).
  split; [exact Hfut|].
  destruct (future_timestamp_is_fresh Sha256.hmac_sha256 Scenario.JSON_parse
              Scenario.Buffer_toString 1600000000000
              (Webhooks.Text Scenario.payload) Scenario.header
              Scenario.secret (Some 0) _ Hp Hfut
              ltac:(vm_compute; discriminate))
    as (_ & _ & Hv).
  rewrite Hv. vm_compute. reflexivity.
Defined.

(** Three bytes against four. *)
Lemma secureCompare_never_throws_witness :
  String.length "abc" <> String.length "abcd"
  /\ Webhooks.outcome (Webhooks.secureCompare (Some "abc") "abcd") = Ok false.
Proof.
  assert (Hlen : String.length "abc" <> String.length "abcd")
    by (vm_compute; discriminate).
  split; [exact Hlen|].
  exact (proj2 (proj2 (secureCompare_never_throws (Some "abc") "abcd")
                  "abc" eq_refl Hlen)).
Defined.

Section HttpRuns.
Import FetchHttpClient.

Abbreviation request_to f options :=
  (makeRequest Scenario.Number_toString (Scenario.always f) Scenario.config
     "POST" "/checkout_sessions" None options).

(** Retry-After: 2 makes the next attempt wait two seconds. *)
Example scenario_retry_after :
  List.map slept (fst (request_to (Responded Scenario.rate_limited) None))
  = [Some (Millis 2000%Q); Some (Millis 2000%Q); None].
Proof. vm_compute. reflexivity. Qed.

(** A network failure on every attempt ends in the connection error that
    carries the last failure's message. *)
Example scenario_network_down :
  exists e,
    snd (request_to (Rejected "TypeError" "fetch failed") None)
    = Throw (OfSdk e)
    /\ name e = "ACPConnectionError"
    /\ message e = VStr "Request failed after 3 attempts: fetch failed".
Proof. eexists. repeat split; vm_compute; reflexivity. Qed.

End HttpRuns.

(** C3, a counterexample to the claim as stated: three attempts answered
    503 under [maxNetworkRetries = 2] end in an error that is not a
    connection error. *)
Lemma all_503_is_not_a_connection_error :
  let run :=
    FetchHttpClient.makeRequest Scenario.Number_toString
      (Scenario.always (FetchHttpClient.Responded Scenario.unavailable))
      Scenario.config "POST" "/checkout_sessions" None None in
  FetchHttpClient.effective_maxRetries Scenario.config None = 2
  /\ (forall n,
        exists r,
          FetchHttpClient.fetched
            (Scenario.always (FetchHttpClient.Responded Scenario.unavailable) n)
          = FetchHttpClient.Responded r
          /\ FetchHttpClient.status r = 503)
  /\ length (fst run) = 3%nat
  /\ ~ (exists e,
         snd run = Throw (OfSdk e)
         /\ (Error.name e = "ACPConnectionError"
             \/ Error.type e = "connection_error")).
Proof.
  cbn zeta. split; [reflexivity|]. split; [|split].
  - intros n. eexists. split; reflexivity.
  - vm_compute. reflexivity.
  - intros (e & He & Hkind). vm_compute in He. injection He as <-.
    destruct Hkind as [H|H]; discriminate H.
Qed.

(** The service answers 503 to every attempt. *)
Lemma server_errors_exhaust_retries_witness :
  let run :=
    FetchHttpClient.makeRequest Scenario.Number_toString
      (Scenario.always (FetchHttpClient.Responded Scenario.unavailable))
      Scenario.config "POST" "/checkout_sessions" None None in
  length (fst run) = 3%nat
  /\ exists e,
      snd run = Throw (OfSdk e)
      /\ Error.name e = "ACPAPIError"
      /\ Error.statusCode e = 503.
Proof.
  cbn zeta.
  destruct (server_errors_exhaust_retries Scenario.Number_toString
              (Scenario.always (FetchHttpClient.Responded Scenario.unavailable))
              Scenario.config "POST" "/checkout_sessions" None None
              eq_refl
              (fun n => ex_intro _ Scenario.unavailable (conj eq_refl eq_refl)))
    as (Hlen & _ & e & r & Hthrow & _ & _ & Hname & _ & Hcode).
  split; [exact Hlen|]. exists e. auto.
Defined.

(** A 404 on the first attempt, two retries left. *)
Lemma client_error_is_terminal_witness :
  let run :=
    FetchHttpClient.makeRequest Scenario.Number_toString
      (Scenario.always (FetchHttpClient.Responded Scenario.not_found))
      Scenario.config "GET" "/checkout_sessions/cs_404" None None in
  length (fst run) = 1%nat
  /\ exists e,
      snd run = Throw (OfSdk e)
      /\ Error.name e = "ACPNotFoundError"
      /\ Error.requestId e = VStr "req_srv_1".
Proof.
  cbn zeta.
  assert (H0 : is_Some
                 (fst (FetchHttpClient.makeRequest Scenario.Number_toString
                         (Scenario.always
                            (FetchHttpClient.Responded Scenario.not_found))
                         Scenario.config "GET" "/checkout_sessions/cs_404"
                         None None) !! 0%nat))
    by (vm_compute; eauto).
  destruct H0 as [rec H0].
  destruct (client_error_is_terminal Scenario.Number_toString
              (Scenario.always (FetchHttpClient.Responded Scenario.not_found))
              Scenario.config "GET" "/checkout_sessions/cs_404" None None
              0%nat rec Scenario.not_found H0 eq_refl
              ltac:(vm_compute; split; [discriminate | reflexivity])
              ltac:(vm_compute; discriminate))
    as (Hlen & _ & e & Hthrow & -> & Hname & _).
  split; [exact Hlen|]. eexists. split; [exact Hthrow|].
  split; vm_compute; reflexivity.
Defined.

(** The second attempt of a call answered 503, with a draw of one
    quarter: a jitter of seven eighths on a base of one second. *)
Lemma backoff_delay_formula_witness :
  let run :=
    FetchHttpClient.makeRequest Scenario.Number_toString
      (Cases.down (1 # 4)) Scenario.config "POST" "/checkout_sessions"
      None None in
  exists second delay,
    fst run !! 1%nat = Some second
    /\ FetchHttpClient.slept second = Some (FetchHttpClient.Millis delay)
    /\ (delay == 875)%Q.
Proof.
  cbn zeta.
  pose (w := Cases.down (1 # 4)).
  assert (H1 : is_Some
                 (fst (FetchHttpClient.makeRequest Scenario.Number_toString w
                         Scenario.config "POST" "/checkout_sessions"
                         None None) !! 1%nat))
    by (vm_compute; eauto).
  destruct H1 as [second H1].
  assert (Hlt : Z.of_nat 1 < FetchHttpClient.effective_maxRetries
                               Scenario.config None)
    by (vm_compute; reflexivity).
  assert (Hfail :
            (exists r,
                FetchHttpClient.fetched (w 1%nat) = FetchHttpClient.Responded r
                /\ 500 <= FetchHttpClient.status r <= 599)
            \/ (exists name message,
                   FetchHttpClient.fetched (w 1%nat)
                   = FetchHttpClient.Rejected name message)).
  { left. exists Scenario.unavailable. split; [reflexivity|].
    vm_compute. split; discriminate. }
  assert (Hdraw : (0 <= FetchHttpClient.Math_random (w 1%nat) < 1)%Q)
    by (vm_compute; split; [discriminate | reflexivity]).
  destruct (backoff_delay_formula Scenario.Number_toString w
              Scenario.config "POST" "/checkout_sessions" None None
              1%nat Hdraw)
    as (_ & Hformula & _ & Hslept).
  exists second, (FetchHttpClient.getBackoffMs 1 (FetchHttpClient.Math_random (w 1%nat))).
  split; [exact H1|]. split; [exact (Hslept second H1 Hlt Hfail)|].
  rewrite Hformula. vm_compute. reflexivity.
Defined.

(** The first two attempts of a call made with an idempotency key. *)
Lemma headers_across_attempts_witness :
  let run :=
    FetchHttpClient.makeRequest Scenario.Number_toString
      (Scenario.always (FetchHttpClient.Responded Scenario.unavailable))
      Scenario.config "POST" "/checkout_sessions" None Scenario.with_key in
  exists first second,
    fst run !! 0%nat = Some first
    /\ fst run !! 1%nat = Some second
    /\ FetchHttpClient.headers (FetchHttpClient.request first)
         !! "Idempotency-Key" = Some "unique_request_123"
    /\ FetchHttpClient.headers (FetchHttpClient.request second)
         !! "Idempotency-Key" = Some "unique_request_123"
    /\ FetchHttpClient.headers (FetchHttpClient.request first)
         !! "X-Request-Id"
       <> FetchHttpClient.headers (FetchHttpClient.request second)
            !! "X-Request-Id".
Proof.
  cbn zeta.
  pose (w := Scenario.always (FetchHttpClient.Responded Scenario.unavailable)).
  assert (H0 : is_Some
                 (fst (FetchHttpClient.makeRequest Scenario.Number_toString w
                         Scenario.config "POST" "/checkout_sessions"
                         None Scenario.with_key) !! 0%nat))
    by (vm_compute; eauto).
  assert (H1 : is_Some
                 (fst (FetchHttpClient.makeRequest Scenario.Number_toString w
                         Scenario.config "POST" "/checkout_sessions"
                         None Scenario.with_key) !! 1%nat))
    by (vm_compute; eauto).
  destruct H0 as [first H0]. destruct H1 as [second H1].
  destruct (headers_across_attempts Scenario.Number_toString w
              Scenario.config "POST" "/checkout_sessions" None
              Scenario.with_key) as (_ & Hkey & Hids).
  exists first, second. split; [exact H0|]. split; [exact H1|].
  split; [|split].
  - apply (Hkey _ "unique_request_123" 0%nat first eq_refl eq_refl);
      [discriminate | exact H0].
  - apply (Hkey _ "unique_request_123" 1%nat second eq_refl eq_refl);
      [discriminate | exact H1].
  - apply (Hids 0%nat 1%nat first second H0 H1).
    left. vm_compute. discriminate.
Defined.

(* ===================================================================== *)
(** * Further properties of webhook verification *)
(* ===================================================================== *)

Section HeaderFacts.
Import Webhooks.

Lemma split_nonempty c s : split c s <> [].
Proof.
  destruct s as [|x s]; cbn [split]; [discriminate|].
  destruct (Ascii.eqb x c); [discriminate|].
  destruct (split c s); discriminate.
Qed.

(** [split] distributes over a separator between two strings. *)
Lemma split_join c a b :
  split c (a ++ String c b) = (split c a ++ split c b)%list.
Proof.
  induction a as [|x a IH].
  - rewrite append_nil. cbn [split]. rewrite Ascii.eqb_refl. reflexivity.
  - rewrite append_cons. cbn [split]. rewrite IH.
    destruct (Ascii.eqb x c); [reflexivity|].
    pose proof (split_nonempty c a) as Hne.
    destruct (split c a) as [|piece pieces]; [contradiction|]. reflexivity.
Qed.

Lemma parseHeader_step_t ts sigs part :
  is_t part = true ->
  parseHeader_step (ts, sigs) part = (parseInt (part_value part), sigs).
Proof.
  unfold is_t, part_key, parseHeader_step. intros H.
  apply bool_decide_eq_true in H. rewrite decide_True by exact H. reflexivity.
Qed.

Lemma parseHeader_step_v1 ts sigs part :
  is_v1 part = true ->
  parseHeader_step (ts, sigs) part = (ts, (sigs ++ [part_value part])%list).
Proof.
  unfold is_v1, part_key, parseHeader_step. intros H.
  apply bool_decide_eq_true in H.
  rewrite decide_False by (rewrite H; discriminate).
  rewrite decide_True by exact H. reflexivity.
Qed.

Lemma parseHeader_step_other ts sigs part :
  is_t part = false -> is_v1 part = false ->
  parseHeader_step (ts, sigs) part = (ts, sigs).
Proof.
  unfold is_t, is_v1, part_key, parseHeader_step. intros Ht Hv.
  apply bool_decide_eq_false in Ht. apply bool_decide_eq_false in Hv.
  rewrite decide_False by exact Ht. rewrite decide_False by exact Hv.
  reflexivity.
Qed.

Lemma is_t_not_v1 part : is_t part = true -> is_v1 part = false.
Proof.
  unfold is_t, is_v1. intros H. apply bool_decide_eq_true in H.
  apply bool_decide_eq_false. rewrite H. discriminate.
Qed.

(** The loop of [parseHeader], told apart into its two results. *)
Lemma fold_parseHeader_step parts ts sigs :
  fold_left parseHeader_step parts (ts, sigs)
  = (match last (List.filter is_t parts) with
     | Some part => parseInt (part_value part)
     | None => ts
     end,
     (sigs ++ v1_values parts)%list).
Proof.
  revert ts sigs. induction parts as [|part parts IH]; intros ts sigs.
  - cbn. rewrite app_nil_r. reflexivity.
  - cbn [fold_left]. unfold v1_values. cbn [List.filter].
    destruct (is_t part) eqn:Ht.
    + rewrite (parseHeader_step_t _ _ _ Ht), IH, (is_t_not_v1 _ Ht).
      rewrite last_cons. unfold v1_values.
      destruct (last (List.filter is_t parts)); reflexivity.
    + destruct (is_v1 part) eqn:Hv.
      * rewrite (parseHeader_step_v1 _ _ _ Hv), IH. unfold v1_values.
        cbn [List.map]. rewrite <- app_assoc. reflexivity.
      * rewrite (parseHeader_step_other _ _ _ Ht Hv), IH. reflexivity.
Qed.

Lemma parseHeader_unfolded header :
  parseHeader header
  = if String.eqb header "" then
      sig_error "No webhook signature header provided."
    else
      let parts := split "," header in
      match last_timestamp parts with
      | NaN => sig_error "Unable to extract timestamp from webhook header."
      | Num t =>
          if t =? 0 then
            sig_error "Unable to extract timestamp from webhook header."
          else
            match v1_values parts with
            | [] =>
                sig_error "Unable to extract signature from webhook header."
            | sigs => Ok (mkWebhookHeader t sigs)
            end
      end.
Proof.
  unfold parseHeader. destruct (String.eqb header ""); [reflexivity|].
  cbn zeta. rewrite fold_parseHeader_step. cbn [app]. unfold last_timestamp.
  destruct (last (List.filter is_t (split "," header))) as [part|].
  - destruct (parseInt (part_value part)) as [t|]; [|reflexivity].
    destruct (t =? 0); [reflexivity|].
    destruct (v1_values (split "," header)); reflexivity.
  - reflexivity.
Qed.

End HeaderFacts.

Section HeaderShape.
Import Webhooks.

Lemma first_piece c s : exists piece, split c s !! 0%nat = Some piece.
Proof.
  pose proof (split_nonempty c s) as H.
  destruct (split c s) as [|piece pieces]; [contradiction|]. eauto.
Qed.

Lemma part_key_prefixed (key rest : string) :
  occurs "=" key = false ->
  part_key (key ++ String "=" rest) = Some key.
Proof.
  intros Hk. unfold part_key. rewrite split_join, (split_absent _ _ Hk).
  reflexivity.
Qed.

Lemma part_value_prefixed (key rest : string) :
  occurs "=" key = false ->
  part_value (key ++ String "=" rest) = split "=" rest !! 0%nat.
Proof.
  intros Hk. unfold part_value. rewrite split_join, (split_absent _ _ Hk).
  reflexivity.
Qed.

Lemma is_t_prefixed rest : is_t ("t=" ++ rest) = true.
Proof.
  unfold is_t. change ("t=" ++ rest) with ("t" ++ String "=" rest).
  rewrite part_key_prefixed by reflexivity. reflexivity.
Qed.

Lemma is_v1_prefixed rest : is_v1 ("v1=" ++ rest) = true.
Proof.
  unfold is_v1. change ("v1=" ++ rest) with ("v1" ++ String "=" rest).
  rewrite part_key_prefixed by reflexivity. reflexivity.
Qed.

Lemma part_value_t rest :
  occurs "=" rest = false -> part_value ("t=" ++ rest) = Some rest.
Proof.
  intros H. change ("t=" ++ rest) with ("t" ++ String "=" rest).
  rewrite part_value_prefixed by reflexivity.
  rewrite (split_absent _ _ H). reflexivity.
Qed.

Lemma part_value_v1 rest :
  occurs "=" rest = false -> part_value ("v1=" ++ rest) = Some rest.
Proof.
  intros H. change ("v1=" ++ rest) with ("v1" ++ String "=" rest).
  rewrite part_value_prefixed by reflexivity.
  rewrite (split_absent _ _ H). reflexivity.
Qed.

(** A header of one [t] part and one [v1] part. *)
Lemma parseHeader_two_parts x digest :
  occurs "," x = false -> occurs "=" x = false ->
  occurs "," digest = false -> occurs "=" digest = false ->
  parseHeader ("t=" ++ x ++ ",v1=" ++ digest)
  = match parseInt (Some x) with
    | NaN => sig_error "Unable to extract timestamp from webhook header."
    | Num t =>
        if t =? 0 then
          sig_error "Unable to extract timestamp from webhook header."
        else Ok (mkWebhookHeader t [Some digest])
    end.
Proof.
  intros Hxc Hxe Hdc Hde. rewrite parseHeader_unfolded.
  change (String.eqb ("t=" ++ x ++ ",v1=" ++ digest) "") with false.
  cbn iota zeta.
  change ("t=" ++ x ++ ",v1=" ++ digest)
    with ("t=" ++ (x ++ String "," ("v1=" ++ digest))).
  rewrite <- append_assoc, split_app
    by (rewrite occurs_app, Hxc; reflexivity).
  rewrite split_absent by (rewrite occurs_app, Hdc; reflexivity).
  unfold last_timestamp, v1_values. cbn [List.filter].
  rewrite is_t_prefixed, is_v1_prefixed.
  rewrite (is_t_not_v1 _ (is_t_prefixed x)).
  assert (Hv : is_t ("v1=" ++ digest) = false).
  { destruct (is_t ("v1=" ++ digest)) eqn:E; trivial.
    apply is_t_not_v1 in E. rewrite is_v1_prefixed in E. discriminate. }
  rewrite Hv. cbn [last List.map].
  rewrite (part_value_t _ Hxe), (part_value_v1 _ Hde). reflexivity.
Qed.

(** [parseInt] stops at the first character that is not a digit. *)
Lemma digits_acc_app u rest acc :
  digits_acc (NilEmpty.string_of_uint u ++ rest) acc
  = digits_acc rest (uint_acc u acc).
Proof.
  revert acc. induction u; intros acc;
    cbn [NilEmpty.string_of_uint uint_acc]; rewrite ?append_nil; trivial;
    rewrite append_cons; cbn [digits_acc];
    match goal with
    | |- context [digit_of ?c] =>
        let v := eval vm_compute in (digit_of c) in
        change (digit_of c) with v
    end; apply IHu.
Qed.

Lemma digits_acc_stops rest acc :
  starts_with_digit rest = false -> digits_acc rest acc = acc.
Proof.
  destruct rest as [|c rest]; [reflexivity|]. cbn.
  destruct (digit_of c); [discriminate | reflexivity].
Qed.

Lemma parseInt_decimal_prefix z rest :
  starts_with_digit rest = false ->
  parseInt (Some (string_of_Z z ++ rest)) = Num z.
Proof.
  intros Hrest. destruct z as [|p|p].
  - change (string_of_Z 0) with "0". rewrite append_cons, append_nil.
    rewrite (parseInt_digit_head "0" rest 0 eq_refl).
    change (String "0" rest)
      with (NilEmpty.string_of_uint (Decimal.D0 Decimal.Nil) ++ rest).
    rewrite digits_acc_app, (digits_acc_stops _ _ Hrest). reflexivity.
  - rewrite string_of_Z_pos.
    destruct (uint_head (Pos.to_uint p) (to_uint_nonnil p))
      as (c & tl & d & E & Hd).
    rewrite E, append_cons, (parseInt_digit_head _ _ _ Hd).
    rewrite <- append_cons, <- E, digits_acc_app.
    rewrite (digits_acc_stops _ _ Hrest), uint_acc_to_uint. reflexivity.
  - rewrite string_of_Z_neg.
    destruct (uint_head (Pos.to_uint p) (to_uint_nonnil p))
      as (c & tl & d & E & Hd).
    rewrite append_cons, E, append_cons, (parseInt_minus_digit_head _ _ _ Hd).
    rewrite <- append_cons, <- E, digits_acc_app.
    rewrite (digits_acc_stops _ _ Hrest), uint_acc_to_uint. reflexivity.
Qed.

End HeaderShape.

Section WebhookMore.
Import Webhooks.

Variable hmac_sha256 : string -> string -> string.
Variable JSON_parse : string -> option value.
Variable Buffer_toString : string -> string.

Abbreviation constructEvent' :=
  (Webhooks.constructEvent hmac_sha256 JSON_parse Buffer_toString).
Abbreviation verifySignature' :=
  (Webhooks.verifySignature hmac_sha256 Buffer_toString).
Abbreviation generate' := (Webhooks.generateTestHeaderString hmac_sha256).
Abbreviation digest := (digest_with hmac_sha256).
Abbreviation text := (Webhooks.payloadString_of Buffer_toString).

Lemma filter_none {A} (f : A -> bool) (l : list A) :
  (forall x, In x l -> f x = false) -> List.filter f l = [].
Proof.
  induction l as [|x l IH]; [reflexivity|]. intros H. cbn.
  rewrite (H x (or_introl eq_refl)). apply IH. intros y Hy. apply H.
  right. exact Hy.
Qed.

Lemma parseHeader_ok_inv header h :
  parseHeader header = Ok h ->
  header <> ""
  /\ last_timestamp (split "," header) = Num (timestamp h)
  /\ timestamp h <> 0
  /\ v1_values (split "," header) = signatures h
  /\ signatures h <> [].
Proof.
  rewrite parseHeader_unfolded.
  destruct (String.eqb_spec header "") as [|Hne]; [discriminate|].
  cbn zeta. destruct (last_timestamp (split "," header)) as [t|];
    [|discriminate].
  destruct (Z.eqb_spec t 0); [discriminate|].
  destruct (v1_values (split "," header)) as [|sig sigs]; [discriminate|].
  intros [= <-]. cbn. repeat split; trivial. discriminate.
Qed.

Lemma parseHeader_throws header err :
  parseHeader header = Throw err ->
  exists message,
    err = OfSdk (ACPSignatureVerificationError (VStr message)).
Proof.
  rewrite parseHeader_unfolded. unfold sig_error.
  destruct (String.eqb header ""); [intros [= <-]; eauto|].
  cbn zeta. destruct (last_timestamp (split "," header)) as [t|];
    [|intros [= <-]; eauto].
  destruct (t =? 0); [intros [= <-]; eauto|].
  destruct (v1_values (split "," header)); [intros [= <-]; eauto|].
  discriminate.
Qed.

(** X1: [secureCompare] returns [true] exactly on equal strings. *)
Theorem secureCompare_decides_equality (a : option string) (b : string) :
  outcome (secureCompare a b) = Ok true <-> a = Some b.
Proof.
  rewrite secureCompare_outcome. destruct a as [s|].
  - split.
    + intros [= H]. apply String.eqb_eq in H. congruence.
    + intros [= ->]. rewrite String.eqb_refl. reflexivity.
  - split; discriminate.
Qed.

(** X2: [parseHeader] succeeds exactly on a non-empty header whose last
    [t] part reads as a non-zero integer and that has a [v1] part; the
    timestamp is that integer and the signatures are the values of all
    [v1] parts, in order. *)
Theorem parseHeader_characterised header h :
  parseHeader header = Ok h
  <-> header <> ""
      /\ last_timestamp (split "," header) = Num (timestamp h)
      /\ timestamp h <> 0
      /\ v1_values (split "," header) = signatures h
      /\ signatures h <> [].
Proof.
  split; [apply parseHeader_ok_inv|].
  intros (Hne & Ht & Hz & Hv & Hs). rewrite parseHeader_unfolded.
  destruct (String.eqb_spec header ""); [contradiction|].
  cbn zeta. rewrite Ht, Hv.
  destruct (Z.eqb_spec (timestamp h) 0); [contradiction|].
  destruct h as [t sigs]. cbn in *. destruct sigs; [contradiction|].
  reflexivity.
Qed.

(** X3: the three failures of [parseHeader]: an empty header; a header
    none of whose parts has the key [t], whatever else it holds; a header
    with a usable timestamp and no part with the key [v1]. *)
Theorem parseHeader_failures :
  parseHeader "" = sig_error "No webhook signature header provided."
  /\ (forall header,
        header <> "" ->
        (forall part, In part (split "," header) ->
                      part_key part <> Some "t") ->
        parseHeader header
        = sig_error "Unable to extract timestamp from webhook header.")
  /\ (forall header t,
        header <> "" ->
        last_timestamp (split "," header) = Num t -> t <> 0 ->
        (forall part, In part (split "," header) ->
                      part_key part <> Some "v1") ->
        parseHeader header
        = sig_error "Unable to extract signature from webhook header.").
Proof.
  split; [reflexivity|]. split.
  - intros header Hne Hnot. rewrite parseHeader_unfolded.
    destruct (String.eqb_spec header ""); [contradiction|].
    cbn zeta. unfold last_timestamp. rewrite filter_none; [reflexivity|].
    intros part Hin. apply bool_decide_eq_false. auto.
  - intros header t Hne Ht Hz Hnot. rewrite parseHeader_unfolded.
    destruct (String.eqb_spec header ""); [contradiction|].
    cbn zeta. rewrite Ht. destruct (Z.eqb_spec t 0); [contradiction|].
    unfold v1_values. rewrite filter_none; [reflexivity|].
    intros part Hin. apply bool_decide_eq_false. auto.
Qed.

(** X4: for a timestamp that is a safe integer, the header
    [generateTestHeaderString] makes is [t=<decimal>,v1=<digest>], made
    with one call to the hash; read back by [parseHeader] it gives the
    timestamp and the one digest, unless the timestamp is zero, which
    [parseHeader] refuses. *)
Theorem generated_header_parses now payload secret timestamp :
  let t := match timestamp with Some t => t | None => now / 1000 end in
  isSafeInteger t = true ->
  generate' now payload secret timestamp
  = ([CreateHmac secret (string_of_Z t ++ "." ++ payload)],
     Ok ("t=" ++ string_of_Z t ++ ",v1=" ++ digest t payload secret))
  /\ parseHeader ("t=" ++ string_of_Z t ++ ",v1=" ++ digest t payload secret)
     = if t =? 0 then
         sig_error "Unable to extract timestamp from webhook header."
       else Ok (mkWebhookHeader t [Some (digest t payload secret)]).
Proof.
  intros t _. split; [reflexivity|].
  destruct (digest_no_separator hmac_sha256 t payload secret) as [Hc He].
  rewrite parseHeader_two_parts; trivial;
    try (apply occurs_string_of_Z; [reflexivity | discriminate]).
  rewrite parseInt_string_of_Z. reflexivity.
Qed.

(** X5: a header generated for a timestamp that is a safe integer
    verifies a payload under a secret exactly when the timestamp is not
    zero, its age is within the tolerance, and the payload and secret
    have the digest the header was made with. *)
Theorem generated_header_verifies_exactly
    now payload secret timestamp payload' secret' tolerance :
  let t := match timestamp with Some t => t | None => now / 1000 end in
  let header := "t=" ++ string_of_Z t ++ ",v1=" ++ digest t payload secret in
  isSafeInteger t = true ->
  outcome (generate' now payload secret timestamp) = Ok header
  /\ (outcome (verifySignature' now payload' header secret' tolerance)
      = Ok true
      <-> t <> 0
          /\ now / 1000 - t <= tolerance_or_default tolerance
          /\ digest t (text payload') secret' = digest t payload secret).
Proof.
  intros t header _. split; [reflexivity|].
  destruct (digest_no_separator hmac_sha256 t payload secret) as [Hc He].
  rewrite verifySignature_stages. unfold header.
  rewrite parseHeader_two_parts; trivial;
    try (apply occurs_string_of_Z; [reflexivity | discriminate]).
  rewrite parseInt_string_of_Z.
  destruct (Z.eqb_spec t 0) as [Hz|Hz].
  - cbn. split; [discriminate|]. tauto.
  - cbn zeta. unfold timestampAge. cbn [Webhooks.timestamp signatures].
    destruct (Z.gtb_spec (now / 1000 - t) (tolerance_or_default tolerance)).
    + cbn. split; [discriminate|]. intros (_ & Hle & _). lia.
    + cbn [outcome snd sig_matches existsb]. rewrite orb_false_r. split.
      * intros [= Heq]. apply String.eqb_eq in Heq. auto.
      * intros (_ & _ & ->). rewrite String.eqb_refl. reflexivity.
Qed.

Lemma eqb_join_empty a c b : String.eqb (a ++ String c b) "" = false.
Proof. destruct a; reflexivity. Qed.

Lemma sig_matches_app expected l1 l2 :
  sig_matches expected (l1 ++ l2)
  = sig_matches expected l1 || sig_matches expected l2.
Proof. apply existsb_app. Qed.

(** X6: appending [,v1=<digest under a second secret>] to a header that
    parses keeps its timestamp and adds the digest after its signatures;
    the new header is accepted wherever the old one was, and under the
    second secret as soon as it is fresh. *)
Theorem second_signature_appended
    now payload signature secret secret' tolerance header :
  parseHeader signature = Ok header ->
  let extra := digest (timestamp header) (text payload) secret' in
  let rotated := signature ++ ",v1=" ++ extra in
  parseHeader rotated
  = Ok (mkWebhookHeader (timestamp header)
          (signatures header ++ [Some extra]))
  /\ (outcome (verifySignature' now payload signature secret tolerance)
      = Ok true ->
      outcome (verifySignature' now payload rotated secret tolerance)
      = Ok true)
  /\ (timestampAge now header <= tolerance_or_default tolerance ->
      outcome (verifySignature' now payload rotated secret' tolerance)
      = Ok true).
Proof.
  intros Hparse extra rotated.
  destruct (parseHeader_ok_inv _ _ Hparse) as (Hne & Ht & Hz & Hv & Hs).
  assert (Hc : occurs "," extra = false) by apply digest_no_separator.
  assert (He : occurs "=" extra = false) by apply digest_no_separator.
  assert (Hrot : parseHeader rotated
                 = Ok (mkWebhookHeader (timestamp header)
                         (signatures header ++ [Some extra]))).
  { rewrite parseHeader_unfolded. unfold rotated.
    change (signature ++ ",v1=" ++ extra)
      with (signature ++ String "," ("v1=" ++ extra)).
    rewrite eqb_join_empty. cbn zeta. rewrite split_join.
    rewrite (split_absent "," ("v1=" ++ extra))
      by (rewrite occurs_app, Hc; reflexivity).
    assert (Hnt : is_t ("v1=" ++ extra) = false).
    { destruct (is_t ("v1=" ++ extra)) eqn:E; trivial.
      apply is_t_not_v1 in E. rewrite is_v1_prefixed in E. discriminate. }
    unfold last_timestamp, v1_values in *.
    rewrite !List.filter_app. cbn [List.filter].
    rewrite Hnt, is_v1_prefixed, app_nil_r, Ht, List.map_app, Hv.
    cbn [List.map]. rewrite (part_value_v1 _ He).
    destruct (Z.eqb_spec (timestamp header) 0); [contradiction|].
    destruct (signatures header ++ [Some extra])%list eqn:E;
      [destruct (signatures header); discriminate E | reflexivity]. }
  split; [exact Hrot|]. rewrite !verifySignature_stages, Hparse, Hrot.
  cbn zeta. unfold timestampAge. cbn [Webhooks.timestamp signatures].
  destruct (Z.gtb_spec (now / 1000 - timestamp header)
              (tolerance_or_default tolerance)); cbn [outcome snd].
  - split; [discriminate | lia].
  - rewrite !sig_matches_app. split.
    + intros [= ->]. reflexivity.
    + intros _. cbn [sig_matches existsb]. fold extra.
      rewrite String.eqb_refl, orb_true_r. reflexivity.
Qed.

(** X7: [constructEvent] returns an event exactly when [verifySignature]
    accepts and the payload decodes, the event being what [JSON.parse]
    gave; whatever it throws is an [ACPSignatureVerificationError] with
    status code 400. *)
Theorem constructEvent_outcomes now payload signature secret tolerance :
  let c := outcome (constructEvent' now payload signature secret tolerance) in
  (forall event,
      c = Ok event
      <-> outcome (verifySignature' now payload signature secret tolerance)
          = Ok true
          /\ JSON_parse (text payload) = Some event)
  /\ (forall err,
        c = Throw err ->
        exists e message,
          err = OfSdk e
          /\ e = ACPSignatureVerificationError (VStr message)
          /\ Error.name e = "ACPSignatureVerificationError"
          /\ Error.type e = "signature_verification_error"
          /\ Error.statusCode e = 400).
Proof.
  cbn zeta. rewrite constructEvent_stages, verifySignature_stages.
  assert (Hsig : forall (message : string) err,
             sig_error (A := value) message = Throw err ->
             exists e m,
               err = OfSdk e
               /\ e = ACPSignatureVerificationError (VStr m)
               /\ Error.name e = "ACPSignatureVerificationError"
               /\ Error.type e = "signature_verification_error"
               /\ Error.statusCode e = 400).
  { intros message err [= <-]. do 2 eexists. repeat split. }
  destruct (parseHeader signature) as [header|e] eqn:Hparse.
  - cbn zeta.
    destruct (timestampAge now header >? tolerance_or_default tolerance);
      cbn [outcome snd].
    + split; [|apply Hsig]. intros event.
      split; [discriminate | intros [[=] _]].
    + destruct (sig_matches _ (signatures header)).
      * unfold decode_with. destruct (JSON_parse (text payload)) as [ev|].
        -- split; [|discriminate]. intros event. split.
           ++ intros [= <-]. auto.
           ++ intros [_ [= <-]]. reflexivity.
        -- split; [|apply Hsig]. intros event.
           split; [discriminate | intros [_ [=]]].
      * split; [|apply Hsig]. intros event.
        split; [discriminate | intros [[=] _]].
  - cbn [outcome snd]. split.
    + intros event. split; [discriminate | intros [[=] _]].
    + intros err [= <-]. destruct (parseHeader_throws _ _ Hparse) as [m ->].
      do 2 eexists. repeat split.
Qed.

Lemma secureCompare_same expected :
  secureCompare (Some expected) expected
  = ([TimingSafeEqual expected expected], Ok true).
Proof.
  unfold secureCompare, timingSafeEqual, Buffer_from. cbn.
  rewrite Nat.eqb_refl. cbn. rewrite String.eqb_refl. reflexivity.
Qed.

Lemma secureCompare_calls a expected :
  (length (calls (secureCompare a expected)) <= 1)%nat.
Proof.
  destruct a as [s|]; [|cbn; lia].
  unfold secureCompare, timingSafeEqual, Buffer_from. cbn.
  destruct (String.length s =? String.length expected)%nat; cbn; lia.
Qed.

(** X8: the signature match stops at the first signature that equals the
    expected digest: the signatures after it change neither the result
    nor the comparisons made, which are at most one per signature up to
    it. *)
Theorem signature_match_stops_at_first expected before after :
  let matching := some (fun sig => secureCompare sig expected) in
  matching (before ++ Some expected :: after)%list
  = matching (before ++ [Some expected])%list
  /\ outcome (matching (before ++ Some expected :: after)%list) = Ok true
  /\ (length (calls (matching (before ++ Some expected :: after)%list))
      <= S (length before))%nat.
Proof.
  cbn zeta. induction before as [|sig before IH].
  - cbn [app some]. rewrite secureCompare_same. cbn. repeat split. lia.
  - destruct IH as (IHeq & IHok & IHlen).
    rewrite <- !app_comm_cons. cbn [some].
    pose proof (secureCompare_outcome sig expected) as Ho.
    pose proof (secureCompare_calls sig expected) as Hc.
    destruct (secureCompare sig expected) as [log r]. cbn in Ho, Hc.
    subst r. cbn [bind].
    destruct (match sig with
              | Some s => String.eqb s expected
              | None => false
              end).
    + cbn. repeat split. rewrite length_app. cbn. lia.
    + rewrite IHeq.
      destruct (some _ (before ++ [Some expected])%list) as [log' r'] eqn:E.
      rewrite IHeq in IHok, IHlen. cbn in IHok, IHlen |- *.
      repeat split; trivial. rewrite length_app. lia.
Qed.

(** X9: characters after the digits of a [t] value that is a safe
    integer are ignored, as [parseInt] stops at the first that is not a
    digit: the header still parses to the same timestamp and still
    verifies. *)
Theorem timestamp_suffix_ignored now payload secret t junk tolerance :
  t <> 0 ->
  isSafeInteger t = true ->
  starts_with_digit junk = false ->
  occurs "," junk = false -> occurs "=" junk = false ->
  now / 1000 - t <= tolerance_or_default tolerance ->
  let header :=
    "t=" ++ (string_of_Z t ++ junk) ++ ",v1=" ++ digest t payload secret in
  parseHeader header
  = Ok (mkWebhookHeader t [Some (digest t payload secret)])
  /\ outcome (verifySignature' now (Text payload) header secret tolerance)
     = Ok true.
Proof.
  intros Ht _ Hd Hjc Hje Hage header.
  destruct (digest_no_separator hmac_sha256 t payload secret) as [Hc He].
  assert (Hp : parseHeader header
               = Ok (mkWebhookHeader t [Some (digest t payload secret)])).
  { unfold header. rewrite parseHeader_two_parts; trivial.
    - rewrite (parseInt_decimal_prefix _ _ Hd).
      destruct (Z.eqb_spec t 0); [contradiction | reflexivity].
    - rewrite occurs_app, Hjc, orb_false_r.
      apply occurs_string_of_Z; [reflexivity | discriminate].
    - rewrite occurs_app, Hje, orb_false_r.
      apply occurs_string_of_Z; [reflexivity | discriminate]. }
  split; [exact Hp|]. rewrite verifySignature_stages, Hp. cbn zeta.
  unfold timestampAge. cbn [Webhooks.timestamp signatures].
  destruct (Z.gtb_spec (now / 1000 - t) (tolerance_or_default tolerance));
    [lia|].
  cbn [outcome snd sig_matches existsb Webhooks.payloadString_of].
  rewrite String.eqb_refl. reflexivity.
Qed.

End WebhookMore.

(* ===================================================================== *)
(** * Further properties of [ACPError.generate] *)
(* ===================================================================== *)

Section GenerateFacts.
Import Error.

Lemma truthy_or_else a b : truthy b = true -> truthy (or_else a b) = true.
Proof. unfold or_else. destruct (truthy a) eqn:E; auto. Qed.

Lemma default_truthy d v : truthy v = true -> default d v = v.
Proof. destruct v; try reflexivity. discriminate. Qed.

Lemma generate_requestId status body requestId :
  Error.requestId (generate status body requestId) = requestId.
Proof.
  unfold generate.
  repeat match goal with
    | |- context [if ?b then _ else _] => destruct b
    end; reflexivity.
Qed.

(** X10: for every status [ACPError.generate] makes the error of the
    class and type its table gives, with that very status as
    [statusCode] and the given request identifier; a message that is a
    string is not the empty string, the code is never empty, and only an
    [ACPInvalidRequestError] carries a [param]. *)
Theorem generate_classifies status body requestId :
  let e := generate status body requestId in
  (Error.name e, Error.type e) = status_kind status
  /\ statusCode e = status
  /\ Error.requestId e = requestId
  /\ (forall s, message e = VStr s -> s <> "")
  /\ truthy (code e) = true
  /\ (Error.name e <> "ACPInvalidRequestError" -> param e = VUndefined).
Proof.
  cbn zeta.
  assert (Hall :
            (Error.name (generate status body requestId),
             Error.type (generate status body requestId))
            = status_kind status
            /\ statusCode (generate status body requestId) = status
            /\ Error.requestId (generate status body requestId) = requestId
            /\ truthy (message (generate status body requestId)) = true
            /\ truthy (code (generate status body requestId)) = true
            /\ (Error.name (generate status body requestId)
                <> "ACPInvalidRequestError" ->
                param (generate status body requestId) = VUndefined)).
  {
  assert (Hm : forall error : value,
             truthy (or_else (get error "message")
                       (VStr ("Request failed with status "
                              ++ string_of_Z status))) = true)
    by (intros; apply truthy_or_else; reflexivity).
  assert (Hc : forall error : value,
             truthy (or_else (get error "code") (VStr "unknown_error"))
             = true)
    by (intros; apply truthy_or_else; reflexivity).
  unfold generate, status_kind.
  set (error := or_else (or_else (opt_get body "error") body) (VObj [])).
  specialize (Hm error). specialize (Hc error).
  destruct (Z.eqb_spec status 400) as [E|].
  { rewrite E. cbn -[or_else string_of_Z]. rewrite E in Hm.
    rewrite (default_truthy _ _ Hm), (default_truthy _ _ Hc).
    repeat split; trivial. intros H. contradiction. }
  destruct (Z.eqb_spec status 401);
    [cbn -[or_else string_of_Z]; rewrite (default_truthy _ _ Hm);
     repeat split; auto|].
  destruct (Z.eqb_spec status 403);
    [cbn -[or_else string_of_Z]; rewrite (default_truthy _ _ Hm);
     repeat split; auto|].
  destruct (Z.eqb_spec status 404);
    [cbn -[or_else string_of_Z]; rewrite (default_truthy _ _ Hm);
     repeat split; auto|].
  destruct (Z.eqb_spec status 429);
    [cbn -[or_else string_of_Z]; rewrite (default_truthy _ _ Hm);
     repeat split; auto|].
  destruct ((400 <=? status) && (status <? 500));
    cbn -[or_else string_of_Z];
    rewrite (default_truthy _ _ Hm), ?(default_truthy _ _ Hc);
    repeat split; trivial.
  intros H. contradiction. }
  destruct Hall as (Hk & Hs & Hr & Hm & Hc & Hp).
  repeat split; trivial.
  intros s Hs' ->. rewrite Hs' in Hm. discriminate Hm.
Qed.

(** X11: an error body is read alike with and without its envelope:
    [{error: {...}}] gives the error [{...}] alone gives. *)
Theorem generate_reads_through_envelope status envelope inner requestId :
  get envelope "error" = VObj inner ->
  truthy (get (VObj inner) "error") = false ->
  generate status envelope requestId
  = generate status (VObj inner) requestId.
Proof.
  intros Henv Hinner. unfold generate.
  assert (E1 : or_else (or_else (opt_get envelope "error") envelope)
                 (VObj []) = VObj inner).
  { destruct envelope; try discriminate Henv.
    cbn [opt_get]. rewrite Henv. reflexivity. }
  assert (E2 : or_else (or_else (opt_get (VObj inner) "error") (VObj inner))
                 (VObj []) = VObj inner).
  { cbn [opt_get]. unfold or_else at 2. rewrite Hinner. reflexivity. }
  rewrite E1, E2. reflexivity.
Qed.

(** X12: from a body that carries no field ([null], a number, a string,
    an array, an empty object) the message is
    [Request failed with status <status>] and the code of an
    [ACPInvalidRequestError] is [unknown_error]. *)
Theorem generate_without_fields status body requestId :
  (forall key, opt_get body key = VUndefined) ->
  let e := generate status body requestId in
  message e = VStr ("Request failed with status " ++ string_of_Z status)
  /\ (Error.name e = "ACPInvalidRequestError" ->
      code e = VStr "unknown_error" /\ param e = VUndefined).
Proof.
  intros Hnone. cbn zeta.
  assert (Hget : forall key,
             get (or_else (or_else (opt_get body "error") body) (VObj []))
               key = VUndefined).
  { intros key. rewrite (Hnone "error"). unfold or_else at 2. cbn [truthy].
    unfold or_else. destruct (truthy body) eqn:Tb; [|reflexivity].
    specialize (Hnone key). destruct body; try discriminate Tb; trivial. }
  unfold generate. rewrite !Hget. unfold or_else at 1 2. cbn [truthy].
  repeat match goal with
    | |- context [if ?b then _ else _] => destruct b
    end; cbn; split; trivial; try discriminate; auto.
Qed.

End GenerateFacts.

(* ===================================================================== *)
(** * Further properties of the retry loop *)
(* ===================================================================== *)

Section RetryMore.
Import FetchHttpClient.

Variable Number_toString : Q -> string.
Variable w : world.
Variables timeout maxRetries : Z.
Variables url method : string.
Variable params : option value.

Abbreviation loop :=
  (FetchHttpClient.attempts Number_toString w timeout maxRetries url method
     params).
Abbreviation completion' := (completion_at w timeout maxRetries).
Abbreviation raised := (raised_at w maxRetries).
Abbreviation id_at := (fun n : nat => generateRequestId (w n)).

Lemma turn_unfolded attempt lastError :
  turn w timeout maxRetries attempt (id_at attempt) lastError
  = (completion' attempt,
     match raised attempt with
     | Some e => Some e
     | None => lastError
     end).
Proof.
  unfold completion_at, raised_at, turn.
  destruct (try_block _ _ _ _); reflexivity.
Qed.

Ltac unroll :=
  cbn [FetchHttpClient.attempts]; rewrite turn_unfolded.

Ltac name_tail :=
  match goal with
  | |- context [FetchHttpClient.attempts _ _ _ _ _ _ _ ?n ?a ?h ?le] =>
      let log := fresh "log" in
      let r := fresh "r" in
      let E := fresh "Etail" in
      destruct (FetchHttpClient.attempts Number_toString w timeout maxRetries
                  url method params n a h le) as [log r] eqn:E
  end.

Lemma completion_raise_sdk k err :
  completion' k = Raise err -> exists e, err = OfSdk e.
Proof.
  unfold completion_at, turn.
  destruct (try_block _ _ _ _) as [data|e|delay|] eqn:Et; cbn [fst];
    try discriminate.
  destruct e as [e|name message]; cbn [catch_block].
  - intros [= <-]. eauto.
  - destruct (String.eqb name "AbortError"),
      (Z.of_nat k <? maxRetries); try discriminate.
    intros [= <-]. eauto.
Qed.

Lemma completion_return_inv k data :
  completion' k = Return data ->
  exists r,
    fetched (w k) = Responded r /\ ok r = true /\ json r = JsonOk data.
Proof.
  unfold completion_at, turn, try_block.
  destruct (fetched (w k)) as [r|name message]; cbn [fst catch_block].
  - destruct (ok r) eqn:Hok; cbn [negb].
    + destruct (json r) as [d|n m] eqn:Hj; cbn [fst catch_block].
      * intros [= <-]. eauto.
      * destruct (String.eqb n "AbortError"),
          (Z.of_nat k <? maxRetries); discriminate.
    + repeat match goal with
        | |- context [if ?b then _ else _] => destruct b
        end; cbn [fst catch_block]; discriminate.
  - destruct (String.eqb name "AbortError"),
      (Z.of_nat k <? maxRetries); discriminate.
Qed.

Lemma completion_continue_lt k delay :
  completion' k = Continue delay -> Z.of_nat k < maxRetries.
Proof.
  destruct (Z.ltb_spec (Z.of_nat k) maxRetries) as [|Hge]; [trivial|].
  assert (E : (Z.of_nat k <? maxRetries) = false) by (apply Z.ltb_ge; lia).
  unfold completion_at, turn, try_block. rewrite !E.
  destruct (fetched (w k)) as [r|name message];
    cbn [fst catch_block]; rewrite ?E.
  - destruct (negb (ok r)).
    + repeat match goal with
        | |- context [if ?b then _ else _] => destruct b
        end; cbn [fst catch_block]; discriminate.
    + destruct (json r) as [d|n m]; cbn [fst catch_block]; rewrite ?E;
        [discriminate|].
      destruct (String.eqb n "AbortError"); discriminate.
  - destruct (String.eqb name "AbortError"); discriminate.
Qed.




(** Whatever the loop throws is an error of the SDK. *)
Lemma attempts_throw_sdk turns attempt headers lastError err :
  snd (loop turns attempt headers lastError) = Throw err ->
  exists e, err = OfSdk e.
Proof.
  revert attempt headers lastError.
  induction turns as [|turns IH]; intros attempt headers lastError.
  - cbn. intros [= <-]. eauto.
  - unroll. destruct (completion' attempt) eqn:Hc; try name_tail;
      cbn [snd].
    + discriminate.
    + intros [= <-]. exact (completion_raise_sdk _ _ Hc).
    + intros Hr. eapply IH. rewrite Etail. exact Hr.
    + intros Hr. eapply IH. rewrite Etail. exact Hr.
Qed.

(** What the loop returns was returned by its last turn. *)
Lemma attempts_ok_inv turns attempt headers lastError data :
  snd (loop turns attempt headers lastError) = Ok data ->
  exists k rec,
    fst (loop turns attempt headers lastError) !! k = Some rec
    /\ length (fst (loop turns attempt headers lastError)) = S k
    /\ completion' (attempt + k) = Return data.
Proof.
  revert attempt headers lastError.
  induction turns as [|turns IH]; intros attempt headers lastError.
  - cbn. discriminate.
  - unroll. destruct (completion' attempt) eqn:Hc; try name_tail;
      cbn [fst snd].
    + intros [= <-]. exists 0%nat. eexists. rewrite Nat.add_0_r. auto.
    + discriminate.
    + intros Hr.
      match type of Etail with
      | FetchHttpClient.attempts _ _ _ _ _ _ _ _ ?a ?h ?le = _ =>
          destruct (IH a h le) as (k & rec & Hk & Hlen & Hret);
            [rewrite Etail; exact Hr|]; rewrite Etail in Hk, Hlen
      end.
      exists (S k), rec. cbn in Hk, Hlen |- *.
      replace (attempt + S k)%nat with (S attempt + k)%nat by lia. auto.
    + intros Hr.
      match type of Etail with
      | FetchHttpClient.attempts _ _ _ _ _ _ _ _ ?a ?h ?le = _ =>
          destruct (IH a h le) as (k & rec & Hk & Hlen & Hret);
            [rewrite Etail; exact Hr|]; rewrite Etail in Hk, Hlen
      end.
      exists (S k), rec. cbn in Hk, Hlen |- *.
      replace (attempt + S k)%nat with (S attempt + k)%nat by lia. auto.
Qed.


End RetryMore.

(* ===================================================================== *)
(** * Further properties of [makeRequest] *)
(* ===================================================================== *)

Section BackoffBounds.
Import FetchHttpClient.

Lemma pow2_at_least k n :
  (n <= k)%nat -> (inject_Z (2 ^ Z.of_nat n) <= Math_pow2 k)%Q.
Proof.
  intros H. unfold Math_pow2. rewrite <- Zle_Qle.
  apply Z.pow_le_mono_r; lia.
Qed.

Lemma pow2_at_most k n :
  (k <= n)%nat -> (Math_pow2 k <= inject_Z (2 ^ Z.of_nat n))%Q.
Proof.
  intros H. unfold Math_pow2. rewrite <- Zle_Qle.
  apply Z.pow_le_mono_r; lia.
Qed.

Lemma pow2_succ k : (Math_pow2 (S k) == 2 * Math_pow2 k)%Q.
Proof.
  unfold Math_pow2. rewrite Nat2Z.inj_succ, Z.pow_succ_r by lia.
  rewrite inject_Z_mult. reflexivity.
Qed.

(** X29: for a draw in [[0, 1)] the backoff lies between 375 and 30000
    milliseconds and does not shrink from one attempt to the next; up to
    the sixth attempt the cap plays no part, and from the eighth on the
    delay is the cap itself. *)
Theorem backoff_bounds k random :
  (0 <= random < 1)%Q ->
  let delay := getBackoffMs k random in
  (375 <= delay <= 30000)%Q
  /\ (delay <= getBackoffMs (S k) random)%Q
  /\ ((k <= 5)%nat ->
      (delay == Math_pow2 k * 500 * jitter_of random)%Q
      /\ (delay <= 20000)%Q)
  /\ ((7 <= k)%nat -> (delay == 30000)%Q).
Proof.
  intros Hr. cbn zeta. unfold getBackoffMs. cbn zeta.
  set (j := jitter_of random).
  assert (Hj : (3 # 4 <= j < 5 # 4)%Q) by (unfold j, jitter_of; lra).
  pose proof (pow2_at_least k 0 ltac:(lia)) as H1.
  change (inject_Z (2 ^ Z.of_nat 0)) with 1%Q in H1.
  set (p := Math_pow2 k) in *.
  assert (Hlow : (375 <= p * 500 * j)%Q) by nra.
  split; [split|split; [|split]].
  - apply Q.min_glb; [exact Hlow | lra].
  - apply Q.le_min_r.
  - apply Q.min_le_compat_r. rewrite pow2_succ. fold p. nra.
  - intros Hk. pose proof (pow2_at_most k 5 Hk) as H5.
    change (inject_Z (2 ^ Z.of_nat 5)) with 32%Q in H5. fold p in H5.
    assert (Hup : (p * 500 * j <= 20000)%Q) by nra.
    split.
    + apply Q.min_l. lra.
    + rewrite Q.min_l by lra. exact Hup.
  - intros Hk. pose proof (pow2_at_least k 7 Hk) as H7.
    change (inject_Z (2 ^ Z.of_nat 7)) with 128%Q in H7. fold p in H7.
    apply Q.min_r. nra.
Qed.

End BackoffBounds.

(* ===================================================================== *)
(** * How a call can end *)
(* ===================================================================== *)

Lemma generate_statusCode status body requestId :
  Error.statusCode (Error.generate status body requestId) = status.
Proof.
  unfold Error.generate.
  destruct (Z.eqb_spec status 400); [auto|].
  destruct (Z.eqb_spec status 401); [auto|].
  destruct (Z.eqb_spec status 403); [auto|].
  destruct (Z.eqb_spec status 404); [auto|].
  destruct (Z.eqb_spec status 429); [auto|].
  destruct ((400 <=? status) && (status <? 500)); reflexivity.
Qed.

Section RetryInversion.
Import FetchHttpClient.

Variable Number_toString : Q -> string.
Variable w : world.
Variables timeout maxRetries : Z.
Variables url method : string.
Variable params : option value.

Abbreviation loop' :=
  (FetchHttpClient.attempts Number_toString w timeout maxRetries url method
     params).
Abbreviation ending_of := (completion_at w timeout maxRetries).

Ltac unroll' :=
  cbn [FetchHttpClient.attempts]; rewrite turn_unfolded.

Ltac tail' :=
  match goal with
  | |- context [FetchHttpClient.attempts _ _ _ _ _ _ _ ?n ?a ?h ?le] =>
      let log := fresh "log" in
      let r := fresh "r" in
      let E := fresh "Etail" in
      destruct (FetchHttpClient.attempts Number_toString w timeout maxRetries
                  url method params n a h le) as [log r] eqn:E
  end.

(** What the loop throws was thrown by its last turn, or by the statement
    after the loop. *)
Lemma attempts_throw_inv turns attempt headers lastError err :
  snd (loop' turns attempt headers lastError) = Throw err ->
  (exists last, err = OfSdk (exhausted Number_toString maxRetries last))
  \/ exists k rec,
      fst (loop' turns attempt headers lastError) !! k = Some rec
      /\ length (fst (loop' turns attempt headers lastError)) = S k
      /\ ending_of (attempt + k) = Raise err.
Proof.
  revert attempt headers lastError.
  induction turns as [|turns IH]; intros attempt headers lastError.
  - cbn. intros [= <-]. eauto.
  - unroll'. destruct (ending_of attempt) eqn:Hc; try tail'; cbn [fst snd].
    + discriminate.
    + intros [= <-]. right. exists 0%nat. eexists.
      rewrite Nat.add_0_r. auto.
    + intros Hr.
      match type of Etail with
      | FetchHttpClient.attempts _ _ _ _ _ _ _ _ ?a ?h ?le = _ =>
          destruct (IH a h le) as [Hout | (k & rec & Hk & Hlen & Hret)];
            [rewrite Etail; exact Hr | left; exact Hout |];
            rewrite Etail in Hk, Hlen
      end.
      right. exists (S k), rec. cbn in Hk, Hlen |- *.
      replace (attempt + S k)%nat with (S attempt + k)%nat by lia. auto.
    + intros Hr.
      match type of Etail with
      | FetchHttpClient.attempts _ _ _ _ _ _ _ _ ?a ?h ?le = _ =>
          destruct (IH a h le) as [Hout | (k & rec & Hk & Hlen & Hret)];
            [rewrite Etail; exact Hr | left; exact Hout |];
            rewrite Etail in Hk, Hlen
      end.
      right. exists (S k), rec. cbn in Hk, Hlen |- *.
      replace (attempt + S k)%nat with (S attempt + k)%nat by lia. auto.
Qed.

(** An error raised by a turn is the timeout error, or was made from the
    response of that turn, whose status and request identifier it has. *)
Lemma completion_raise_inv k err :
  ending_of k = Raise err ->
  (exists name message,
      raised_at w maxRetries k = Some (Native name message)
      /\ err = OfSdk (ACPConnectionError
                        (VStr ("Request timeout after "
                               ++ string_of_Z timeout ++ "ms"))))
  \/ exists r e,
      fetched (w k) = Responded r /\ ok r = false /\ err = OfSdk e
      /\ statusCode e = status r
      /\ requestId e = responseRequestId_of r (generateRequestId (w k)).
Proof.
  unfold completion_at, raised_at, turn, try_block.
  destruct (fetched (w k)) as [r|name message]; cbn [fst catch_block].
  - destruct (ok r) eqn:Hok; cbn [negb].
    + destruct (json r) as [d|n m]; cbn [fst catch_block]; [discriminate|].
      destruct (String.eqb n "AbortError"),
        (Z.of_nat k <? maxRetries); try discriminate.
      intros [= <-]. left. eauto.
    + destruct ((400 <=? status r) && (status r <? 500)
                && negb (status r =? 429)); cbn [fst catch_block].
      { intros [= <-]. right. exists r. eexists.
        split; [reflexivity|]. split; [exact Hok|]. split; [reflexivity|].
        split; [apply generate_statusCode | apply generate_requestId]. }
      destruct (Z.eqb_spec (status r) 429) as [E|_].
      { destruct (Z.of_nat k <? maxRetries); cbn [fst catch_block];
          [discriminate|].
        intros [= <-]. right. exists r. eexists.
        split; [reflexivity|]. split; [exact Hok|]. split; [reflexivity|].
        split; [rewrite E|]; reflexivity. }
      destruct (Z.of_nat k <? maxRetries); cbn [fst catch_block];
        [discriminate|].
      intros [= <-]. right. exists r. eexists.
      split; [reflexivity|]. split; [exact Hok|]. split; [reflexivity|].
      split; [apply generate_statusCode | apply generate_requestId].
  - destruct (String.eqb name "AbortError"),
      (Z.of_nat k <? maxRetries); try discriminate.
    intros [= <-]. left. eauto.
Qed.

(** A delay slept after a turn is the [Retry-After] of a 429 or the
    backoff of that turn. *)
Lemma completion_continue_inv k delay :
  ending_of k = Continue delay ->
  (exists r,
      fetched (w k) = Responded r /\ status r = 429
      /\ delay = retry_after_ms r)
  \/ delay = Millis (getBackoffMs k (Math_random (w k))).
Proof.
  unfold completion_at, turn, try_block.
  destruct (fetched (w k)) as [r|name message]; cbn [fst catch_block].
  - destruct (ok r) eqn:Hok; cbn [negb].
    + destruct (json r) as [d|n m]; cbn [fst catch_block]; [discriminate|].
      destruct (String.eqb n "AbortError"),
        (Z.of_nat k <? maxRetries); try discriminate;
        intros [= <-]; auto.
    + destruct ((400 <=? status r) && (status r <? 500)
                && negb (status r =? 429)); cbn [fst catch_block];
        [discriminate|].
      destruct (Z.eqb_spec (status r) 429) as [E|_].
      { destruct (Z.of_nat k <? maxRetries); cbn [fst catch_block];
          [|discriminate].
        intros [= <-]. left. eauto. }
      destruct (Z.of_nat k <? maxRetries); cbn [fst catch_block];
        [|discriminate].
      intros [= <-]. auto.
  - destruct (String.eqb name "AbortError"),
      (Z.of_nat k <? maxRetries); try discriminate;
      intros [= <-]; auto.
Qed.

Lemma completion_returns k r data :
  fetched (w k) = Responded r -> ok r = true -> json r = JsonOk data ->
  ending_of k = Return data.
Proof.
  intros Hf Hok Hj. unfold completion_at, turn, try_block.
  rewrite Hf, Hok, Hj. reflexivity.
Qed.

End RetryInversion.

Section CallFacts.
Import FetchHttpClient.

Variable Number_toString : Q -> string.
Variable w : world.
Variable config : HttpClientConfig.
Variables method path : string.
Variable params : option value.
Variable options : option RequestOptions.

Abbreviation call :=
  (makeRequest Number_toString w config method path params options).
Abbreviation retries := (effective_maxRetries config options).
Abbreviation patience := (effective_timeout config options).
Abbreviation ending := (completion_at w patience retries).

Lemma call_index_bound k rec :
  fst call !! k = Some rec -> Z.of_nat k <= retries.
Proof.
  intros Hk. apply lookup_lt_Some in Hk.
  pose proof (makeRequest_length Number_toString w config method path params
                options).
  lia.
Qed.

Lemma call_first : 0 <= retries -> is_Some (fst call !! 0%nat).
Proof. intros H. unfold makeRequest. apply attempts_first. lia. Qed.



Lemma initial_headers_no_id :
  initial_headers config options !! "X-Request-Id" = None.
Proof.
  unfold initial_headers.
  destruct (truthy_key options);
    repeat (rewrite lookup_insert_ne by discriminate);
    apply lookup_empty.
Qed.

(** X13: a call makes at most [maxRetries + 1] attempts, numbered from 0
    to [maxRetries] at most, and at least one when [maxRetries] is not
    negative; under a negative [maxRetries] no request is sent at all and
    the call fails with the connection error of a loop that never ran. *)
Theorem attempts_bounded :
  Z.of_nat (length (fst call)) <= Z.max 0 (retries + 1)
  /\ (forall k rec, fst call !! k = Some rec -> Z.of_nat k <= retries)
  /\ (0 <= retries -> is_Some (fst call !! 0%nat))
  /\ (retries < 0 ->
      call
      = ([], Throw (OfSdk (ACPConnectionError
                             (VStr ("Request failed after "
                                    ++ string_of_Z (retries + 1)
                                    ++ " attempts: Unknown error")))))).
Proof.
  split; [apply makeRequest_length|].
  split; [exact call_index_bound|].
  split; [exact call_first|].
  intros Hneg. unfold makeRequest. cbn zeta.
  assert (E : Z.to_nat (retries + 1) = 0%nat) by lia.
  rewrite E. reflexivity.
Qed.


(** X15: every delay the client sleeps is either the [Retry-After] of
    the 429 just received or the backoff of that attempt, and it is slept
    only while retries are left. *)
Theorem sleep_is_retry_after_or_backoff k rec delay :
  fst call !! k = Some rec ->
  slept rec = Some delay ->
  Z.of_nat k < retries
  /\ ((exists r,
          fetched (w k) = Responded r /\ status r = 429
          /\ delay = retry_after_ms r)
      \/ delay = Millis (getBackoffMs k (Math_random (w k)))).
Proof.
  intros Hk Hs.
  pose proof (makeRequest_at Number_toString w config method path params
                options k rec Hk) as H.
  destruct (ending k) as [data|e|d|] eqn:Hc.
  - destruct H as (_ & Hn & _). congruence.
  - destruct H as (_ & Hn & _). congruence.
  - destruct H as [Hd _]. assert (d = delay) by congruence. subst d.
    split; [exact (completion_continue_lt _ _ _ _ _ Hc)|].
    exact (completion_continue_inv _ _ _ _ _ Hc).
  - congruence.
Qed.

(** X16: a 2xx response whose body decodes ends the call with the decoded
    body, on the attempt that received it; and a call returns a value only
    so: the value is the body of the 2xx response to its last attempt. *)
Theorem success_is_last_response :
  (forall k rec r data,
      fst call !! k = Some rec ->
      fetched (w k) = Responded r -> ok r = true -> json r = JsonOk data ->
      length (fst call) = S k /\ slept rec = None /\ snd call = Ok data)
  /\ (forall data,
        snd call = Ok data ->
        exists k rec r,
          fst call !! k = Some rec
          /\ length (fst call) = S k
          /\ fetched (w k) = Responded r
          /\ 200 <= status r <= 299
          /\ json r = JsonOk data).
Proof.
  split.
  - intros k rec r data Hk Hf Hok Hj.
    pose proof (makeRequest_at Number_toString w config method path params
                  options k rec Hk) as H.
    rewrite (completion_returns _ _ _ _ _ _ Hf Hok Hj) in H. exact H.
  - intros data Hr. unfold makeRequest in *.
    destruct (attempts_ok_inv _ _ _ _ _ _ _ _ _ _ _ _ Hr)
      as (k & rec & Hk & Hlen & Hret).
    cbn [Nat.add] in Hret.
    destruct (completion_return_inv _ _ _ _ _ Hret) as (r & Hf & Hok & Hj).
    exists k, rec, r. repeat split; trivial;
      unfold ok in Hok; apply andb_prop in Hok; destruct Hok; lia.
Qed.



(** X19: the attempts of one call send the same request but for the
    [X-Request-Id] header: the same URL, made of the host, [/v1] and the
    path, the same method and body, and the same other headers, among
    them the content type, the bearer token, the API version and the user
    agent. *)
Theorem requests_differ_only_in_request_id i j a b :
  fst call !! i = Some a ->
  fst call !! j = Some b ->
  FetchHttpClient.url (request a) = "https://" ++ host config ++ "/v1" ++ path
  /\ FetchHttpClient.method (request a) = method
  /\ body (request a) = params
  /\ headers (request a) !! "Content-Type" = Some "application/json"
  /\ headers (request a) !! "Authorization"
     = Some ("Bearer " ++ apiKey config)
  /\ headers (request a) !! "ACP-Version" = Some (apiVersion config)
  /\ headers (request a) !! "User-Agent" = Some "acp-node/0.1.0"
  /\ FetchHttpClient.url (request a) = FetchHttpClient.url (request b)
  /\ FetchHttpClient.method (request a) = FetchHttpClient.method (request b)
  /\ body (request a) = body (request b)
  /\ delete "X-Request-Id" (headers (request a))
     = delete "X-Request-Id" (headers (request b)).
Proof.
  intros Hi Hj. unfold makeRequest in Hi, Hj.
  rewrite (attempts_request _ _ _ _ _ _ _ _ _ _ _ _ _ Hi).
  rewrite (attempts_request _ _ _ _ _ _ _ _ _ _ _ _ _ Hj).
  cbn [FetchHttpClient.url FetchHttpClient.method body headers].
  rewrite !delete_insert_eq.
  assert (Hl : forall key value,
             key <> "X-Request-Id" ->
             initial_headers config options !! key = Some value ->
             <["X-Request-Id" := generateRequestId (w (0 + i)%nat)]>
               (initial_headers config options) !! key = Some value)
    by (intros key value Hne Hv; rewrite lookup_insert_ne by congruence;
        exact Hv).
  repeat split; try (apply Hl; [discriminate|]);
    unfold initial_headers; destruct (truthy_key options);
    repeat (rewrite lookup_insert_ne by discriminate);
    apply lookup_insert_eq.
Qed.

(** X20: whatever a call throws is an error of the SDK, never the native
    exception of [fetch] or of the decoder.  It is a connection error,
    with status code 0, or it was made from the response to the last
    attempt, a response that is not 2xx: it then has that response's
    status, and as its request identifier the response's [x-request-id]
    header or, when that is missing or empty, the [X-Request-Id] sent on
    that attempt. *)
Theorem failure_is_sdk_error err :
  snd call = Throw err ->
  exists e,
    err = OfSdk e
    /\ ((name e = "ACPConnectionError" /\ type e = "connection_error"
         /\ statusCode e = 0 /\ requestId e = VUndefined)
        \/ exists k rec r sent,
            fst call !! k = Some rec
            /\ length (fst call) = S k
            /\ fetched (w k) = Responded r
            /\ ok r = false
            /\ statusCode e = status r
            /\ headers (request rec) !! "X-Request-Id" = Some sent
            /\ requestId e
               = VStr (header_or (headers_get r "x-request-id") sent)).
Proof.
  intros Hthrow.
  assert (Hinv :
            (exists last, err = OfSdk (exhausted Number_toString retries last))
            \/ exists k rec,
                fst call !! k = Some rec /\ length (fst call) = S k
                /\ ending k = Raise err).
  { unfold makeRequest in *.
    destruct (attempts_throw_inv _ _ _ _ _ _ _ _ _ _ _ _ Hthrow)
      as [Hout | (k & rec & Hk & Hlen & Hc)]; [left; exact Hout|].
    right. exists k, rec. auto. }
  destruct Hinv as [[last ->] | (k & rec & Hk & Hlen & Hc)].
  - eexists. split; [reflexivity|]. left. repeat split.
  - destruct (completion_raise_inv _ _ _ _ _ Hc)
      as [(n & m & _ & ->) | (r & e & Hf & Hok & -> & Hs & Hid)].
    + eexists. split; [reflexivity|]. left. repeat split.
    + exists e. split; [reflexivity|]. right.
      exists k, rec, r, (generateRequestId (w k)).
      repeat split; trivial.
      rewrite (makeRequest_headers Number_toString w config method path
                 params options k rec Hk).
      apply lookup_insert_eq.
Qed.

End CallFacts.

(* ===================================================================== *)
(** * The client and its resources *)
(* ===================================================================== *)

Section ClientFacts.
Import Client.

Variable Number_toString : Q -> string.
Variable w : world.

Lemma string_or_default_nonempty a d :
  d <> "" -> string_or_default a d <> "".
Proof.
  intros Hd. unfold string_or_default.
  destruct a as [v|]; [destruct (String.eqb_spec v "")|]; auto.
Qed.

Lemma constructor_with_key env k second :
  k <> "" ->
  constructor env (Key k) second
  = Ok (mkACP
          (mkHttpClientConfig k
             (string_or_default
                (config_apiVersion
                   (match second with Some c => c | None => no_config end))
                DEFAULT_API_VERSION)
             (match config_timeout
                      (match second with Some c => c | None => no_config end)
              with
              | Some t => if t =? 0 then DEFAULT_TIMEOUT else t
              | None => DEFAULT_TIMEOUT
              end)
             (match config_maxNetworkRetries
                      (match second with Some c => c | None => no_config end)
              with
              | Some n => n
              | None => DEFAULT_MAX_RETRIES
              end)
             (string_or_default
                (config_host
                   (match second with Some c => c | None => no_config end))
                DEFAULT_HOST))).
Proof. intros Hk. destruct k; [contradiction | reflexivity]. Qed.

Lemma makeRequest_request config method path params options k rec :
  fst (makeRequest Number_toString w config method path params options) !! k
  = Some rec ->
  request rec
  = mkRequest ("https://" ++ host config ++ "/v1" ++ path) method
      (<["X-Request-Id" := generateRequestId (w k)]>
         (initial_headers config options))
      params.
Proof.
  intros Hk. unfold makeRequest in Hk.
  rewrite (attempts_request _ _ _ _ _ _ _ _ _ _ _ _ _ Hk). reflexivity.
Qed.

(** X21: a client that was constructed has a key, an API version and a
    host that are not empty and a timeout that is not zero; and the only
    way the constructor fails is the authentication error, status 401,
    which carries no request identifier. *)
Theorem constructor_establishes_config env first second :
  (forall acp,
      constructor env first second = Ok acp ->
      apiKey (_config acp) <> ""
      /\ apiVersion (_config acp) <> ""
      /\ host (_config acp) <> ""
      /\ timeout (_config acp) <> 0)
  /\ (forall err,
        constructor env first second = Throw err ->
        exists e,
          err = OfSdk e
          /\ name e = "ACPAuthenticationError"
          /\ type e = "authentication_error"
          /\ statusCode e = 401
          /\ requestId e = VUndefined).
Proof.
  unfold constructor.
  set (key := match first with
              | Key k => Some k
              | Config c => string_or (config_apiKey c) env
              end).
  set (final := match first with
                | Config c => c
                | Key _ => match second with Some c => c | None => no_config end
                end).
  destruct key as [[|c k]|]; split; try discriminate.
  - intros err [= <-]. eexists. repeat split.
  - intros acp [= <-]. cbn [_config apiKey apiVersion host timeout].
    split; [discriminate|].
    split; [apply string_or_default_nonempty; discriminate|].
    split; [apply string_or_default_nonempty; discriminate|].
    destruct (config_timeout final) as [t|]; [|discriminate].
    destruct (Z.eqb_spec t 0); [discriminate | assumption].
  - intros err [= <-]. eexists. repeat split.
Qed.

(** X22: which key the constructor takes.  A key given as a string is
    the key, whatever the environment and the configuration hold, and an
    empty one is refused even when the environment has a key; with a
    configuration object as the first argument the second argument is not
    read, the object's own key comes first, and the environment is
    consulted only when that key is missing or empty. *)
Theorem constructor_argument_precedence env second :
  (forall k, constructor env (Key k) second = constructor None (Key k) second)
  /\ (forall k,
        k <> "" ->
        exists acp,
          constructor env (Key k) second = Ok acp
          /\ apiKey (_config acp) = k)
  /\ (exists e, constructor env (Key "") second = Throw (OfSdk e))
  /\ (forall c, constructor env (Config c) second
                = constructor env (Config c) None)
  /\ (forall c k,
        config_apiKey c = Some k -> k <> "" ->
        exists acp,
          constructor env (Config c) second = Ok acp
          /\ apiKey (_config acp) = k)
  /\ (forall c k,
        config_apiKey c = None \/ config_apiKey c = Some "" ->
        env = Some k -> k <> "" ->
        exists acp,
          constructor env (Config c) second = Ok acp
          /\ apiKey (_config acp) = k).
Proof.
  split; [reflexivity|].
  split; [intros k Hk; rewrite (constructor_with_key _ _ _ Hk); eauto|].
  split; [eexists; reflexivity|].
  split; [reflexivity|].
  split.
  - intros c k Hc Hk. unfold constructor. rewrite Hc. unfold string_or.
    destruct (String.eqb_spec k ""); [contradiction|].
    destruct k; [contradiction|]. eexists. split; reflexivity.
  - intros c k Hc -> Hk. unfold constructor.
    assert (E : string_or (config_apiKey c) (Some k) = Some k)
      by (destruct Hc as [-> | ->]; reflexivity).
    rewrite E. destruct k; [contradiction|]. eexists. split; reflexivity.
Qed.

(** X23: the methods of the two resources send their requests to the
    path of the resource under [/v1] on the configured host: the method,
    the address and the body of every attempt each of them makes. *)
Theorem resources_route_requests acp id fields options k rec :
  let origin := "https://" ++ host (_config acp) in
  let sends (run : list attempt_record * result ACPError value)
        (verb address : string) (payload : option value) :=
    fst run !! k = Some rec ->
    FetchHttpClient.method (request rec) = verb
    /\ FetchHttpClient.url (request rec) = address
    /\ FetchHttpClient.body (request rec) = payload in
  sends (checkoutSessions_create Number_toString w acp fields options)
    "POST" (origin ++ "/v1/checkout_sessions") (Some (VObj fields))
  /\ sends (checkoutSessions_retrieve Number_toString w acp id options)
       "GET" (origin ++ "/v1/checkout_sessions/" ++ id) None
  /\ sends (checkoutSessions_update Number_toString w acp id fields options)
       "POST" (origin ++ "/v1/checkout_sessions/" ++ id)
       (Some (VObj fields))
  /\ sends (checkoutSessions_complete Number_toString w acp id fields options)
       "POST" (origin ++ "/v1/checkout_sessions/" ++ id ++ "/complete")
       (Some (VObj fields))
  /\ sends (checkoutSessions_cancel Number_toString w acp id options)
       "POST" (origin ++ "/v1/checkout_sessions/" ++ id ++ "/cancel") None
  /\ sends (delegatePayment_create Number_toString w acp fields options)
       "POST" (origin ++ "/v1/delegate_payment") (Some (VObj fields)).
Proof.
  cbn zeta.
  unfold checkoutSessions_create, checkoutSessions_retrieve,
    checkoutSessions_update, checkoutSessions_complete,
    checkoutSessions_cancel, delegatePayment_create, _request, _makeRequest.
  repeat split;
    rewrite (makeRequest_request _ _ _ _ _ _ _ H); reflexivity.
Qed.

(** X24: a client built from a key alone uses the defaults on every
    call made without options: at most three attempts, sent to
    [api.agentic-commerce.com] with the key as bearer token and the
    default API version, and no idempotency key. *)
Theorem default_client_calls env key acp method path params k rec :
  constructor env (Key key) None = Ok acp ->
  fst (_makeRequest Number_toString w acp method path params None) !! k
  = Some rec ->
  (k <= 2)%nat
  /\ FetchHttpClient.url (request rec)
     = "https://api.agentic-commerce.com/v1" ++ path
  /\ headers (request rec) !! "Authorization" = Some ("Bearer " ++ key)
  /\ headers (request rec) !! "ACP-Version" = Some "2026-01-16"
  /\ headers (request rec) !! "Idempotency-Key" = None.
Proof.
  intros Hnew Hk.
  assert (Hkey : key <> "") by (intros ->; discriminate Hnew).
  rewrite (constructor_with_key _ _ _ Hkey) in Hnew.
  injection Hnew as <-. unfold _makeRequest in Hk.
  split.
  - pose proof (call_index_bound _ _ _ _ _ _ _ _ _ Hk) as Hb.
    change (Z.of_nat k <= 2) in Hb. lia.
  - rewrite (makeRequest_request _ _ _ _ _ _ _ Hk).
    cbn [FetchHttpClient.url headers host _config].
    repeat split;
      repeat (rewrite lookup_insert_ne by discriminate);
      try apply lookup_insert_eq; apply lookup_empty.
Qed.

(** X25: retries can be switched off, in the configuration or for one
    call: when the effective [maxNetworkRetries] is zero a call makes
    exactly one attempt and never sleeps; and a configured value of zero
    is kept by the constructor, while a configured timeout of zero is
    replaced by the default. *)
Theorem zero_retries_single_attempt config method path params options :
  effective_maxRetries config options = 0 ->
  let run := makeRequest Number_toString w config method path params options in
  (exists rec, fst run = [rec] /\ slept rec = None)
  /\ (forall env c second acp,
        constructor env (Config c) second = Ok acp ->
        (config_maxNetworkRetries c = Some 0 ->
         maxNetworkRetries (_config acp) = 0)
        /\ (config_timeout c = Some 0 ->
            timeout (_config acp) = DEFAULT_TIMEOUT)).
Proof.
  intros Hzero. cbn zeta. split.
  - destruct (call_first Number_toString w config method path params options)
      as [rec H0]; [lia|].
    pose proof (makeRequest_length Number_toString w config method path
                  params options) as Hlen.
    rewrite Hzero in Hlen.
    destruct (fst (makeRequest _ _ _ _ _ _ _)) as [|x [|y rest]] eqn:E;
      [discriminate H0 | | cbn in Hlen; lia].
    injection H0 as ->. exists rec. split; [reflexivity|].
    assert (Hk : fst (makeRequest Number_toString w config method path
                        params options) !! 0%nat = Some rec)
      by (rewrite E; reflexivity).
    pose proof (makeRequest_at _ _ _ _ _ _ _ _ _ Hk) as H.
    destruct (completion_at _ _ _ _) as [data|e|delay|] eqn:Hc.
    + apply H.
    + apply H.
    + apply completion_continue_lt in Hc. rewrite Hzero in Hc. lia.
    + exact H.
  - intros env c second acp. unfold constructor.
    destruct (string_or (config_apiKey c) env) as [[|a k]|];
      try discriminate.
    intros [= <-]. cbn [_config maxNetworkRetries timeout].
    split; intros ->; reflexivity.
Qed.

End ClientFacts.

(* ===================================================================== *)
(** * Classes of errors and the webhook handler *)
(* ===================================================================== *)

Lemma class_named_extends name :
  Classes.extends (Classes.class_named name) = Some Classes.ACPError_
  \/ Classes.class_named name = Classes.ACPError_.
Proof.
  unfold Classes.class_named.
  repeat match goal with
    | |- context [if ?b then _ else _] => destruct b; [left; reflexivity|]
    end.
  right. reflexivity.
Qed.

Lemma not_instance_of_subclass err d :
  Classes.extends d = Some Classes.ACPError_ ->
  Classes.instanceof err d = false.
Proof.
  intros Hd. destruct err as [e|name message]; cbn [Classes.instanceof].
  - destruct (class_named_extends (Error.name e)) as [H | ->].
    + destruct (Classes.class_named (Error.name e)); try discriminate H;
        destruct d; try discriminate Hd; reflexivity.
    + destruct d; try discriminate Hd; reflexivity.
  - destruct d; try discriminate Hd; reflexivity.
Qed.

(** X26: the constructor of [ACPError] resets the prototype of what it
    builds, so an error made by [new C(...)] for a class [C] of the SDK
    is an instance of [ACPError] and of [Error] and of nothing else, not
    even of [C] when [C] is a subclass; hence no thrown value is an
    instance of a subclass of [ACPError]. *)
Theorem instanceof_sees_base_classes_only :
  (forall c d,
      Classes.new_instanceof c d
      = match c with
        | Classes.Error_ => Classes.class_eqb d Classes.Error_
        | _ => Classes.class_eqb d Classes.ACPError_
               || Classes.class_eqb d Classes.Error_
        end)
  /\ (forall err d,
        Classes.extends d = Some Classes.ACPError_ ->
        Classes.instanceof err d = false)
  /\ (forall e, Classes.instanceof (OfSdk e) Classes.ACPError_ = true).
Proof.
  split; [intros c d; destruct c, d; reflexivity|].
  split; [exact not_instance_of_subclass|].
  intros e. cbn [Classes.instanceof].
  destruct (class_named_extends (Error.name e)) as [H | ->];
    [|reflexivity].
  destruct (Classes.class_named (Error.name e)); try discriminate H;
    reflexivity.
Qed.

Section HandlerFacts.
Import WebhookHandler.

Variable hmac_sha256 : string -> string -> string.
Variable JSON_parse : string -> option value.
Variable Buffer_toString : string -> string.
Variable Date_now : Z.
Variable logged : value -> option (string * string).

Abbreviation handle :=
  (handleWebhook hmac_sha256 JSON_parse Buffer_toString Date_now logged).
Abbreviation constructed req signature :=
  (outcome (constructEvent hmac_sha256 JSON_parse Buffer_toString Date_now
              (Buffer (body req)) signature WEBHOOK_SECRET None)).
Abbreviation verified req signature :=
  (outcome (verifySignature hmac_sha256 Buffer_toString Date_now
              (Buffer (body req)) signature WEBHOOK_SECRET None)).

Lemma constructEvent_verify_link now payload signature secret tolerance :
  match outcome (constructEvent hmac_sha256 JSON_parse Buffer_toString now
                   payload signature secret tolerance) with
  | Ok event =>
      outcome (verifySignature hmac_sha256 Buffer_toString now payload
                 signature secret tolerance) = Ok true
      /\ JSON_parse (payloadString_of Buffer_toString payload) = Some event
  | Throw _ =>
      outcome (verifySignature hmac_sha256 Buffer_toString now payload
                 signature secret tolerance) = Ok false
      \/ JSON_parse (payloadString_of Buffer_toString payload) = None
  end.
Proof.
  rewrite constructEvent_stages, verifySignature_stages.
  destruct (parseHeader signature) as [header|e]; [|left; reflexivity].
  cbn zeta.
  destruct (timestampAge now header >? tolerance_or_default tolerance);
    [left; reflexivity|].
  cbn [outcome snd].
  destruct (sig_matches _ (signatures header)); [|left; reflexivity].
  unfold decode_with.
  destruct (JSON_parse (payloadString_of Buffer_toString payload));
    cbn; auto.
Qed.

Lemma handle_with_signature req signature :
  headers req !! "acp-signature" = Some signature -> signature <> "" ->
  handle req
  = match constructed req signature with
    | Ok event =>
        match logged event with
        | None => Json (VObj [("received", VBool true)])
        | Some _ => Sent 500 "Webhook handler error"
        end
    | Throw _ => Sent 500 "Webhook handler error"
    end.
Proof.
  intros Hs Hne. unfold handleWebhook. rewrite Hs.
  destruct signature as [|c s]; [contradiction|].
  destruct (constructed req (String c s)) as [event|err].
  - destruct (logged event) as [[name message]|]; reflexivity.
  - rewrite not_instance_of_subclass by reflexivity. reflexivity.
Qed.

(** X27: the answers of the example handler.  A request without the
    signature header, or with an empty one, is answered 400
    [Missing ACP-Signature header]; otherwise the answer is
    [{received: true}] when the event is constructed and logging it does
    not throw, and 500 [Webhook handler error] in every other case, a
    failed verification included: the handler never answers 400
    [Invalid signature]. *)
Theorem handler_answers req :
  (headers req !! "acp-signature" = None
   \/ headers req !! "acp-signature" = Some "" ->
   handle req = Sent 400 "Missing ACP-Signature header")
  /\ (forall signature,
        headers req !! "acp-signature" = Some signature ->
        signature <> "" ->
        (forall err,
            constructed req signature = Throw err ->
            handle req = Sent 500 "Webhook handler error")
        /\ (forall event,
              constructed req signature = Ok event ->
              handle req
              = match logged event with
                | None => Json (VObj [("received", VBool true)])
                | Some _ => Sent 500 "Webhook handler error"
                end))
  /\ (handle req = Sent 400 "Missing ACP-Signature header"
      \/ handle req = Sent 500 "Webhook handler error"
      \/ handle req = Json (VObj [("received", VBool true)])).
Proof.
  split; [|split].
  - unfold handleWebhook. intros [-> | ->]; reflexivity.
  - intros signature Hs Hne. rewrite (handle_with_signature _ _ Hs Hne).
    split; [intros err -> | intros event ->]; reflexivity.
  - destruct (headers req !! "acp-signature") as [signature|] eqn:Hs;
      [|left; unfold handleWebhook; rewrite Hs; reflexivity].
    destruct (String.eqb_spec signature "") as [-> | Hne];
      [left; unfold handleWebhook; rewrite Hs; reflexivity|].
    right. rewrite (handle_with_signature _ _ Hs Hne).
    destruct (constructed req signature) as [event|err]; [|auto].
    destruct (logged event); auto.
Qed.

(** X28: the handler acknowledges a request only when its signature
    verifies against the body and the handler's secret under the default
    tolerance and the body decodes; a request whose signature does not
    verify is answered 500. *)
Theorem acknowledged_only_if_verified req :
  (forall data,
      handle req = Json data ->
      data = VObj [("received", VBool true)]
      /\ exists signature event,
          headers req !! "acp-signature" = Some signature
          /\ verified req signature = Ok true
          /\ JSON_parse (Buffer_toString (body req)) = Some event
          /\ logged event = None)
  /\ (forall signature,
        headers req !! "acp-signature" = Some signature ->
        signature <> "" ->
        verified req signature = Ok false ->
        handle req = Sent 500 "Webhook handler error").
Proof.
  split.
  - intros data Hd.
    destruct (headers req !! "acp-signature") as [signature|] eqn:Hs;
      [|unfold handleWebhook in Hd; rewrite Hs in Hd; discriminate Hd].
    destruct (String.eqb_spec signature "") as [-> | Hne];
      [unfold handleWebhook in Hd; rewrite Hs in Hd; discriminate Hd|].
    rewrite (handle_with_signature _ _ Hs Hne) in Hd.
    pose proof (constructEvent_verify_link Date_now (Buffer (body req))
                  signature WEBHOOK_SECRET None) as Hlink.
    destruct (constructed req signature) as [event|err];
      [|discriminate Hd].
    destruct (logged event) as [x|] eqn:Hl; [discriminate Hd|].
    injection Hd as <-. split; [reflexivity|].
    exists signature, event. destruct Hlink as [Hv Hj]. auto.
  - intros signature Hs Hne Hv.
    rewrite (handle_with_signature _ _ Hs Hne).
    pose proof (constructEvent_verify_link Date_now (Buffer (body req))
                  signature WEBHOOK_SECRET None) as Hlink.
    destruct (constructed req signature) as [event|err]; [|reflexivity].
    destruct Hlink as [Hv' _]. congruence.
Qed.

End HandlerFacts.

(* ===================================================================== *)
(** * Reading [Retry-After] *)
(* ===================================================================== *)

Lemma parseInt_letter c rest :
  is_letter c = true -> parseInt (Some (String c rest)) = NaN.
Proof.
  intros H.
  destruct c as [[] [] [] [] [] [] [] []]; try discriminate H; clear H;
    destruct rest as [|c2 [|c3 rest]]; reflexivity.
Qed.

Lemma string_of_Z_nonempty z rest :
  String.eqb (string_of_Z z ++ rest) "" = false.
Proof.
  destruct z as [|p|p].
  - reflexivity.
  - rewrite string_of_Z_pos.
    destruct (uint_head _ (to_uint_nonnil p)) as (c & t & d & E & _).
    rewrite E. reflexivity.
  - rewrite string_of_Z_neg. reflexivity.
Qed.

(** X30: how the delay of a 429 is read from the response.  The header
    is found whatever the case of its name; a missing or empty one
    counts as one second; a value that begins with an integer counts as
    that many seconds, what follows the digits being ignored; and a value
    that begins with a letter, as an HTTP date does, gives no number at
    all. *)
Theorem retry_after_reading r :
  FetchHttpClient.headers_get r "Retry-After"
  = FetchHttpClient.resp_headers r !! "retry-after"
  /\ FetchHttpClient.headers_get r "RETRY-AFTER"
     = FetchHttpClient.headers_get r "Retry-After"
  /\ (FetchHttpClient.resp_headers r !! "retry-after" = None
      \/ FetchHttpClient.resp_headers r !! "retry-after" = Some "" ->
      FetchHttpClient.retry_after_ms r = FetchHttpClient.Millis 1000%Q)
  /\ (forall seconds rest,
        FetchHttpClient.resp_headers r !! "retry-after"
        = Some (string_of_Z seconds ++ rest) ->
        starts_with_digit rest = false ->
        FetchHttpClient.retry_after_ms r
        = FetchHttpClient.Millis (inject_Z (seconds * 1000)))
  /\ (forall c rest,
        FetchHttpClient.resp_headers r !! "retry-after"
        = Some (String c rest) ->
        is_letter c = true ->
        FetchHttpClient.retry_after_ms r = FetchHttpClient.MillisNaN).
Proof.
  split; [reflexivity|]. split; [reflexivity|].
  unfold FetchHttpClient.retry_after_ms, FetchHttpClient.headers_get.
  change (to_lower "Retry-After") with "retry-after".
  split; [|split].
  - intros [-> | ->]; reflexivity.
  - intros seconds rest -> Hrest. unfold FetchHttpClient.header_or.
    rewrite string_of_Z_nonempty, (parseInt_decimal_prefix _ _ Hrest).
    reflexivity.
  - intros c rest -> Hc. unfold FetchHttpClient.header_or.
    change (String.eqb (String c rest) "") with false. cbn iota.
    rewrite (parseInt_letter _ _ Hc). reflexivity.
Qed.

(* ===================================================================== *)
(** * Rate limiting *)
(* ===================================================================== *)

Section RateLimitFacts.
Import FetchHttpClient.

Variable Number_toString : Q -> string.
Variable w : world.
Variable config : HttpClientConfig.
Variables method path : string.
Variable params : option value.
Variable options : option RequestOptions.

Abbreviation limited_call :=
  (makeRequest Number_toString w config method path params options).
Abbreviation allowed := (effective_maxRetries config options).

(** C5, as the code has it: a 429 received on attempt [k] is followed,
    when [k < maxRetries], by a sleep of
    [parseInt(Retry-After || '1', 10) * 1000] milliseconds (the backoff
    plays no part) and then by another attempt; when [k = maxRetries] it
    ends the call in [ACPRateLimitError].  The delay is one second for a
    header that is absent or empty; [n] seconds for a value that begins
    with the integer [n], what follows the digits being ignored; and no
    number at all for a value that begins with a letter, as an HTTP date
    does. *)
Theorem rate_limit_follows_retry_after k rec r :
  fst limited_call !! k = Some rec ->
  fetched (w k) = Responded r ->
  status r = 429 ->
  (Z.of_nat k < allowed ->
   slept rec = Some (retry_after_ms r) /\ is_Some (fst limited_call !! S k))
  /\ (Z.of_nat k = allowed ->
      length (fst limited_call) = S k
      /\ slept rec = None
      /\ exists e,
          snd limited_call = Throw (OfSdk e)
          /\ name e = "ACPRateLimitError"
          /\ type e = "rate_limit_error"
          /\ statusCode e = 429)
  /\ (headers_get r "Retry-After" = None
      \/ headers_get r "Retry-After" = Some "" ->
      retry_after_ms r = Millis 1000%Q)
  /\ (forall seconds rest,
        headers_get r "Retry-After" = Some (string_of_Z seconds ++ rest) ->
        starts_with_digit rest = false ->
        isSafeInteger (seconds * 1000) = true ->
        retry_after_ms r = Millis (inject_Z (seconds * 1000)))
  /\ (forall c rest,
        headers_get r "Retry-After" = Some (String c rest) ->
        is_letter c = true ->
        retry_after_ms r = MillisNaN).
Proof.
  intros Hk Hf Hs.
  pose proof (makeRequest_at Number_toString w config method path params
                options k rec Hk) as H.
  rewrite (completion_rate_limited _ _ _ _ _ Hf Hs) in H.
  split; [|split; [|split; [|split]]].
  - intros Hlt. destruct (Z.ltb_spec (Z.of_nat k) allowed); [|lia].
    destruct H as [Hsl Hn]. auto.
  - intros Heq. destruct (Z.ltb_spec (Z.of_nat k) allowed); [lia|].
    destruct H as (Hlen & Hsl & Hthrow). repeat split; trivial.
    eexists. split; [exact Hthrow|]. repeat split.
  - unfold retry_after_ms. intros [-> | ->]; reflexivity.
  - intros seconds rest Hsome Hrest _. unfold retry_after_ms.
    rewrite Hsome. unfold header_or.
    rewrite string_of_Z_nonempty, (parseInt_decimal_prefix _ _ Hrest).
    reflexivity.
  - intros c rest Hsome Hc. unfold retry_after_ms. rewrite Hsome.
    unfold header_or.
    change (String.eqb (String c rest) "") with false. cbn iota.
    rewrite (parseInt_letter _ _ Hc). reflexivity.
Qed.

End RateLimitFacts.

(** C5, a counterexample to the claim as stated: a 429 whose
    [Retry-After] is [1.5] is followed by a sleep of 1000 milliseconds,
    not of 1.5 seconds times 1000; and one whose [Retry-After] is an HTTP
    date by a sleep of no number of milliseconds. *)
Lemma fractional_retry_after_is_truncated :
  let run_of r :=
    FetchHttpClient.makeRequest Scenario.Number_toString
      (Scenario.always (FetchHttpClient.Responded r)) Scenario.config
      "POST" "/checkout_sessions" None None in
  FetchHttpClient.status Cases.retry_fraction = 429
  /\ FetchHttpClient.headers_get Cases.retry_fraction "Retry-After"
     = Some "1.5"
  /\ Z.of_nat 0 < FetchHttpClient.effective_maxRetries Scenario.config None
  /\ (exists first delay,
        fst (run_of Cases.retry_fraction) !! 0%nat = Some first
        /\ FetchHttpClient.slept first
           = Some (FetchHttpClient.Millis delay)
        /\ (delay == 1000)%Q
        /\ ~ (delay == (3 # 2) * 1000)%Q)
  /\ FetchHttpClient.status Cases.retry_at_date = 429
  /\ exists first,
      fst (run_of Cases.retry_at_date) !! 0%nat = Some first
      /\ FetchHttpClient.slept first = Some FetchHttpClient.MillisNaN.
Proof.
  cbn zeta. split; [reflexivity|]. split; [reflexivity|].
  split; [reflexivity|]. split; [|split; [reflexivity|]].
  - do 2 eexists. split; [vm_compute; reflexivity|].
    split; [vm_compute; reflexivity|]. split; [reflexivity|].
    intros E. vm_compute in E. discriminate E.
  - eexists. split; vm_compute; reflexivity.
Qed.

(* ===================================================================== *)
(** * The further properties, on concrete cases *)
(* ===================================================================== *)

(** A header without a timestamp, and one without a signature. *)
Lemma parseHeader_failures_witness :
  Webhooks.parseHeader "v1=abc"
  = Webhooks.sig_error "Unable to extract timestamp from webhook header."
  /\ Webhooks.parseHeader "t=5"
     = Webhooks.sig_error "Unable to extract signature from webhook header.".
Proof.
  destruct parseHeader_failures as (_ & Ht & Hv). split.
  - apply Ht; [discriminate|]. intros part Hin.
    change (In part ["v1=abc"]) in Hin. destruct Hin as [<- | []].
    intros E. vm_compute in E. discriminate E.
  - apply (Hv "t=5" 5); [discriminate | reflexivity | discriminate |].
    intros part Hin.
    change (In part ["t=5"]) in Hin. destruct Hin as [<- | []].
    intros E. vm_compute in E. discriminate E.
Defined.

(** The scenario header with the digest under a second secret appended. *)
Lemma second_signature_appended_witness :
  let extra :=
    digest_with Sha256.hmac_sha256
      (Webhooks.timestamp Scenario.parsed_header)
      (Webhooks.payloadString_of Scenario.Buffer_toString
         (Webhooks.Text Scenario.payload))
      "whsec_next" in
  let rotated := Scenario.header ++ ",v1=" ++ extra in
  Webhooks.outcome
    (Webhooks.verifySignature Sha256.hmac_sha256 Scenario.Buffer_toString
       Scenario.now (Webhooks.Text Scenario.payload) rotated Scenario.secret
       None)
  = Ok true
  /\ Webhooks.outcome
       (Webhooks.verifySignature Sha256.hmac_sha256 Scenario.Buffer_toString
          Scenario.now (Webhooks.Text Scenario.payload) rotated "whsec_next"
          None)
     = Ok true.
Proof.
  cbn zeta.
  assert (Hp : Webhooks.parseHeader Scenario.header
               = Ok Scenario.parsed_header)
    by (vm_compute; reflexivity).
  assert (Hold : Webhooks.outcome
                   (Webhooks.verifySignature Sha256.hmac_sha256
                      Scenario.Buffer_toString Scenario.now
                      (Webhooks.Text Scenario.payload) Scenario.header
                      Scenario.secret None)
                 = Ok true)
    by (vm_compute; reflexivity).
  assert (Hfresh : Webhooks.timestampAge Scenario.now Scenario.parsed_header
                   <= Webhooks.tolerance_or_default None)
    by (vm_compute; discriminate).
  destruct (second_signature_appended Sha256.hmac_sha256
              Scenario.Buffer_toString Scenario.now
              (Webhooks.Text Scenario.payload) Scenario.header
              Scenario.secret "whsec_next" None Scenario.parsed_header Hp)
    as (_ & Hkept & Hnew).
  split; [exact (Hkept Hold) | exact (Hnew Hfresh)].
Defined.

(** The scenario event, constructed. *)
Lemma constructEvent_outcomes_witness :
  Webhooks.outcome
    (Webhooks.constructEvent Sha256.hmac_sha256 Scenario.JSON_parse
       Scenario.Buffer_toString Scenario.now (Webhooks.Text Scenario.payload)
       Scenario.header Scenario.secret None)
  = Ok Scenario.event.
Proof.
  destruct (constructEvent_outcomes Sha256.hmac_sha256 Scenario.JSON_parse
              Scenario.Buffer_toString Scenario.now
              (Webhooks.Text Scenario.payload) Scenario.header
              Scenario.secret None) as [Hok _].
  apply (proj2 (Hok Scenario.event)). split; vm_compute; reflexivity.
Defined.

(** The scenario header with the unit written after the timestamp. *)
Lemma timestamp_suffix_ignored_witness :
  Webhooks.outcome
    (Webhooks.verifySignature Sha256.hmac_sha256 Scenario.Buffer_toString
       Scenario.now (Webhooks.Text Scenario.payload)
       ("t=" ++ (string_of_Z 1700000000 ++ "s") ++ ",v1="
        ++ digest_with Sha256.hmac_sha256 1700000000 Scenario.payload
             Scenario.secret)
       Scenario.secret None)
  = Ok true.
Proof.
  assert (Hfresh : Scenario.now / 1000 - 1700000000
                   <= Webhooks.tolerance_or_default None)
    by (vm_compute; discriminate).
  assert (Hne : 1700000000 <> 0) by discriminate.
  exact (proj2 (timestamp_suffix_ignored Sha256.hmac_sha256
                  Scenario.Buffer_toString Scenario.now Scenario.payload
                  Scenario.secret 1700000000 "s" None Hne eq_refl eq_refl
                  eq_refl eq_refl Hfresh)).
Defined.

(** The body of a 404, with and without its envelope. *)
Lemma generate_reads_through_envelope_witness :
  Error.generate 404
    (Scenario.error_envelope "not_found_error" "resource_not_found"
       "No such checkout session")
    (VStr "req_1")
  = Error.generate 404
      (VObj [("type", VStr "not_found_error");
             ("code", VStr "resource_not_found");
             ("message", VStr "No such checkout session")])
      (VStr "req_1").
Proof.
  apply generate_reads_through_envelope; reflexivity.
Defined.

(** A 502 whose body is [null]. *)
Lemma generate_without_fields_witness :
  Error.message (Error.generate 502 VNull VUndefined)
  = VStr "Request failed with status 502".
Proof.
  exact (proj1 (generate_without_fields 502 VNull VUndefined
                  (fun _ => eq_refl))).
Defined.

(** The fourth attempt with a draw of one half, and the ninth. *)
Lemma backoff_bounds_witness :
  (375 <= FetchHttpClient.getBackoffMs 3 (1 # 2) <= 20000)%Q
  /\ (FetchHttpClient.getBackoffMs 8 (1 # 2) == 30000)%Q.
Proof.
  assert (Hdraw : (0 <= 1 # 2 < 1)%Q)
    by (split; [discriminate | reflexivity]).
  assert (H35 : (3 <= 5)%nat) by (repeat constructor).
  assert (H78 : (7 <= 8)%nat) by (repeat constructor).
  destruct (backoff_bounds 3 (1 # 2) Hdraw) as ([Hlow _] & _ & Hsmall & _).
  destruct (backoff_bounds 8 (1 # 2) Hdraw) as (_ & _ & _ & Hcap).
  split; [split; [exact Hlow | exact (proj2 (Hsmall H35))] | exact (Hcap H78)].
Defined.

(** A call allowed minus one retries. *)
Lemma attempts_bounded_witness :
  FetchHttpClient.makeRequest Scenario.Number_toString Cases.flaky
    Scenario.config "POST" "/checkout_sessions" None Cases.none_allowed
  = ([], Throw (OfSdk (Error.ACPConnectionError
                         (VStr "Request failed after 0 attempts: Unknown error")))).
Proof.
  assert (Hneg : FetchHttpClient.effective_maxRetries Scenario.config
                   Cases.none_allowed < 0)
    by (vm_compute; reflexivity).
  exact (proj2 (proj2 (proj2 (attempts_bounded Scenario.Number_toString
                                Cases.flaky Scenario.config "POST"
                                "/checkout_sessions" None
                                Cases.none_allowed))) Hneg).
Defined.


(** The delay slept after a 503 on the first attempt. *)
Lemma sleep_is_retry_after_or_backoff_witness :
  exists first delay,
    fst (FetchHttpClient.makeRequest Scenario.Number_toString Cases.flaky
           Scenario.config "POST" "/checkout_sessions" None None) !! 0%nat
    = Some first
    /\ FetchHttpClient.slept first = Some delay
    /\ Z.of_nat 0
       < FetchHttpClient.effective_maxRetries Scenario.config None.
Proof.
  assert (H0 : is_Some
                 (fst (FetchHttpClient.makeRequest Scenario.Number_toString
                         Cases.flaky Scenario.config "POST"
                         "/checkout_sessions" None None) !! 0%nat))
    by (vm_compute; eauto).
  destruct H0 as [first H0].
  pose proof (makeRequest_at Scenario.Number_toString Cases.flaky
                Scenario.config "POST" "/checkout_sessions" None None
                0%nat first H0) as Hat.
  assert (Hc : completion_at Cases.flaky
                 (FetchHttpClient.effective_timeout Scenario.config None)
                 (FetchHttpClient.effective_maxRetries Scenario.config None)
                 0
               = FetchHttpClient.Continue
                   (FetchHttpClient.Millis
                      (FetchHttpClient.getBackoffMs 0 (1 # 2))))
    by (vm_compute; reflexivity).
  rewrite Hc in Hat. destruct Hat as [Hs _].
  exists first, (FetchHttpClient.Millis
                   (FetchHttpClient.getBackoffMs 0 (1 # 2))).
  split; [exact H0|]. split; [exact Hs|].
  exact (proj1 (sleep_is_retry_after_or_backoff Scenario.Number_toString
                  Cases.flaky Scenario.config "POST" "/checkout_sessions"
                  None None 0%nat first _ H0 Hs)).
Defined.

(** A 503, a failed request, and then the session. *)
Lemma success_is_last_response_witness :
  exists k r,
    length (fst (FetchHttpClient.makeRequest Scenario.Number_toString
                   Cases.flaky Scenario.config "POST" "/checkout_sessions"
                   None None)) = S k
    /\ FetchHttpClient.fetched (Cases.flaky k) = FetchHttpClient.Responded r
    /\ FetchHttpClient.json r = FetchHttpClient.JsonOk Cases.session.
Proof.
  assert (Hr : snd (FetchHttpClient.makeRequest Scenario.Number_toString
                      Cases.flaky Scenario.config "POST"
                      "/checkout_sessions" None None) = Ok Cases.session)
    by (vm_compute; reflexivity).
  destruct (proj2 (success_is_last_response Scenario.Number_toString
                     Cases.flaky Scenario.config "POST" "/checkout_sessions"
                     None None) Cases.session Hr)
    as (k & rec & r & _ & Hlen & Hf & _ & Hj).
  exists k, r. auto.
Defined.



(** The first two attempts of a call that needs three. *)
Lemma requests_differ_only_in_request_id_witness :
  exists a b,
    fst (FetchHttpClient.makeRequest Scenario.Number_toString Cases.flaky
           Scenario.config "POST" "/checkout_sessions" None None) !! 0%nat
    = Some a
    /\ fst (FetchHttpClient.makeRequest Scenario.Number_toString Cases.flaky
              Scenario.config "POST" "/checkout_sessions" None None) !! 1%nat
       = Some b
    /\ FetchHttpClient.url (FetchHttpClient.request a)
       = FetchHttpClient.url (FetchHttpClient.request b)
    /\ delete "X-Request-Id"
         (FetchHttpClient.headers (FetchHttpClient.request a))
       = delete "X-Request-Id"
           (FetchHttpClient.headers (FetchHttpClient.request b)).
Proof.
  assert (H0 : is_Some
                 (fst (FetchHttpClient.makeRequest Scenario.Number_toString
                         Cases.flaky Scenario.config "POST"
                         "/checkout_sessions" None None) !! 0%nat))
    by (vm_compute; eauto).
  assert (H1 : is_Some
                 (fst (FetchHttpClient.makeRequest Scenario.Number_toString
                         Cases.flaky Scenario.config "POST"
                         "/checkout_sessions" None None) !! 1%nat))
    by (vm_compute; eauto).
  destruct H0 as [a H0]. destruct H1 as [b H1].
  destruct (requests_differ_only_in_request_id Scenario.Number_toString
              Cases.flaky Scenario.config "POST" "/checkout_sessions" None
              None 0%nat 1%nat a b H0 H1)
    as (_ & _ & _ & _ & _ & _ & _ & Hurl & _ & _ & Hheaders).
  exists a, b. split; [exact H0|]. split; [exact H1|].
  split; [exact Hurl | exact Hheaders].
Defined.

(** A call answered 404. *)
Lemma failure_is_sdk_error_witness :
  exists e,
    snd (FetchHttpClient.makeRequest Scenario.Number_toString
           (Scenario.always (FetchHttpClient.Responded Scenario.not_found))
           Scenario.config "GET" "/checkout_sessions/cs_404" None None)
    = Throw (OfSdk e)
    /\ (Error.statusCode e = 0 \/ Error.statusCode e = 404).
Proof.
  eassert (Hthrow :
             snd (FetchHttpClient.makeRequest Scenario.Number_toString
                    (Scenario.always
                       (FetchHttpClient.Responded Scenario.not_found))
                    Scenario.config "GET" "/checkout_sessions/cs_404"
                    None None) = Throw _)
    by (vm_compute; reflexivity).
  destruct (failure_is_sdk_error _ _ _ _ _ _ _ _ Hthrow)
    as (e & He & Hkind).
  exists e. split; [rewrite Hthrow, He; reflexivity|].
  destruct Hkind as [(_ & _ & Hzero & _)
                    | (k & rec & r & sent & _ & _ & Hf & _ & Hs & _)].
  - left. exact Hzero.
  - right. injection Hf as <-. exact Hs.
Defined.

(** A client made from a key, and one made from nothing. *)
Lemma constructor_establishes_config_witness :
  (exists acp,
      Client.constructor None (Client.Key "sk_test_demo_key") None = Ok acp
      /\ FetchHttpClient.apiVersion (Client._config acp) <> ""
      /\ FetchHttpClient.timeout (Client._config acp) <> 0)
  /\ exists e,
      Client.constructor None (Client.Config Client.no_config) None
      = Throw (OfSdk e)
      /\ Error.statusCode e = 401.
Proof.
  split.
  - eexists. split; [reflexivity|].
    destruct (proj1 (constructor_establishes_config None
                       (Client.Key "sk_test_demo_key") None) _ eq_refl)
      as (_ & Hv & _ & Ht).
    split; [exact Hv | exact Ht].
  - destruct (proj2 (constructor_establishes_config None
                       (Client.Config Client.no_config) None) _ eq_refl)
      as (e & He & _ & _ & Hs & _).
    exists e. split; [rewrite <- He; reflexivity | exact Hs].
Defined.

(** A key in the arguments and another in the environment. *)
Lemma constructor_argument_precedence_witness :
  (exists acp,
      Client.constructor (Some "sk_env") (Client.Key "sk_arg")
        (Some Cases.impatient) = Ok acp
      /\ FetchHttpClient.apiKey (Client._config acp) = "sk_arg")
  /\ (exists acp,
        Client.constructor (Some "sk_env") (Client.Config Cases.impatient)
          (Some Cases.impatient) = Ok acp
        /\ FetchHttpClient.apiKey (Client._config acp) = "sk_test_demo_key")
  /\ exists acp,
      Client.constructor (Some "sk_env") (Client.Config Client.no_config)
        (Some Cases.impatient) = Ok acp
      /\ FetchHttpClient.apiKey (Client._config acp) = "sk_env".
Proof.
  destruct (constructor_argument_precedence (Some "sk_env")
              (Some Cases.impatient))
    as (_ & Hkey & _ & _ & Hown & Henv).
  assert (Ha : "sk_arg" <> "") by discriminate.
  assert (Hb : "sk_test_demo_key" <> "") by discriminate.
  assert (Hc : "sk_env" <> "") by discriminate.
  split; [exact (Hkey "sk_arg" Ha)|].
  split; [exact (Hown Cases.impatient "sk_test_demo_key" eq_refl Hb)|].
  exact (Henv Client.no_config "sk_env" (or_introl eq_refl) eq_refl Hc).
Defined.

(** Completing a session. *)
Lemma resources_route_requests_witness :
  exists rec,
    fst (Client.checkoutSessions_complete Scenario.Number_toString
           Cases.flaky Cases.demo_client "cs_1"
           [("payment_data", VObj [("token", VStr "vt_1")])] None) !! 0%nat
    = Some rec
    /\ FetchHttpClient.method (FetchHttpClient.request rec) = "POST"
    /\ FetchHttpClient.url (FetchHttpClient.request rec)
       = "https://api.agentic-commerce.com/v1/checkout_sessions/cs_1/complete".
Proof.
  assert (H0 : is_Some
                 (fst (Client.checkoutSessions_complete
                         Scenario.Number_toString Cases.flaky
                         Cases.demo_client "cs_1"
                         [("payment_data", VObj [("token", VStr "vt_1")])]
                         None) !! 0%nat))
    by (vm_compute; eauto).
  destruct H0 as [rec H0].
  destruct (resources_route_requests Scenario.Number_toString Cases.flaky
              Cases.demo_client "cs_1"
              [("payment_data", VObj [("token", VStr "vt_1")])] None
              0%nat rec)
    as (_ & _ & _ & Hcomplete & _).
  destruct (Hcomplete H0) as (Hm & Hu & _).
  exists rec. split; [exact H0|]. split; [exact Hm | exact Hu].
Defined.

(** The second attempt of a client made from a key alone. *)
Lemma default_client_calls_witness :
  exists rec,
    Client.constructor None (Client.Key "sk_test_demo_key") None
    = Ok Cases.demo_client
    /\ fst (Client._makeRequest Scenario.Number_toString Cases.flaky
              Cases.demo_client "GET" "/checkout_sessions/cs_1" None None)
         !! 1%nat = Some rec
    /\ FetchHttpClient.headers (FetchHttpClient.request rec) !! "ACP-Version"
       = Some "2026-01-16".
Proof.
  assert (Hnew : Client.constructor None (Client.Key "sk_test_demo_key") None
                 = Ok Cases.demo_client)
    by reflexivity.
  assert (H1 : is_Some
                 (fst (Client._makeRequest Scenario.Number_toString
                         Cases.flaky Cases.demo_client "GET"
                         "/checkout_sessions/cs_1" None None) !! 1%nat))
    by (vm_compute; eauto).
  destruct H1 as [rec H1].
  destruct (default_client_calls Scenario.Number_toString Cases.flaky None
              "sk_test_demo_key" Cases.demo_client "GET"
              "/checkout_sessions/cs_1" None 1%nat rec Hnew H1)
    as (_ & _ & _ & Hversion & _).
  exists rec. split; [exact Hnew|]. split; [exact H1 | exact Hversion].
Defined.

(** A call made with [maxNetworkRetries: 0] that is answered 503. *)
Lemma zero_retries_single_attempt_witness :
  exists rec,
    fst (FetchHttpClient.makeRequest Scenario.Number_toString
           (Scenario.always (FetchHttpClient.Responded Scenario.unavailable))
           Scenario.config "POST" "/checkout_sessions" None Cases.once)
    = [rec]
    /\ FetchHttpClient.slept rec = None.
Proof.
  exact (proj1 (zero_retries_single_attempt Scenario.Number_toString
                  (Scenario.always
                     (FetchHttpClient.Responded Scenario.unavailable))
                  Scenario.config "POST" "/checkout_sessions" None
                  Cases.once eq_refl)).
Defined.

(** The error of a failed verification, tested as the handler does. *)
Lemma instanceof_sees_base_classes_only_witness :
  Classes.instanceof
    (OfSdk (Error.ACPSignatureVerificationError (VStr "No matching signature")))
    Classes.ACPSignatureVerificationError_
  = false.
Proof.
  exact (proj1 (proj2 instanceof_sees_base_classes_only) _
           Classes.ACPSignatureVerificationError_ eq_refl).
Defined.

(** A signed delivery, a forged one, and one without a signature. *)
Lemma handler_answers_witness :
  WebhookHandler.handleWebhook Sha256.hmac_sha256 Scenario.JSON_parse
    Scenario.Buffer_toString Scenario.now Cases.quiet Cases.delivery
  = WebhookHandler.Json (VObj [("received", VBool true)])
  /\ WebhookHandler.handleWebhook Sha256.hmac_sha256 Scenario.JSON_parse
       Scenario.Buffer_toString Scenario.now Cases.quiet Cases.forged
     = WebhookHandler.Sent 500 "Webhook handler error"
  /\ WebhookHandler.handleWebhook Sha256.hmac_sha256 Scenario.JSON_parse
       Scenario.Buffer_toString Scenario.now Cases.quiet Cases.unsigned
     = WebhookHandler.Sent 400 "Missing ACP-Signature header".
Proof.
  assert (Ha : Cases.handler_signature <> "") by discriminate.
  assert (Hb : Scenario.header <> "") by discriminate.
  assert (Hsigned : WebhookHandler.headers Cases.delivery !! "acp-signature"
                    = Some Cases.handler_signature)
    by (vm_compute; reflexivity).
  assert (Hforged : WebhookHandler.headers Cases.forged !! "acp-signature"
                    = Some Scenario.header)
    by (vm_compute; reflexivity).
  assert (Hnone : WebhookHandler.headers Cases.unsigned !! "acp-signature"
                  = None)
    by (vm_compute; reflexivity).
  eassert (Hok : Webhooks.outcome
                   (Webhooks.constructEvent Sha256.hmac_sha256
                      Scenario.JSON_parse Scenario.Buffer_toString
                      Scenario.now
                      (Webhooks.Buffer (WebhookHandler.body Cases.delivery))
                      Cases.handler_signature WebhookHandler.WEBHOOK_SECRET
                      None) = Ok Scenario.event)
    by (vm_compute; reflexivity).
  eassert (Hbad : Webhooks.outcome
                    (Webhooks.constructEvent Sha256.hmac_sha256
                       Scenario.JSON_parse Scenario.Buffer_toString
                       Scenario.now
                       (Webhooks.Buffer (WebhookHandler.body Cases.forged))
                       Scenario.header WebhookHandler.WEBHOOK_SECRET
                       None) = Throw _)
    by (vm_compute; reflexivity).
  split; [|split].
  - exact (proj2 (proj1 (proj2 (handler_answers Sha256.hmac_sha256
                                  Scenario.JSON_parse
                                  Scenario.Buffer_toString Scenario.now
                                  Cases.quiet Cases.delivery))
                    _ Hsigned Ha) _ Hok).
  - exact (proj1 (proj1 (proj2 (handler_answers Sha256.hmac_sha256
                                  Scenario.JSON_parse
                                  Scenario.Buffer_toString Scenario.now
                                  Cases.quiet Cases.forged))
                    _ Hforged Hb) _ Hbad).
  - exact (proj1 (handler_answers Sha256.hmac_sha256 Scenario.JSON_parse
                    Scenario.Buffer_toString Scenario.now Cases.quiet
                    Cases.unsigned) (or_introl Hnone)).
Defined.

(** The forged delivery is not acknowledged; the signed one verifies. *)
Lemma acknowledged_only_if_verified_witness :
  WebhookHandler.handleWebhook Sha256.hmac_sha256 Scenario.JSON_parse
    Scenario.Buffer_toString Scenario.now Cases.quiet Cases.forged
  = WebhookHandler.Sent 500 "Webhook handler error"
  /\ exists signature,
      WebhookHandler.headers Cases.delivery !! "acp-signature"
      = Some signature
      /\ Webhooks.outcome
           (Webhooks.verifySignature Sha256.hmac_sha256
              Scenario.Buffer_toString Scenario.now
              (Webhooks.Buffer (WebhookHandler.body Cases.delivery))
              signature WebhookHandler.WEBHOOK_SECRET None)
         = Ok true.
Proof.
  assert (Hb : Scenario.header <> "") by discriminate.
  assert (Hforged : WebhookHandler.headers Cases.forged !! "acp-signature"
                    = Some Scenario.header)
    by (vm_compute; reflexivity).
  assert (Hv : Webhooks.outcome
                 (Webhooks.verifySignature Sha256.hmac_sha256
                    Scenario.Buffer_toString Scenario.now
                    (Webhooks.Buffer (WebhookHandler.body Cases.forged))
                    Scenario.header WebhookHandler.WEBHOOK_SECRET None)
               = Ok false)
    by (vm_compute; reflexivity).
  assert (Hack : WebhookHandler.handleWebhook Sha256.hmac_sha256
                   Scenario.JSON_parse Scenario.Buffer_toString Scenario.now
                   Cases.quiet Cases.delivery
                 = WebhookHandler.Json (VObj [("received", VBool true)]))
    by (vm_compute; reflexivity).
  split.
  - exact (proj2 (acknowledged_only_if_verified Sha256.hmac_sha256
                    Scenario.JSON_parse Scenario.Buffer_toString Scenario.now
                    Cases.quiet Cases.forged) _ Hforged Hb Hv).
  - destruct (proj1 (acknowledged_only_if_verified Sha256.hmac_sha256
                       Scenario.JSON_parse Scenario.Buffer_toString
                       Scenario.now Cases.quiet Cases.delivery) _ Hack)
      as (_ & signature & event & Hs & Hver & _).
    exists signature. split; [exact Hs | exact Hver].
Defined.

(** [Retry-After] as a date, and with a fraction. *)
Lemma retry_after_reading_witness :
  FetchHttpClient.retry_after_ms Cases.retry_at_date
  = FetchHttpClient.MillisNaN
  /\ FetchHttpClient.retry_after_ms Cases.retry_fraction
     = FetchHttpClient.Millis (inject_Z (1 * 1000)).
Proof.
  split.
  - apply (proj2 (proj2 (proj2 (proj2
             (retry_after_reading Cases.retry_at_date))))
             "W"%char "ed, 21 Oct 2026 07:28:00 GMT");
      vm_compute; reflexivity.
  - apply (proj1 (proj2 (proj2 (proj2
             (retry_after_reading Cases.retry_fraction))))
             1 ".5");
      vm_compute; reflexivity.
Defined.


(** A 429 with [Retry-After: 2] on every attempt: two seconds after the
    first, the rate-limit error after the third. *)
Lemma rate_limit_follows_retry_after_witness :
  let run :=
    FetchHttpClient.makeRequest Scenario.Number_toString
      (Scenario.always (FetchHttpClient.Responded Scenario.rate_limited))
      Scenario.config "POST" "/checkout_sessions" None None in
  exists first last,
    fst run !! 0%nat = Some first
    /\ FetchHttpClient.slept first = Some (FetchHttpClient.Millis 2000%Q)
    /\ fst run !! 2%nat = Some last
    /\ FetchHttpClient.slept last = None
    /\ exists e, snd run = Throw (OfSdk e)
                 /\ Error.name e = "ACPRateLimitError".
Proof.
  cbn zeta.
  pose (w := Scenario.always (FetchHttpClient.Responded Scenario.rate_limited)).
  assert (H0 : is_Some
                 (fst (FetchHttpClient.makeRequest Scenario.Number_toString w
                         Scenario.config "POST" "/checkout_sessions"
                         None None) !! 0%nat))
    by (vm_compute; eauto).
  assert (H2 : is_Some
                 (fst (FetchHttpClient.makeRequest Scenario.Number_toString w
                         Scenario.config "POST" "/checkout_sessions"
                         None None) !! 2%nat))
    by (vm_compute; eauto).
  destruct H0 as [first H0]. destruct H2 as [last H2].
  destruct (rate_limit_follows_retry_after Scenario.Number_toString w
              Scenario.config "POST" "/checkout_sessions" None None
              0%nat first Scenario.rate_limited H0 eq_refl eq_refl)
    as (Hretry & _ & _ & Hvalue & _).
  destruct (Hretry ltac:(vm_compute; reflexivity)) as [Hslept _].
  specialize (Hvalue 2 "" ltac:(vm_compute; reflexivity) eq_refl eq_refl).
  destruct (rate_limit_follows_retry_after Scenario.Number_toString w
              Scenario.config "POST" "/checkout_sessions" None None
              2%nat last Scenario.rate_limited H2 eq_refl eq_refl)
    as (_ & Hstop & _).
  destruct (Hstop eq_refl) as (_ & Hnone & e & Hthrow & Hname & _).
  exists first, last. split; [exact H0|]. split.
  - rewrite Hslept, Hvalue. reflexivity.
  - split; [exact H2|]. split; [exact Hnone|]. exists e. auto.
Defined.

(** The scenario header, read back. *)
Lemma generated_header_parses_witness :
  Webhooks.parseHeader
    ("t=" ++ string_of_Z 1700000000 ++ ",v1="
     ++ digest_with Sha256.hmac_sha256 1700000000 Scenario.payload
          Scenario.secret)
  = Ok (Webhooks.mkWebhookHeader 1700000000
          [Some (digest_with Sha256.hmac_sha256 1700000000 Scenario.payload
                   Scenario.secret)]).
Proof.
  exact (proj2 (generated_header_parses Sha256.hmac_sha256 Scenario.now
                  Scenario.payload Scenario.secret (Some 1700000000)
                  eq_refl)).
Defined.

(** The scenario header, verified a hundred seconds after it was made. *)
Lemma generated_header_verifies_exactly_witness :
  Webhooks.outcome
    (Webhooks.verifySignature Sha256.hmac_sha256 Scenario.Buffer_toString
       Scenario.now (Webhooks.Text Scenario.payload)
       ("t=" ++ string_of_Z 1700000000 ++ ",v1="
        ++ digest_with Sha256.hmac_sha256 1700000000 Scenario.payload
             Scenario.secret)
       Scenario.secret None)
  = Ok true.
Proof.
  assert (Hne : 1700000000 <> 0) by discriminate.
  assert (Hfresh : Scenario.now / 1000 - 1700000000
                   <= Webhooks.tolerance_or_default None)
    by (vm_compute; discriminate).
  exact (proj2 (proj2 (generated_header_verifies_exactly Sha256.hmac_sha256
                         Scenario.JSON_parse Scenario.Buffer_toString
                         Scenario.now
                         Scenario.payload Scenario.secret (Some 1700000000)
                         (Webhooks.Text Scenario.payload) Scenario.secret
                         None eq_refl))
           (conj Hne (conj Hfresh eq_refl))).
Defined.

(** The error made from the body of a 404. *)
Lemma generate_classifies_witness :
  let e :=
    Error.generate 404
      (Scenario.error_envelope "not_found_error" "resource_not_found"
         "No such checkout session")
      (VStr "req_1") in
  (Error.name e, Error.type e) = ("ACPNotFoundError", "not_found_error")
  /\ Error.param e = VUndefined.
Proof.
  cbn zeta.
  destruct (generate_classifies 404
              (Scenario.error_envelope "not_found_error" "resource_not_found"
                 "No such checkout session")
              (VStr "req_1"))
    as (Hkind & _ & _ & _ & _ & Hparam).
  split; [exact Hkind|]. apply Hparam. discriminate.
Defined.
